(** * OpenTelemetry instrumentation of the Anthropic client

    A shallow embedding of
    [opentelemetry/instrumentation/anthropic/__init__.py] and the properties
    of its call wrapper, attribute extraction, content-tracing policy and
    install/remove lifecycle.

    Conventions of the embedding:
    - a Python value is a [pyval]; a string is a sequence of code points
      below 256, one [ascii] each; integers are unbounded ([Z]); floats are
      outside the value domain;
    - a Python [dict] is an association list in insertion order; the process
      environment, the context and the table of importable modules are
      finite maps;
    - a function that mutates its [span] argument is a computation in the
      state-and-exception monad [M Span]: what was written before an
      exception stays written;
    - a span keeps the sequence of attribute writes issued on it, oldest
      first; the attribute mapping a backend sees is the last write per key;
    - the original method of the client library is given by its outcome on
      the arguments, a value or an exception;
    - the tracing library, [wrapt] and [unwrap] are outside the module: they
      are modelled by what the module relies on.

    The file has the embedding first, then the definitions the statements
    use, then the lemmas and the theorems of the claims C1 to C10. *)

From Stdlib Require Import ZArith String Ascii List Lia Bool.
From stdpp Require Import base option list gmap strings pretty.
Import ListNotations.

Local Open Scope Z_scope.
Local Open Scope list_scope.
Set Warnings "-register-all".

(** ** Python values *)

Inductive pyval : Type :=
| VNone
| VBool (b : bool)
| VInt (z : Z)
| VStr (s : string)
| VList (xs : list pyval)
| VDict (kvs : list (string * pyval))
| VObj (cls : string) (attrs : list (string * pyval)).

(** A Python [dict] with string keys. *)
Abbreviation pydict := (list (string * pyval)).

(** An exception: its class name, [str(ex)], and whether the class derives
    from [Exception] (what [except Exception] catches). *)
Record exn : Type := Exn {
  exn_type : string;
  exn_msg : string;
  is_Exception : bool
}.

Inductive result (A : Type) : Type :=
| Ok (a : A)
| Raise (e : exn).
Arguments Ok {A} a.
Arguments Raise {A} e.

Definition type_name (v : pyval) : string :=
  match v with
  | VNone => "NoneType"
  | VBool _ => "bool"
  | VInt _ => "int"
  | VStr _ => "str"
  | VList _ => "list"
  | VDict _ => "dict"
  | VObj cls _ => cls
  end.

Definition the_quote : string := String (ascii_of_nat 39) EmptyString.

Definition AttributeError (v : pyval) (attr : string) : exn :=
  Exn "AttributeError"
      (the_quote +:+ type_name v +:+ the_quote +:+ " object has no attribute "
       +:+ the_quote +:+ attr +:+ the_quote) true.

Definition TypeError (msg : string) : exn := Exn "TypeError" msg true.
Definition KeyError (msg : string) : exn := Exn "KeyError" msg true.
Definition ImportError (msg : string) : exn := Exn "ImportError" msg true.

(** ** The state-and-exception monad *)

Definition M (S A : Type) : Type := S -> S * result A.

Definition ret {S A} (a : A) : M S A := fun s => (s, Ok a).

Definition raise {S A} (e : exn) : M S A := fun s => (s, Raise e).

Definition bind {S A B} (m : M S A) (k : A -> M S B) : M S B :=
  fun s => match m s with
           | (s', Ok a) => k a s'
           | (s', Raise e) => (s', Raise e)
           end.

(** A pure, fallible step (attribute access, arithmetic) inside [M]. *)
Definition lift {S A} (r : result A) : M S A := fun s => (s, r).

Declare Scope py_scope.
Delimit Scope py_scope with py.
Notation "x <- c1 ;; c2" := (bind c1 (fun x => c2))
  (at level 100, c1 at next level, right associativity) : py_scope.
Notation "c1 ;; c2" := (bind c1 (fun _ => c2))
  (at level 100, right associativity) : py_scope.
Local Open Scope py_scope.

(** Sequencing of pure, fallible steps. *)
Definition rbind {A B} (r : result A) (k : A -> result B) : result B :=
  match r with
  | Ok a => k a
  | Raise e => Raise e
  end.

Notation "'let?' x ':=' r 'in' k" := (rbind r (fun x => k))
  (at level 10, x name, r at level 100, k at level 200) : py_scope.

(** Reading and updating the state. *)
Definition get {S} : M S S := fun s => (s, Ok s).
Definition modify {S} (f : S -> S) : M S unit := fun s => (f s, Ok tt).

(** [for x in xs: body(x)] *)
Fixpoint for_each {S A} (xs : list A) (body : A -> M S unit) : M S unit :=
  match xs with
  | [] => ret tt
  | x :: rest => body x ;; for_each rest body
  end.

(** [[f(x) for x in xs]] *)
Fixpoint comprehension {S A B} (xs : list A) (f : A -> M S B) : M S (list B) :=
  match xs with
  | [] => ret []
  | x :: rest => y <- f x ;; ys <- comprehension rest f ;; ret (y :: ys)
  end.

(** [enumerate(xs)], counting from [i]. *)
Fixpoint enumerate_from {A} (i : nat) (xs : list A) : list (nat * A) :=
  match xs with
  | [] => []
  | x :: rest => (i, x) :: enumerate_from (S i) rest
  end.

Definition enumerate {A} (xs : list A) : list (nat * A) := enumerate_from 0 xs.

(** [try: body / except Exception as ex: handler(ex)] *)
Definition try_except {S} (body : M S unit) (handler : exn -> M S unit) : M S unit :=
  fun s => match body s with
           | (s', Ok u) => (s', Ok u)
           | (s', Raise e) => if is_Exception e then handler e s' else (s', Raise e)
           end.

(** ** Operations on values *)

(** Truth value testing. Objects of the client library define neither
    [__bool__] nor [__len__]: they are true. *)
Definition truthy (v : pyval) : bool :=
  match v with
  | VNone => false
  | VBool b => b
  | VInt z => negb (z =? 0)
  | VStr s => negb (String.eqb s EmptyString)
  | VList xs => match xs with [] => false | _ => true end
  | VDict kvs => match kvs with [] => false | _ => true end
  | VObj _ _ => true
  end.

Fixpoint assoc (k : string) (kvs : pydict) : option pyval :=
  match kvs with
  | [] => None
  | (k', v) :: rest => if String.eqb k k' then Some v else assoc k rest
  end.

(** [d.get(k)] on a dict known to be one ([kwargs], a normalised response). *)
Definition dict_get (d : pydict) (k : string) : pyval :=
  match assoc k d with
  | Some v => v
  | None => VNone
  end.

(** [v.get(k)] on any value: only a dict has the method. *)
Definition py_get (v : pyval) (k : string) : result pyval :=
  match v with
  | VDict d => Ok (dict_get d k)
  | _ => Raise (AttributeError v "get")
  end.

(** [v.attr] *)
Definition getattr (v : pyval) (attr : string) : result pyval :=
  match v with
  | VObj _ attrs =>
      match assoc attr attrs with
      | Some x => Ok x
      | None => Raise (AttributeError v attr)
      end
  | _ => Raise (AttributeError v attr)
  end.

(** [v.__dict__] *)
Definition py_dict_of (v : pyval) : result pydict :=
  match v with
  | VObj _ attrs => Ok attrs
  | _ => Raise (AttributeError v "__dict__")
  end.

Definition chars (s : string) : list pyval :=
  map (fun c => VStr (String c EmptyString)) (list_ascii_of_string s).

(** What [for x in v] iterates over. *)
Definition py_iter (v : pyval) : result (list pyval) :=
  match v with
  | VList xs => Ok xs
  | VStr s => Ok (chars s)
  | VDict kvs => Ok (map (fun kv => VStr (fst kv)) kvs)
  | _ => Raise (TypeError (the_quote +:+ type_name v +:+ the_quote +:+ " object is not iterable"))
  end.

(** [v[0]] *)
Definition py_index0 (v : pyval) : result pyval :=
  match v with
  | VList (x :: _) => Ok x
  | VList [] => Raise (Exn "IndexError" "list index out of range" true)
  | VStr (String c _) => Ok (VStr (String c EmptyString))
  | VStr EmptyString => Raise (Exn "IndexError" "string index out of range" true)
  | VDict _ => Raise (KeyError "0")
  | _ => Raise (TypeError (the_quote +:+ type_name v +:+ the_quote +:+ " object is not subscriptable"))
  end.

Definition as_int (v : pyval) : option Z :=
  match v with
  | VInt z => Some z
  | VBool b => Some (if b then 1 else 0)
  | _ => None
  end.

(** [a + b] *)
Definition py_add (a b : pyval) : result pyval :=
  match as_int a, as_int b with
  | Some x, Some y => Ok (VInt (x + y))
  | _, _ =>
      match a, b with
      | VStr s, VStr t => Ok (VStr (s +:+ t))
      | VList xs, VList ys => Ok (VList (xs ++ ys))
      | _, _ => Raise (TypeError ("unsupported operand type(s) for +: " +:+ the_quote
                                  +:+ type_name a +:+ the_quote +:+ " and " +:+ the_quote
                                  +:+ type_name b +:+ the_quote))
      end
  end.

(** [sum(vs)]: a left fold of [+] from [0]. *)
Fixpoint py_sum_from (acc : pyval) (vs : list pyval) : result pyval :=
  match vs with
  | [] => Ok acc
  | v :: rest =>
      match py_add acc v with
      | Ok acc' => py_sum_from acc' rest
      | Raise e => Raise e
      end
  end.

Definition py_sum (vs : list pyval) : result pyval := py_sum_from (VInt 0) vs.

(** ** Strings: [lower], [repr], [str] and [json.dumps] *)

Definition code (c : ascii) : N := N_of_ascii c.

(** [str.lower] on one code point: A-Z, and the Latin-1 capitals
    U+00C0-U+00DE without the multiplication sign U+00D7. *)
Definition lower_char (c : ascii) : ascii :=
  let n := code c in
  if ((65 <=? n) && (n <=? 90))%N then ascii_of_N (n + 32)
  else if ((192 <=? n) && (n <=? 222) && negb (n =? 215))%N then ascii_of_N (n + 32)
  else c.

Fixpoint lower (s : string) : string :=
  match s with
  | EmptyString => EmptyString
  | String c rest => String (lower_char c) (lower rest)
  end.

Definition chr (n : N) : string := String (ascii_of_N n) EmptyString.

Definition double_quote : string := chr 34.
Definition backslash : string := chr 92.

Definition hex_digit (n : N) : string :=
  if (n <? 10)%N then chr (48 + n) else chr (87 + n).

Definition hex2 (c : ascii) : string :=
  hex_digit (code c / 16) +:+ hex_digit (code c mod 16).

Fixpoint contains_char (q : ascii) (s : string) : bool :=
  match s with
  | EmptyString => false
  | String c rest => Ascii.eqb c q || contains_char q rest
  end.

(** One code point inside [repr(s)], the delimiter being [q]. *)
Definition repr_char (q : ascii) (c : ascii) : string :=
  let n := code c in
  if Ascii.eqb c q || (n =? 92)%N then backslash +:+ String c EmptyString
  else if (n =? 9)%N then backslash +:+ "t"
  else if (n =? 10)%N then backslash +:+ "n"
  else if (n =? 13)%N then backslash +:+ "r"
  else if ((n <? 32) || ((127 <=? n) && (n <=? 160)) || (n =? 173))%N
       then backslash +:+ "x" +:+ hex2 c
  else String c EmptyString.

Fixpoint concat_map_chars (f : ascii -> string) (s : string) : string :=
  match s with
  | EmptyString => EmptyString
  | String c rest => f c +:+ concat_map_chars f rest
  end.

(** [repr(s)] for a string: single quotes unless the string has a single
    quote and no double quote. *)
Definition repr_str (s : string) : string :=
  let single := ascii_of_N 39 in
  let double := ascii_of_N 34 in
  let q := if contains_char single s && negb (contains_char double s)
           then double else single in
  String q (concat_map_chars (repr_char q) s +:+ String q EmptyString).

Fixpoint join (sep : string) (parts : list string) : string :=
  match parts with
  | [] => EmptyString
  | [p] => p
  | p :: rest => p +:+ sep +:+ join sep rest
  end.

(** [repr(v)]. An object prints as the client library's models do:
    [Cls(field=value, ...)]. *)
Fixpoint py_repr (v : pyval) : string :=
  match v with
  | VNone => "None"
  | VBool b => if b then "True" else "False"
  | VInt z => pretty z
  | VStr s => repr_str s
  | VList xs => "[" +:+ join ", " (map py_repr xs) +:+ "]"
  | VDict kvs =>
      "{" +:+ join ", " (map (fun kv => repr_str (fst kv) +:+ ": " +:+ py_repr (snd kv)) kvs)
          +:+ "}"
  | VObj cls attrs =>
      cls +:+ "(" +:+ join ", " (map (fun kv => fst kv +:+ "=" +:+ py_repr (snd kv)) attrs)
          +:+ ")"
  end.

(** [str(v)] *)
Definition py_str (v : pyval) : string :=
  match v with
  | VStr s => s
  | _ => py_repr v
  end.

(** One code point inside a JSON string ([ensure_ascii] is on). *)
Definition json_char (c : ascii) : string :=
  let n := code c in
  if (n =? 34)%N then backslash +:+ double_quote
  else if (n =? 92)%N then backslash +:+ backslash
  else if (n =? 8)%N then backslash +:+ "b"
  else if (n =? 12)%N then backslash +:+ "f"
  else if (n =? 10)%N then backslash +:+ "n"
  else if (n =? 13)%N then backslash +:+ "r"
  else if (n =? 9)%N then backslash +:+ "t"
  else if ((32 <=? n) && (n <=? 126))%N then String c EmptyString
  else backslash +:+ "u00" +:+ hex2 c.

Definition json_string (s : string) : string :=
  double_quote +:+ concat_map_chars json_char s +:+ double_quote.

(** All parts when every one was encoded, the first failure otherwise. *)
Fixpoint sequence {A} (rs : list (result A)) : result (list A) :=
  match rs with
  | [] => Ok []
  | Ok a :: rest =>
      match sequence rest with
      | Ok xs => Ok (a :: xs)
      | Raise e => Raise e
      end
  | Raise e :: _ => Raise e
  end.

(** [json.dumps(v)] with the default separators. *)
Fixpoint json_dumps (v : pyval) : result string :=
  match v with
  | VNone => Ok "null"
  | VBool b => Ok (if b then "true" else "false")
  | VInt z => Ok (pretty z)
  | VStr s => Ok (json_string s)
  | VList xs =>
      let? parts := sequence (map json_dumps xs) in
      Ok ("[" +:+ join ", " parts +:+ "]")
  | VDict kvs =>
      let? parts := sequence (map (fun kv =>
                                     let? j := json_dumps (snd kv) in
                                     Ok (json_string (fst kv) +:+ ": " +:+ j)) kvs) in
      Ok ("{" +:+ join ", " parts +:+ "}")
  | VObj cls _ =>
      Raise (TypeError ("Object of type " +:+ cls +:+ " is not JSON serializable"))
  end.

(** [v == s] for a string literal [s]. *)
Definition eq_str (v : pyval) (s : string) : bool :=
  match v with
  | VStr t => String.eqb t s
  | _ => false
  end.

(** ** The tracing interface *)

Inductive StatusCode : Type := UNSET | OK | ERROR.

Inductive SpanKind : Type := INTERNAL | SERVER | CLIENT | PRODUCER | CONSUMER.

(** A span. [attributes] is the sequence of attribute writes issued on the
    span, oldest first, the attributes given at its start included. *)
Record Span : Type := mkSpan {
  span_name : pyval;
  span_kind : SpanKind;
  attributes : pydict;
  status : StatusCode;
  recording : bool;
  ended : bool
}.

(** [span.set_attribute(name, value)] *)
Definition set_attribute (name : string) (value : pyval) (span : Span) : Span :=
  mkSpan (span_name span) (span_kind span) (attributes span ++ [(name, value)])
         (status span) (recording span) (ended span).

(** [span.set_status(Status(code))] *)
Definition set_status (code : StatusCode) (span : Span) : Span :=
  mkSpan (span_name span) (span_kind span) (attributes span)
         code (recording span) (ended span).

(** [span.is_recording()] *)
Definition is_recording (span : Span) : bool := recording span && negb (ended span).

(** [span.end()], what leaving the [with] block does. *)
Definition end_span (span : Span) : Span :=
  mkSpan (span_name span) (span_kind span) (attributes span)
         (status span) (recording span) true.

(** The value a backend sees under [name]: the last write of that key. *)
Fixpoint last_write (name : string) (writes : pydict) : option pyval :=
  match writes with
  | [] => None
  | (k, v) :: rest =>
      match last_write name rest with
      | Some v' => Some v'
      | None => if String.eqb name k then Some v else None
      end
  end.

Definition attribute (span : Span) (name : string) : option pyval :=
  last_write name (attributes span).

(** A tracer handle: the instrumenting module's name and version, and
    whether the spans it starts record (a sampled span of a configured
    provider) or not. *)
Record Tracer : Type := mkTracer {
  tracer_name : string;
  tracer_version : string;
  records : bool
}.

(** What the instrumentation leaves behind: the spans it closed, in order,
    and the warnings it logged. *)
Record Telemetry : Type := mkTelemetry {
  spans : list Span;
  warnings : list string
}.

(** Inside a [with] block: the span it holds and the log. *)
Record Frame : Type := mkFrame {
  span : Span;
  log : list string
}.

(** A function that takes [span] as an argument, run on the block's span. *)
Definition on_span {A} (m : M Span A) : M Frame A :=
  fun f => match m (span f) with
           | (s', r) => (mkFrame s' (log f), r)
           end.

(** [logger.warning(fmt, arg)] with one [%s] at the end of [fmt]. *)
Definition logger_warning (fmt : string) (arg : string) : M Frame unit :=
  fun f => (mkFrame (span f) (log f ++ [fmt +:+ arg]), Ok tt).

(** [with tracer.start_as_current_span(name, kind=..., attributes=...) as span: body].
    The span is ended on every way out of the body, and an exception of the
    body goes on to the caller. What else the tracing library notes on the
    span about such an exception is left out. *)
Definition start_as_current_span {A} (tracer : Tracer) (name : pyval) (kind : SpanKind)
    (attrs : pydict) (body : M Frame A) : M Telemetry A :=
  fun t =>
    let span0 := mkSpan name kind attrs UNSET (records tracer) false in
    match body (mkFrame span0 (warnings t)) with
    | (f, r) => (mkTelemetry (spans t ++ [end_span (span f)]) (log f), r)
    end.

(** The ambient state the instrumentation reads: the process environment
    and the current OpenTelemetry context. *)
Record Ambient : Type := mkAmbient {
  environ : gmap string string;
  context : gmap string pyval
}.

(** [os.getenv(name)] *)
Definition getenv (amb : Ambient) (name : string) : option string :=
  environ amb !! name.

(** [context_api.get_value(key)] *)
Definition get_value (amb : Ambient) (key : string) : pyval :=
  match context amb !! key with
  | Some v => v
  | None => VNone
  end.

(** The context key [opentelemetry.instrumentation.utils] exports. *)
Definition _SUPPRESS_INSTRUMENTATION_KEY : string := "suppress_instrumentation".

(** ** Attribute names *)

(** The constants of [opentelemetry.semconv.ai] the module imports, with the
    values of the span attribute namespace of the specification (section 6). *)
Module SpanAttributes.
(** Modelled from the spec: the attribute key [llm.vendor]. *)
Definition LLM_VENDOR : string := "llm.vendor".
(** Modelled from the spec: the attribute key [llm.request.type]. *)
Definition LLM_REQUEST_TYPE : string := "llm.request.type".
(** Modelled from the spec: the attribute key [llm.request.model]. *)
Definition LLM_REQUEST_MODEL : string := "llm.request.model".
(** Modelled from the spec: the attribute key [llm.response.model]. *)
Definition LLM_RESPONSE_MODEL : string := "llm.response.model".
(** Modelled from the spec: the attribute key [llm.request.max_tokens]. *)
Definition LLM_REQUEST_MAX_TOKENS : string := "llm.request.max_tokens".
(** Modelled from the spec: the attribute key [llm.usage.total_tokens]. *)
Definition LLM_USAGE_TOTAL_TOKENS : string := "llm.usage.total_tokens".
(** Modelled from the spec: the attribute key [llm.usage.completion_tokens]. *)
Definition LLM_USAGE_COMPLETION_TOKENS : string := "llm.usage.completion_tokens".
(** Modelled from the spec: the attribute key [llm.usage.prompt_tokens]. *)
Definition LLM_USAGE_PROMPT_TOKENS : string := "llm.usage.prompt_tokens".
(** Modelled from the spec: the attribute key [llm.temperature]. *)
Definition LLM_TEMPERATURE : string := "llm.temperature".
(** Modelled from the spec: the attribute key [llm.top_p]. *)
Definition LLM_TOP_P : string := "llm.top_p".
(** Modelled from the spec: the attribute key [llm.frequency_penalty]. *)
Definition LLM_FREQUENCY_PENALTY : string := "llm.frequency_penalty".
(** Modelled from the spec: the attribute key [llm.presence_penalty]. *)
Definition LLM_PRESENCE_PENALTY : string := "llm.presence_penalty".
(** Modelled from the spec: the prefix of the indexed keys [llm.prompts.{i}]. *)
Definition LLM_PROMPTS : string := "llm.prompts".
(** Modelled from the spec: the prefix of the indexed keys [llm.completions.{i}]. *)
Definition LLM_COMPLETIONS : string := "llm.completions".
End SpanAttributes.

Module LLMRequestTypeValues.
(** Modelled from the spec: the request type written on every span of this
    module (section 4.3, step 2). *)
Definition COMPLETION : string := "completion".
End LLMRequestTypeValues.

(** ** The instrumentation *)

Definition WRAPPED_METHODS : list pydict :=
  [ [ ("package", VStr "anthropic.resources.completions");
      ("object", VStr "Completions");
      ("method", VStr "create");
      ("span_name", VStr "anthropic.completion") ];
    [ ("package", VStr "anthropic.resources.messages");
      ("object", VStr "Messages");
      ("method", VStr "create");
      ("span_name", VStr "anthropic.completion") ] ].

(** [x or default] for [x = os.getenv(...)]. *)
Definition or_default (x : option string) (default : string) : string :=
  match x with
  | Some s => if String.eqb s EmptyString then default else s
  | None => default
  end.

Definition should_send_prompts (amb : Ambient) : pyval :=
  if String.eqb (lower (or_default (getenv amb "TRACELOOP_TRACE_CONTENT") "true")) "true"
  then VBool true
  else get_value amb "override_enable_content_tracing".

(** The loop of [_dump_content]: [json_serializable] is the list built so far. *)
Fixpoint _dump_content_loop (items : list pyval) (json_serializable : list pyval)
    : result (list pyval) :=
  match items with
  | [] => Ok json_serializable
  | item :: rest =>
      let? ty := py_get item "type" in
      if eq_str ty "text" then
        let? text := py_get item "text" in
        _dump_content_loop rest
          (json_serializable ++ [VDict [("type", VStr "text"); ("text", text)]])
      else
        let? ty' := py_get item "type" in
        if eq_str ty' "image" then
          let? source := py_get item "source" in
          let? source_type := py_get source "type" in
          let? source := py_get item "source" in
          let? media_type := py_get source "media_type" in
          let? source := py_get item "source" in
          let? data := py_get source "data" in
          _dump_content_loop rest
            (json_serializable ++
               [VDict [("type", VStr "image");
                       ("source", VDict [("type", source_type);
                                         ("media_type", media_type);
                                         ("data", VStr (py_str data))])]])
        else _dump_content_loop rest json_serializable
  end.

Definition _dump_content (content : pyval) : result pyval :=
  match content with
  | VStr _ => Ok content
  | _ =>
      let? items := py_iter content in
      let? json_serializable := _dump_content_loop items [] in
      let? text := json_dumps (VList json_serializable) in
      Ok (VStr text)
  end.

Definition is_not_None (v : pyval) : bool :=
  match v with
  | VNone => false
  | _ => true
  end.

(** [value != ""] *)
Definition ne_empty (v : pyval) : bool := negb (eq_str v EmptyString).

Definition _set_span_attribute (name : string) (value : pyval) : M Span unit :=
  if is_not_None value then
    if ne_empty value then modify (set_attribute name value)
    else ret tt
  else ret tt.

Import SpanAttributes.

Definition _set_input_attributes (amb : Ambient) (kwargs : pydict) : M Span unit :=
  _set_span_attribute LLM_REQUEST_MODEL (dict_get kwargs "model") ;;
  _set_span_attribute LLM_REQUEST_MAX_TOKENS (dict_get kwargs "max_tokens_to_sample") ;;
  _set_span_attribute LLM_TEMPERATURE (dict_get kwargs "temperature") ;;
  _set_span_attribute LLM_TOP_P (dict_get kwargs "top_p") ;;
  _set_span_attribute LLM_FREQUENCY_PENALTY (dict_get kwargs "frequency_penalty") ;;
  _set_span_attribute LLM_PRESENCE_PENALTY (dict_get kwargs "presence_penalty") ;;
  if truthy (should_send_prompts amb) then
    if is_not_None (dict_get kwargs "prompt") then
      _set_span_attribute (LLM_PROMPTS +:+ ".0.user") (dict_get kwargs "prompt")
    else if is_not_None (dict_get kwargs "messages") then
      messages <- lift (py_iter (dict_get kwargs "messages")) ;;
      for_each (enumerate messages) (fun im =>
        content <- lift (py_get (snd im) "content") ;;
        dumped <- lift (_dump_content content) ;;
        _set_span_attribute (LLM_PROMPTS +:+ "." +:+ pretty (fst im) +:+ ".user") dumped)
    else ret tt
  else ret tt.

(** [response] is the normalised (dict) form here. *)
Definition _set_span_completions (response : pydict) : M Span unit :=
  let index := 0%nat in
  let prefix := LLM_COMPLETIONS +:+ "." +:+ pretty index in
  _set_span_attribute (prefix +:+ ".finish_reason") (dict_get response "stop_reason") ;;
  if truthy (dict_get response "completion") then
    _set_span_attribute (prefix +:+ ".content") (dict_get response "completion")
  else if truthy (dict_get response "content") then
    blocks <- lift (py_iter (dict_get response "content")) ;;
    for_each (enumerate blocks) (fun ic =>
      text <- lift (getattr (snd ic) "text") ;;
      _set_span_attribute (LLM_COMPLETIONS +:+ "." +:+ pretty (fst ic) +:+ ".content") text)
  else ret tt.

(** The client object: what [count_tokens] returns or raises for a value. *)
Record Client : Type := mkClient {
  count_tokens : pyval -> result pyval
}.

(** The resource object a wrapped method is bound to: [__class__] is the
    name of its class, and [_client] is [None] when the object has no such
    attribute. *)
Record Instance : Type := mkInstance {
  __class__ : string;
  _client : option Client
}.

(** [response if isinstance(response, dict) else response.__dict__] *)
Definition as_dict (response : pyval) : result pydict :=
  match response with
  | VDict d => Ok d
  | _ => py_dict_of response
  end.

Definition _set_token_usage (anthropic : Client) (request : pydict) (response : pyval)
    : M Span unit :=
  response <- lift (as_dict response) ;;
  prompt_tokens <-
    (if truthy (dict_get request "prompt") then
       lift (count_tokens anthropic (dict_get request "prompt"))
     else if truthy (dict_get request "messages") then
       messages <- lift (py_iter (dict_get request "messages")) ;;
       counts <- comprehension messages (fun m =>
                   content <- lift (py_get m "content") ;;
                   lift (count_tokens anthropic content)) ;;
       lift (py_sum counts)
     else ret (VInt 0)) ;;
  completion_tokens <-
    (if truthy (dict_get response "completion") then
       lift (count_tokens anthropic (dict_get response "completion"))
     else if truthy (dict_get response "content") then
       first <- lift (py_index0 (dict_get response "content")) ;;
       text <- lift (getattr first "text") ;;
       lift (count_tokens anthropic text)
     else ret (VInt 0)) ;;
  total_tokens <- lift (py_add prompt_tokens completion_tokens) ;;
  _set_span_attribute LLM_USAGE_PROMPT_TOKENS prompt_tokens ;;
  _set_span_attribute LLM_USAGE_COMPLETION_TOKENS completion_tokens ;;
  _set_span_attribute LLM_USAGE_TOTAL_TOKENS total_tokens.

Definition _set_response_attributes (amb : Ambient) (response : pyval) : M Span unit :=
  response <- lift (as_dict response) ;;
  _set_span_attribute LLM_RESPONSE_MODEL (dict_get response "model") ;;
  (if truthy (dict_get response "usage") then
     prompt_tokens <- lift (getattr (dict_get response "usage") "input_tokens") ;;
     completion_tokens <- lift (getattr (dict_get response "usage") "output_tokens") ;;
     _set_span_attribute LLM_USAGE_PROMPT_TOKENS prompt_tokens ;;
     _set_span_attribute LLM_USAGE_COMPLETION_TOKENS completion_tokens ;;
     total_tokens <- lift (py_add prompt_tokens completion_tokens) ;;
     _set_span_attribute LLM_USAGE_TOTAL_TOKENS total_tokens
   else ret tt) ;;
  if truthy (should_send_prompts amb) then _set_span_completions response
  else ret tt.

(** The decorator that hands a tracer to a wrapper function: it curries. *)
Definition _with_tracer_wrapper {W I R A K T}
    (func : Tracer -> T -> W -> I -> A -> K -> R) : Tracer -> T -> W -> I -> A -> K -> R :=
  fun tracer to_wrap => fun wrapped instance args kwargs =>
    func tracer to_wrap wrapped instance args kwargs.

(** [instance._client] *)
Definition get_client (instance : Instance) : result Client :=
  match _client instance with
  | Some c => Ok c
  | None => Raise (AttributeError (VObj (__class__ instance) []) "_client")
  end.

(** The outcome of the original method on given arguments: a value or an
    exception. *)
Definition Wrapped : Type := list pyval -> pydict -> result pyval.

Definition _wrap (amb : Ambient)
    : Tracer -> pydict -> Wrapped -> Instance -> list pyval -> pydict -> M Telemetry pyval :=
  _with_tracer_wrapper (fun tracer to_wrap wrapped instance args kwargs =>
    if truthy (get_value amb _SUPPRESS_INSTRUMENTATION_KEY) then
      lift (wrapped args kwargs)
    else
      let name := dict_get to_wrap "span_name" in
      start_as_current_span tracer name CLIENT
        [ (LLM_VENDOR, VStr "Anthropic");
          (LLM_REQUEST_TYPE, VStr LLMRequestTypeValues.COMPLETION) ]
        (try_except
           (f <- get ;;
            if is_recording (span f) then on_span (_set_input_attributes amb kwargs)
            else ret tt)
           (fun ex =>
              logger_warning "Failed to set input attributes for anthropic span, error: "
                             (exn_msg ex)) ;;
         response <- lift (wrapped args kwargs) ;;
         (if truthy response then
            try_except
              (f <- get ;;
               if is_recording (span f) then
                 on_span (_set_response_attributes amb response) ;;
                 anthropic <- lift (get_client instance) ;;
                 on_span (_set_token_usage anthropic kwargs response)
               else ret tt)
              (fun ex =>
                 logger_warning
                   "Failed to set response attributes for anthropic span, error: "
                   (exn_msg ex)) ;;
            f <- get ;;
            if is_recording (span f) then on_span (modify (set_status OK))
            else ret tt
          else ret tt) ;;
         ret response)).

(** ** Install and remove *)

(** What a method name of a class is bound to: a function of the client
    library, or a [wrapt] proxy around one ([wrapped] is its [__wrapped__])
    that calls [_wrap(tracer, to_wrap)]. *)
Inductive method : Type :=
| Original (qualname : string)
| FunctionWrapper (wrapped : method) (tracer : Tracer) (to_wrap : pydict).

(** The importable modules: module path, class name, method name. *)
Abbreviation Modules := (gmap string (gmap string (gmap string method))).

Definition lookup_method (modules : Modules) (module_path class_name attr : string)
    : option method :=
  match modules !! module_path with
  | Some module =>
      match module !! class_name with
      | Some cls => cls !! attr
      | None => None
      end
  | None => None
  end.

(** [setattr(cls, attr, f)] for the class [class_name] of [module_path]. *)
Definition set_method (module_path class_name attr : string) (f : method)
    (modules : Modules) : Modules :=
  match modules !! module_path with
  | Some module =>
      match module !! class_name with
      | Some cls => <[module_path := <[class_name := <[attr := f]> cls]> module]> modules
      | None => modules
      end
  | None => modules
  end.

Definition is_dot (c : ascii) : bool := Ascii.eqb c (ascii_of_N 46).

(** [s.split(".")] *)
Fixpoint split_dot (s : string) : list string :=
  match s with
  | EmptyString => [EmptyString]
  | String c rest =>
      if is_dot c then EmptyString :: split_dot rest
      else match split_dot rest with
           | p :: ps => String c p :: ps
           | [] => [String c EmptyString]
           end
  end.

(** [s.rsplit(".", 1)], when it has two parts. *)
Fixpoint rsplit_dot (s : string) : option (string * string) :=
  match s with
  | EmptyString => None
  | String c rest =>
      match rsplit_dot rest with
      | Some (a, b) => Some (String c a, b)
      | None => if is_dot c then Some (EmptyString, rest) else None
      end
  end.

(** [wrapt.wrap_function_wrapper(module, name, _wrap(tracer, to_wrap))]: the
    module is imported, [name] is resolved attribute by attribute, and the
    last attribute is rebound to a proxy around what it held. Modules hold
    classes and classes hold functions, so only a two-part name resolves. *)
Definition wrap_function_wrapper (module : pyval) (name : string)
    (tracer : Tracer) (to_wrap : pydict) : M Modules unit :=
  match module with
  | VStr module_path =>
      modules <- get ;;
      match modules !! module_path with
      | None => raise (Exn "ModuleNotFoundError" ("No module named " +:+ module_path) true)
      | Some m =>
          match split_dot name with
          | [class_name; attr] =>
              match m !! class_name with
              | None => raise (Exn "AttributeError" ("module has no attribute " +:+ class_name) true)
              | Some cls =>
                  match cls !! attr with
                  | None => raise (Exn "AttributeError" ("type object has no attribute " +:+ attr) true)
                  | Some original =>
                      modify (set_method module_path class_name attr
                                (FunctionWrapper original tracer to_wrap))
                  end
              end
          | _ => raise (Exn "AttributeError" ("cannot resolve " +:+ name) true)
          end
      end
  | _ => raise (AttributeError module name)
  end.

(** Releases of [opentelemetry.instrumentation.utils] differ in what
    [unwrap(obj, attr)] does with a string [obj]: the older ones look [attr]
    up on the string itself and find nothing to restore, the newer ones
    resolve the dotted path first. Among the newer ones, some import the
    module of the path and others return at once when it has not been
    imported yet; they agree on a module that has been imported, which is
    what [DottedPaths] describes. Install imports the module of every
    target it wraps, and Remove is studied after Install. *)
Inductive unwrap_release : Type := ObjectsOnly | DottedPaths.

Definition unwrap (release : unwrap_release) (obj : string) (attr : pyval)
    : M Modules unit :=
  match attr with
  | VStr attr =>
      match release with
      | ObjectsOnly => ret tt
      | DottedPaths =>
          match rsplit_dot obj with
          | None => raise (ImportError ("Cannot parse " +:+ obj +:+ " as dotted import path"))
          | Some (module_path, class_name) =>
              modules <- get ;;
              match modules !! module_path with
              | None => raise (Exn "ModuleNotFoundError" ("No module named " +:+ module_path) true)
              | Some m =>
                  match m !! class_name with
                  | None => raise (ImportError ("Cannot import " +:+ class_name))
                  | Some cls =>
                      match cls !! attr with
                      | Some (FunctionWrapper wrapped _ _) =>
                          modify (set_method module_path class_name attr wrapped)
                      | _ => ret tt
                      end
                  end
              end
          end
      end
  | _ => raise (TypeError "attribute name must be string")
  end.

(** A tracer provider: whether the spans of its tracers record. *)
Record TracerProvider : Type := mkTracerProvider {
  provider_records : bool
}.

(** [get_tracer(name, version, tracer_provider)]: the global provider
    stands in for a missing one. *)
Definition get_tracer (global_provider : TracerProvider) (name version : string)
    (tracer_provider : option TracerProvider) : Tracer :=
  mkTracer name version
    (provider_records (match tracer_provider with
                       | Some p => p
                       | None => global_provider
                       end)).

Definition __name__ : string := "opentelemetry.instrumentation.anthropic".

Definition _instruments : list string := ["anthropic >= 0.3.11"].

Module AnthropicInstrumentor.

Definition instrumentation_dependencies : list string := _instruments.

(** [__version__] comes from the package's [version] module and the
    global provider from the tracing library: both are parameters.
    [tracer_provider] is [kwargs.get("tracer_provider")]. *)
Definition _instrument (__version__ : string) (global_provider : TracerProvider)
    (tracer_provider : option TracerProvider) : M Modules unit :=
  let tracer := get_tracer global_provider __name__ __version__ tracer_provider in
  for_each WRAPPED_METHODS (fun wrapped_method =>
    let wrap_package := dict_get wrapped_method "package" in
    let wrap_object := dict_get wrapped_method "object" in
    let wrap_method := dict_get wrapped_method "method" in
    wrap_function_wrapper wrap_package
      (py_str wrap_object +:+ "." +:+ py_str wrap_method)
      tracer wrapped_method).

Definition _uninstrument (release : unwrap_release) : M Modules unit :=
  for_each WRAPPED_METHODS (fun wrapped_method =>
    let wrap_object := dict_get wrapped_method "object" in
    unwrap release
      ("anthropic.resources.completions." +:+ py_str wrap_object)
      (dict_get wrapped_method "method")).

End AnthropicInstrumentor.

(** * Specification-side definitions *)

(** The span after the writes [ws], in order; nothing else changes. *)
Definition add_writes (ws : pydict) (span : Span) : Span :=
  mkSpan (span_name span) (span_kind span) (attributes span ++ ws)
         (status span) (recording span) (ended span).

(** What an attempted write of [value] under [name] adds to a span. *)
Definition written (name : string) (value : pyval) : pydict :=
  match value with
  | VNone => []
  | VStr EmptyString => []
  | _ => [(name, value)]
  end.

(** A value that may appear in a span: neither [None] nor the empty string. *)
Definition writable (v : pyval) : Prop := v <> VNone /\ v <> VStr EmptyString.

(** Keys that describe a response: its model, the usage counts and the
    completions. *)
Definition is_usage_key (k : string) : bool :=
  String.eqb k LLM_USAGE_PROMPT_TOKENS
  || String.eqb k LLM_USAGE_COMPLETION_TOKENS
  || String.eqb k LLM_USAGE_TOTAL_TOKENS.

Definition is_completion_key (k : string) : bool :=
  String.prefix LLM_COMPLETIONS k.

Definition is_response_key (k : string) : bool :=
  String.eqb k LLM_RESPONSE_MODEL || is_usage_key k || is_completion_key k.

(** Content tracing as section 4.7 words it: on when the variable is unset,
    on when its value lowercases to true, off for any other value unless
    the context override is set. *)
Definition content_tracing_as_specified (amb : Ambient) : bool :=
  match getenv amb "TRACELOOP_TRACE_CONTENT" with
  | None => true
  | Some v =>
      String.eqb (lower v) "true"
      || truthy (get_value amb "override_enable_content_tracing")
  end.

(** The serialised form of one content block as section 4.4 words it: a
    text block keeps its text, an image block its source type, media type
    and string-coerced data, any other block is dropped. *)
Definition kept_block (item : pydict) : option pyval :=
  if eq_str (dict_get item "type") "text" then
    Some (VDict [("type", VStr "text"); ("text", dict_get item "text")])
  else if eq_str (dict_get item "type") "image" then
    match dict_get item "source" with
    | VDict source =>
        Some (VDict [("type", VStr "image");
                     ("source", VDict [("type", dict_get source "type");
                                       ("media_type", dict_get source "media_type");
                                       ("data", VStr (py_str (dict_get source "data")))])])
    | _ => None
    end
  else None.

(** An image block names its source as a dict. *)
Definition block_well_formed (item : pydict) : bool :=
  if eq_str (dict_get item "type") "text" then true
  else if eq_str (dict_get item "type") "image" then
    match dict_get item "source" with
    | VDict _ => true
    | _ => false
    end
  else true.

(** The completion attributes of a structured response: one per content
    block, under the block's index. *)
Definition completion_content_writes (texts : list pyval) : pydict :=
  flat_map (fun it => written (LLM_COMPLETIONS +:+ "." +:+ pretty (fst it) +:+ ".content")
                              (snd it))
           (enumerate texts).

(** A falsy value or a string: what the tokenizer is asked to count. *)
Definition falsy_or_str (v : pyval) : bool :=
  match v with
  | VStr _ => true
  | _ => negb (truthy v)
  end.

Definition is_text_message (m : pyval) : bool :=
  match m with
  | VDict d => match dict_get d "content" with VStr _ => true | _ => false end
  | _ => false
  end.

(** A request whose prompt is text and whose messages, when they are
    consulted, are dicts with text content. *)
Definition text_request (request : pydict) : bool :=
  falsy_or_str (dict_get request "prompt")
  && (truthy (dict_get request "prompt")
      || match dict_get request "messages" with
         | VList ms => forallb is_text_message ms
         | v => negb (truthy v)
         end).

(** A response whose completion is text and whose content, when it is
    consulted, starts with a block that has a text. *)
Definition text_response (response : pydict) : bool :=
  falsy_or_str (dict_get response "completion")
  && (truthy (dict_get response "completion")
      || match dict_get response "content" with
         | VList (b :: _) => match getattr b "text" with Ok (VStr _) => true | _ => false end
         | v => negb (truthy v)
         end).

Definition count_of (count : string -> Z) (v : pyval) : Z :=
  match v with
  | VStr s => count s
  | _ => 0
  end.

(** Section 4.6: the prompt count is that of the prompt, or the sum over
    the messages' contents. *)
Definition fallback_prompt_tokens (count : string -> Z) (request : pydict) : Z :=
  if truthy (dict_get request "prompt") then count_of count (dict_get request "prompt")
  else match dict_get request "messages" with
       | VList ms =>
           fold_right Z.add 0
             (map (fun m => match m with
                            | VDict d => count_of count (dict_get d "content")
                            | _ => 0
                            end) ms)
       | _ => 0
       end.

(** Section 4.6: the completion count is that of the completion text, or of
    the first content block's text. *)
Definition fallback_completion_tokens (count : string -> Z) (response : pydict) : Z :=
  if truthy (dict_get response "completion")
  then count_of count (dict_get response "completion")
  else match dict_get response "content" with
       | VList (b :: _) =>
           match getattr b "text" with
           | Ok t => count_of count t
           | Raise _ => 0
           end
       | _ => 0
       end.

(** A response whose usage, when it has one, is an object with integer
    counts. *)
Definition usage_extractable (response : pydict) : bool :=
  negb (truthy (dict_get response "usage"))
  || match getattr (dict_get response "usage") "input_tokens",
           getattr (dict_get response "usage") "output_tokens" with
     | Ok (VInt _), Ok (VInt _) => true
     | _, _ => false
     end.

Definition has_text (block : pyval) : bool :=
  match getattr block "text" with
  | Ok _ => true
  | Raise _ => false
  end.

(** A response whose completion is there, or whose content, when it is
    consulted, is a list of blocks with a text each. *)
Definition completions_extractable (response : pydict) : bool :=
  truthy (dict_get response "completion")
  || match dict_get response "content" with
     | VList blocks => forallb has_text blocks
     | v => negb (truthy v)
     end.

(** * Predicates of the proofs *)

(** [appends K m]: whatever [m] returns or raises, all it does to the span
    is append writes whose key and value satisfy [K]. *)
Definition appends {A} (K : string -> pyval -> Prop) (m : M Span A) : Prop :=
  forall s, exists ws,
    fst (m s) = add_writes ws s /\ Forall (fun kv => K (fst kv) (snd kv)) ws.

(** What the request phase may write: request keys, writable values. *)
Definition request_write (k : string) (v : pyval) : Prop :=
  is_response_key k = false /\ writable v.

(** What the response phase may write. *)
Definition any_write (k : string) (v : pyval) : Prop := writable v.

(** The attributes a span starts with. *)
Definition initial_attributes : pydict :=
  [ (LLM_VENDOR, VStr "Anthropic");
    (LLM_REQUEST_TYPE, VStr LLMRequestTypeValues.COMPLETION) ].

(** A fallible step whose exceptions all derive from [Exception]. *)
Definition catchable {A} (r : result A) : Prop :=
  forall e, r = Raise e -> is_Exception e = true.

(** The same for a computation on a span. *)
Definition raises_exceptions {S A} (m : M S A) : Prop :=
  forall s, catchable (snd (m s)).

(** A span all of whose attributes hold writable values, and a block that
    keeps its span so. *)
Definition clean (sp : Span) : Prop :=
  Forall (fun kv => writable (snd kv)) (attributes sp).

Definition keeps_clean {A} (m : M Frame A) : Prop :=
  forall f, clean (span f) -> clean (span (fst (m f))).

(** Induction on a value, with the induction hypothesis for every element
    of a list and every value of a dict or object. *)
Section PyvalInduction.
Context (P : pyval -> Prop).
Hypothesis PNone : P VNone.
Hypothesis PBool : forall b, P (VBool b).
Hypothesis PInt : forall z, P (VInt z).
Hypothesis PStr : forall s, P (VStr s).
Hypothesis PList : forall xs, Forall P xs -> P (VList xs).
Hypothesis PDict : forall kvs, Forall (fun kv => P (snd kv)) kvs -> P (VDict kvs).
Hypothesis PObj : forall cls attrs, Forall (fun kv => P (snd kv)) attrs -> P (VObj cls attrs).

Fixpoint pyval_nested_ind (v : pyval) : P v :=
  match v with
  | VNone => PNone
  | VBool b => PBool b
  | VInt z => PInt z
  | VStr s => PStr s
  | VList xs =>
      PList xs ((fix all (l : list pyval) : Forall P l :=
                   match l with
                   | [] => List.Forall_nil P
                   | x :: rest => List.Forall_cons P x rest (pyval_nested_ind x) (all rest)
                   end) xs)
  | VDict kvs =>
      PDict kvs ((fix all (l : pydict) : Forall (fun kv => P (snd kv)) l :=
                    match l with
                    | [] => List.Forall_nil _
                    | (k, x) :: rest =>
                        List.Forall_cons _ (k, x) rest (pyval_nested_ind x) (all rest)
                    end) kvs)
  | VObj cls attrs =>
      PObj cls attrs ((fix all (l : pydict) : Forall (fun kv => P (snd kv)) l :=
                         match l with
                         | [] => List.Forall_nil _
                         | (k, x) :: rest =>
                             List.Forall_cons _ (k, x) rest (pyval_nested_ind x) (all rest)
                         end) attrs)
  end.
End PyvalInduction.

(** * Inputs of the scenarios *)

(** A tracer of a configured provider: its spans record. *)
Definition sample_tracer : Tracer := mkTracer __name__ "0.1.0" true.

(** No environment variable, no context value. *)
Definition no_ambient : Ambient := mkAmbient ∅ ∅.

(** The suppress-instrumentation flag is set in the context. *)
Definition suppressed : Ambient :=
  mkAmbient ∅ {[ _SUPPRESS_INSTRUMENTATION_KEY := VBool true ]}.

(** The content-tracing variable is set, to the empty string. *)
Definition empty_variable : Ambient :=
  mkAmbient {[ "TRACELOOP_TRACE_CONTENT" := EmptyString ]} ∅.

(** The registry entry of the messages target. *)
Definition messages_target : pydict := nth 1 WRAPPED_METHODS [].

(** A tokenizer that counts code points, and raises on anything but text. *)
Definition length_client : Client :=
  mkClient (fun v => match v with
                     | VStr s => Ok (VInt (Z.of_nat (String.length s)))
                     | _ => Raise (TypeError "expected str")
                     end).

(** A client whose tokenizer counts text with [count]. *)
Definition text_client (count : string -> Z) : Client :=
  mkClient (fun v => match v with
                     | VStr s => Ok (VInt (count s))
                     | _ => Raise (TypeError "expected str")
                     end).

(** A recording span with nothing written yet. *)
Definition fresh_span : Span :=
  mkSpan (VStr "anthropic.completion") CLIENT [] UNSET true false.

(** The request of scenario A. *)
Definition scenario_request : pydict :=
  [ ("model", VStr "claude-2"); ("messages", VList [ VDict [("content", VStr "hi")] ]) ].

(** Scenario A of the specification, for any native counts. *)
Definition scenario_response (input_tokens output_tokens : Z) : pyval :=
  VObj "Message"
    [ ("model", VStr "claude-2");
      ("content", VList [ VObj "ContentBlock" [("text", VStr "hello")] ]);
      ("stop_reason", VStr "end_turn");
      ("usage", VObj "Usage" [ ("input_tokens", VInt input_tokens);
                               ("output_tokens", VInt output_tokens) ]) ].

(** The span of scenario A: the native counts are written first, the
    tokenizer's counts after them. *)
Definition scenario_span (count : string -> Z) (input_tokens output_tokens : Z) : Span :=
  mkSpan (VStr "anthropic.completion") CLIENT
    [ ("llm.vendor", VStr "Anthropic");
      ("llm.request.type", VStr "completion");
      ("llm.request.model", VStr "claude-2");
      ("llm.prompts.0.user", VStr "hi");
      ("llm.response.model", VStr "claude-2");
      ("llm.usage.prompt_tokens", VInt input_tokens);
      ("llm.usage.completion_tokens", VInt output_tokens);
      ("llm.usage.total_tokens", VInt (input_tokens + output_tokens));
      ("llm.completions.0.finish_reason", VStr "end_turn");
      ("llm.completions.0.content", VStr "hello");
      ("llm.usage.prompt_tokens", VInt (count "hi"));
      ("llm.usage.completion_tokens", VInt (count "hello"));
      ("llm.usage.total_tokens", VInt (count "hi" + count "hello")) ]
    OK true true.

(** Scenario B, with a block of another type between the two. *)
Definition scenario_B : list pydict :=
  [ [ ("type", VStr "text"); ("text", VStr "describe this") ];
    [ ("type", VStr "tool_use"); ("id", VStr "t1") ];
    [ ("type", VStr "image");
      ("source", VDict [ ("type", VStr "base64");
                         ("media_type", VStr "image/png");
                         ("data", VInt 42) ]) ] ].

(** A text between double quotes. *)
Definition quoted (s : string) : string := double_quote +:+ s +:+ double_quote.

(** A response with an empty legacy completion and two content blocks. *)
Definition empty_legacy_response : pydict :=
  [ ("completion", VStr EmptyString);
    ("stop_reason", VStr "end_turn");
    ("content", VList [ VObj "ContentBlock" [("text", VStr "hello")];
                        VObj "ContentBlock" [("text", VStr "world")] ]) ].

(** A legacy request, and a response whose completion is empty. *)
Definition legacy_request : pydict :=
  [ ("model", VStr "claude-2"); ("prompt", VStr "Hello there") ].

Definition truncated_completion : pyval :=
  VObj "Completion" [ ("completion", VStr EmptyString); ("stop_reason", VStr "max_tokens");
                      ("model", VStr "claude-2") ].

(** An error of the client library. *)
Definition api_error : exn := Exn "APIStatusError" "overloaded_error" true.

(** The modules of the two targets. *)
Definition completions_module : string := "anthropic.resources.completions".
Definition messages_module : string := "anthropic.resources.messages".

(** The client library as installed: each resource class in its module. *)
Definition anthropic_sdk : Modules :=
  {[ completions_module := {[ "Completions" := {[ "create" := Original "Completions.create" ]} ]};
     messages_module := {[ "Messages" := {[ "create" := Original "Messages.create" ]} ]} ]}.

(** * Definitions of the further properties *)

(** The six request parameters, in the order they are attempted. *)
Definition parameter_writes (kwargs : pydict) : pydict :=
  written LLM_REQUEST_MODEL (dict_get kwargs "model")
  ++ written LLM_REQUEST_MAX_TOKENS (dict_get kwargs "max_tokens_to_sample")
  ++ written LLM_TEMPERATURE (dict_get kwargs "temperature")
  ++ written LLM_TOP_P (dict_get kwargs "top_p")
  ++ written LLM_FREQUENCY_PENALTY (dict_get kwargs "frequency_penalty")
  ++ written LLM_PRESENCE_PENALTY (dict_get kwargs "presence_penalty").

(** The key of the prompt of index [i], and of the completion of index [i]. *)
Definition prompt_key (i : nat) : string := LLM_PROMPTS +:+ "." +:+ pretty i +:+ ".user".

Definition completion_key (i : nat) : string :=
  LLM_COMPLETIONS +:+ "." +:+ pretty i +:+ ".content".

(** What is recorded for one message: its content, serialised. *)
Definition dumped_content (message : pyval) : result pyval :=
  let? content := py_get message "content" in _dump_content content.

(** The writes of a run of values under the keys [key n], [key (n + 1)], ... *)
Definition indexed_writes (key : nat -> string) (n : nat) (values : list pyval) : pydict :=
  flat_map (fun it => written (key (fst it)) (snd it)) (enumerate_from n values).

(** A client whose tokenizer raises nothing but [Exception]s. *)
Definition client_catchable (anthropic : Client) : Prop :=
  forall v, catchable (count_tokens anthropic v).

(** [f'] comes from [f] by attribute writes, changes of status and
    warnings: name, kind and flags of the span stay, nothing written or
    logged before is lost. *)
Definition extends (f f' : Frame) : Prop :=
  exists ws st new,
    span f' = set_status st (add_writes ws (span f)) /\ log f' = log f ++ new.

Definition extending {A} (m : M Frame A) : Prop := forall f, extends f (fst (m f)).

(** A request with a prompt that is there but empty, and messages that are
    no list. *)
Definition empty_prompt_request : pydict :=
  [ ("model", VStr "claude-2"); ("prompt", VStr EmptyString); ("messages", VInt 5) ].

(** Content tracing switched off by the environment. *)
Definition tracing_off : Ambient :=
  mkAmbient {[ "TRACELOOP_TRACE_CONTENT" := "false" ]} ∅.

(** Two messages, the second with a structured content. *)
Definition two_messages : list pyval :=
  [ VDict [ ("role", VStr "user"); ("content", VStr "hi") ];
    VDict [ ("role", VStr "user");
            ("content", VList [ VDict [ ("type", VStr "text"); ("text", VStr "more") ] ]) ] ].

Definition is_dict (v : pyval) : bool :=
  match v with
  | VDict _ => true
  | _ => false
  end.

(** An image block that names no source. *)
Definition image_without_source : pydict := [ ("type", VStr "image") ].

(** A response whose usage is a dict, not an object. *)
Definition usage_as_dict : pyval :=
  VDict [ ("model", VStr "claude-2");
          ("usage", VDict [ ("input_tokens", VInt 3); ("output_tokens", VInt 5) ]) ].

(** The client of a resource object, when it has one, raises nothing but
    [Exception]s from its tokenizer. *)
Definition instance_catchable (instance : Instance) : Prop :=
  match _client instance with
  | Some anthropic => client_catchable anthropic
  | None => True
  end.

(** The span a call starts with. *)
Definition started_span (tracer : Tracer) (to_wrap : pydict) : Span :=
  mkSpan (dict_get to_wrap "span_name") CLIENT initial_attributes UNSET (records tracer) false.

(** A tracer whose spans do not record. *)
Definition unsampled_tracer : Tracer := mkTracer __name__ "0.1.0" false.

(** A tokenizer interrupted from the keyboard. *)
Definition keyboard_interrupt : exn := Exn "KeyboardInterrupt" EmptyString false.

Definition interrupted_client : Client := mkClient (fun _ => Raise keyboard_interrupt).

(** The registry entry of the completions target. *)
Definition completions_target : pydict := nth 0 WRAPPED_METHODS [].

(** A client library from before the messages API: the completions module
    only. *)
Definition legacy_sdk : Modules :=
  {[ completions_module := {[ "Completions" := {[ "create" := Original "Completions.create" ]} ]} ]}.

(** ** The token usage fallback *)

(** The fallback up to its writes: what the tokenizer returns for the
    prompt, or the sum of what it returns for the messages' contents. *)
Definition prompt_count (anthropic : Client) (request : pydict) : result pyval :=
  if truthy (dict_get request "prompt") then
    count_tokens anthropic (dict_get request "prompt")
  else if truthy (dict_get request "messages") then
    let? messages := py_iter (dict_get request "messages") in
    let? counts := sequence (map (fun m => let? content := py_get m "content" in
                                           count_tokens anthropic content) messages) in
    py_sum counts
  else Ok (VInt 0).

(** What the tokenizer returns for the completion, or for the text of the
    first content block. *)
Definition completion_count (anthropic : Client) (response : pydict) : result pyval :=
  if truthy (dict_get response "completion") then
    count_tokens anthropic (dict_get response "completion")
  else if truthy (dict_get response "content") then
    let? first := py_index0 (dict_get response "content") in
    let? text := getattr first "text" in
    count_tokens anthropic text
  else Ok (VInt 0).

(** The three values of the fallback, or the first exception on the way
    to them. *)
Definition fallback_counts (anthropic : Client) (request : pydict) (response : pyval)
    : result (pyval * pyval * pyval) :=
  let? response := as_dict response in
  let? prompt_tokens := prompt_count anthropic request in
  let? completion_tokens := completion_count anthropic response in
  let? total_tokens := py_add prompt_tokens completion_tokens in
  Ok (prompt_tokens, completion_tokens, total_tokens).

(** The content of a message that is a dict. *)
Definition message_content (m : pyval) : pyval :=
  match m with
  | VDict d => dict_get d "content"
  | _ => VNone
  end.

(** Section 4.6, for any content: the values whose token counts make the
    prompt count are the prompt, or the content of each message. *)
Definition counted_for_prompt (request : pydict) : list pyval :=
  if truthy (dict_get request "prompt") then [dict_get request "prompt"]
  else match dict_get request "messages" with
       | VList ms => map message_content ms
       | _ => []
       end.

(** The value whose token count is the completion count: the completion
    text, or the text of the first content block; none when the response
    has neither. *)
Definition counted_for_completion (response : pydict) : list pyval :=
  if truthy (dict_get response "completion") then [dict_get response "completion"]
  else match dict_get response "content" with
       | VList (b :: _) =>
           match getattr b "text" with
           | Ok t => [t]
           | Raise _ => []
           end
       | _ => []
       end.

(** The sum of the counts of some values. *)
Definition total_count (count : pyval -> Z) (values : list pyval) : Z :=
  fold_right Z.add 0 (map count values).

(** The messages, when they are consulted, are a list of dicts. *)
Definition messages_are_dicts (request : pydict) : bool :=
  truthy (dict_get request "prompt")
  || match dict_get request "messages" with
     | VList ms => forallb is_dict ms
     | v => negb (truthy v)
     end.

(** Every content block the wrapper reads has a text: all the blocks when
    content tracing is on, the first one when it is off; none is read when
    the response has a completion. *)
Definition blocks_have_text (amb : Ambient) (response : pydict) : bool :=
  truthy (dict_get response "completion")
  || match dict_get response "content" with
     | VList blocks =>
         forallb has_text (if truthy (should_send_prompts amb) then blocks
                           else firstn 1 blocks)
     | v => negb (truthy v)
     end.

(** The count of [length_client] as a number: the code points of a text. *)
Definition code_points (v : pyval) : Z :=
  match v with
  | VStr s => Z.of_nat (String.length s)
  | _ => 0
  end.

(** A response without usage whose second content block is a tool call:
    it has no text. *)
Definition tool_use_response : pyval :=
  VObj "Message"
    [ ("model", VStr "claude-2");
      ("content", VList [ VObj "TextBlock" [ ("type", VStr "text");
                                             ("text", VStr "hello") ];
                          VObj "ToolUseBlock" [ ("type", VStr "tool_use");
                                                ("id", VStr "t1");
                                                ("name", VStr "lookup") ] ]);
      ("stop_reason", VStr "tool_use") ].

(** A request whose one message has a structured content, and a response
    without usage. *)
Definition structured_request : pydict :=
  [ ("model", VStr "claude-2");
    ("messages", VList [ VDict [ ("role", VStr "user");
                                 ("content", VList [ VDict [ ("type", VStr "text");
                                                             ("text", VStr "hi") ] ]) ] ]) ].

Definition text_only_response : pyval :=
  VObj "Message"
    [ ("model", VStr "claude-2");
      ("content", VList [ VObj "TextBlock" [ ("type", VStr "text");
                                             ("text", VStr "hello") ] ]);
      ("stop_reason", VStr "end_turn") ].

(** * Properties *)

(** ** A logic of attribute writes: the rules of [appends] *)

Lemma add_writes_nil s : add_writes [] s = s.
Proof. destruct s; unfold add_writes; simpl. by rewrite app_nil_r. Qed.

Lemma add_writes_app ws1 ws2 s :
  add_writes ws2 (add_writes ws1 s) = add_writes (ws1 ++ ws2) s.
Proof. unfold add_writes; simpl. by rewrite app_assoc. Qed.

Lemma set_attribute_add_writes name value s :
  set_attribute name value s = add_writes [(name, value)] s.
Proof. reflexivity. Qed.

Section AppendsRules.
Context (K : string -> pyval -> Prop).

Lemma appends_ret {A} (a : A) : appends K (ret a).
Proof. intros s. exists []. by rewrite add_writes_nil. Qed.

Lemma appends_raise {A} e : appends K (raise (A := A) e).
Proof. intros s. exists []. by rewrite add_writes_nil. Qed.

Lemma appends_lift {A} (r : result A) : appends K (lift r).
Proof. intros s. exists []. by rewrite add_writes_nil. Qed.

Lemma appends_bind {A B} (m : M Span A) (k : A -> M Span B) :
  appends K m -> (forall a, appends K (k a)) -> appends K (bind m k).
Proof.
  intros Hm Hk s. unfold bind.
  destruct (Hm s) as (ws1 & E1 & F1).
  destruct (m s) as [s1 [a | e]]; simpl in E1; subst s1.
  - destruct (Hk a (add_writes ws1 s)) as (ws2 & E2 & F2).
    exists (ws1 ++ ws2). rewrite E2, add_writes_app. split; [done |].
    by apply Forall_app.
  - by exists ws1.
Qed.

Lemma appends_for_each {A} (xs : list A) (body : A -> M Span unit) :
  (forall x, appends K (body x)) -> appends K (for_each xs body).
Proof.
  intros Hb. induction xs as [| x rest IH]; simpl.
  - apply appends_ret.
  - apply appends_bind; auto.
Qed.

Lemma appends_comprehension {A B} (xs : list A) (f : A -> M Span B) :
  (forall x, appends K (f x)) -> appends K (comprehension xs f).
Proof.
  intros Hf. induction xs as [| x rest IH]; simpl.
  - apply appends_ret.
  - apply appends_bind; [auto |]. intros y.
    apply appends_bind; [auto |]. intros ys. apply appends_ret.
Qed.

Lemma appends_set_span_attribute name value :
  (writable value -> K name value) -> appends K (_set_span_attribute name value).
Proof.
  intros HK s. unfold _set_span_attribute.
  destruct (is_not_None value) eqn:Hn; [| exists []; by rewrite add_writes_nil].
  destruct (ne_empty value) eqn:He; [| exists []; by rewrite add_writes_nil].
  exists [(name, value)]. split; [done |].
  constructor; [| constructor]. apply HK. split.
  - intros ->. discriminate.
  - intros ->. discriminate.
Qed.
End AppendsRules.

(** Applies the rules above through a function body, splitting on its tests. *)
Ltac appends_step :=
  first
    [ apply appends_ret
    | apply appends_raise
    | apply appends_lift
    | apply appends_set_span_attribute
    | apply appends_for_each; intros ?
    | apply appends_comprehension; intros ?
    | apply appends_bind; [| intros ?]
    | match goal with
      | |- appends _ (if ?c then _ else _) => destruct c
      end ].

Lemma appends_weaken {A} (K K' : string -> pyval -> Prop) (m : M Span A) :
  (forall k v, K k v -> K' k v) -> appends K m -> appends K' m.
Proof.
  intros HKK Hm s. destruct (Hm s) as (ws & E & F).
  exists ws. split; [done |]. eapply Forall_impl; [exact F |]. intros [k v]; simpl. auto.
Qed.

Lemma appends_set_input_attributes amb kwargs :
  appends request_write (_set_input_attributes amb kwargs).
Proof.
  unfold _set_input_attributes.
  repeat appends_step; intros Hw; split; try exact Hw; reflexivity.
Qed.

Lemma appends_set_span_completions response :
  appends any_write (_set_span_completions response).
Proof. unfold _set_span_completions. repeat appends_step; auto. Qed.

Lemma appends_set_token_usage anthropic request response :
  appends any_write (_set_token_usage anthropic request response).
Proof. unfold _set_token_usage. repeat appends_step; auto. Qed.

Lemma appends_set_response_attributes amb response :
  appends any_write (_set_response_attributes amb response).
Proof.
  unfold _set_response_attributes.
  repeat appends_step; auto using appends_set_span_completions.
Qed.

(** ** Single writes *)

Lemma set_span_attribute_written name value s :
  _set_span_attribute name value s = (add_writes (written name value) s, Ok tt).
Proof.
  unfold _set_span_attribute, modify, ret.
  destruct value as [| b | z | str | xs | kvs | cls attrs]; simpl;
    try reflexivity; try (by rewrite add_writes_nil).
  destruct str; simpl; [by rewrite add_writes_nil | reflexivity].
Qed.

Lemma written_writable name value : writable value -> written name value = [(name, value)].
Proof.
  intros [Hn He]. destruct value as [| b | z | str | xs | kvs | cls attrs]; try done.
  destruct str; done.
Qed.

Lemma written_VInt name z : written name (VInt z) = [(name, VInt z)].
Proof. reflexivity. Qed.

Lemma bind_lift_Ok {S A B} (a : A) (k : A -> M S B) s : bind (lift (Ok a)) k s = k a s.
Proof. reflexivity. Qed.

Lemma bind_assoc {S A B C} (m : M S A) (f : A -> M S B) (k : B -> M S C) s :
  bind (bind m f) k s = bind m (fun x => bind (f x) k) s.
Proof. unfold bind. by destruct (m s) as [s1 [a | e]]. Qed.

Lemma bind_Ok {S A B} (m : M S A) (k : A -> M S B) s s' a :
  m s = (s', Ok a) -> bind m k s = k a s'.
Proof. intros H. unfold bind. by rewrite H. Qed.

Lemma bind_set_span_attribute {B} name value (k : unit -> M Span B) s :
  bind (_set_span_attribute name value) k s = k tt (add_writes (written name value) s).
Proof. unfold bind. by rewrite set_span_attribute_written. Qed.

(** ** Content tracing policy *)

Lemma or_default_cases x d :
  or_default x d = match x with
                   | None => d
                   | Some s => if String.eqb s EmptyString then d else s
                   end.
Proof. by destruct x. Qed.

(** ** Content serialisation *)

Lemma dump_content_loop_kept (items : list pydict) (acc : list pyval) :
  forallb block_well_formed items = true ->
  _dump_content_loop (map VDict items) acc = Ok (acc ++ omap kept_block items).
Proof.
  revert acc. induction items as [| item rest IH]; intros acc Hwf; simpl.
  - by rewrite app_nil_r.
  - simpl in Hwf. apply andb_prop in Hwf as [Hitem Hrest].
    unfold block_well_formed in Hitem. unfold kept_block at 1.
    destruct (eq_str (dict_get item "type") "text") eqn:Htext; simpl.
    + rewrite IH by done. by rewrite <- app_assoc.
    + destruct (eq_str (dict_get item "type") "image") eqn:Himage; simpl.
      * destruct (dict_get item "source") as [| | | | | source |] eqn:Hsrc;
          try discriminate; simpl.
        rewrite IH by done. by rewrite <- app_assoc.
      * by apply IH.
Qed.

(** ** Completions *)

Lemma texts_of_blocks (blocks texts : list pyval) :
  map (fun b => getattr b "text") blocks = map Ok texts ->
  Forall2 (fun b t => getattr b "text" = Ok t) blocks texts.
Proof.
  revert texts. induction blocks as [| b rest IH]; intros [| t ts] Hmap;
    try discriminate.
  - constructor.
  - simpl in Hmap. injection Hmap as Hb Hrest. constructor; auto.
Qed.

Lemma completions_loop (i : nat) (blocks texts : list pyval) (s : Span) :
  Forall2 (fun b t => getattr b "text" = Ok t) blocks texts ->
  for_each (enumerate_from i blocks)
    (fun ic =>
       text <- lift (getattr (snd ic) "text") ;;
       _set_span_attribute (LLM_COMPLETIONS +:+ "." +:+ pretty (fst ic) +:+ ".content") text) s
  = (add_writes
       (flat_map (fun it => written (LLM_COMPLETIONS +:+ "." +:+ pretty (fst it) +:+ ".content")
                                    (snd it))
                 (enumerate_from i texts)) s, Ok tt).
Proof.
  intros H. revert i s. induction H as [| b t blocks texts Hb _ IH]; intros i s.
  - simpl. by rewrite add_writes_nil.
  - cbn [enumerate_from for_each flat_map fst snd].
    unfold bind at 1. unfold bind at 1. rewrite Hb; simpl.
    rewrite set_span_attribute_written. rewrite IH. by rewrite add_writes_app.
Qed.

(** ** Token counting *)

Lemma py_sum_from_ints (a : Z) (zs : list Z) :
  py_sum_from (VInt a) (map VInt zs) = Ok (VInt (a + fold_right Z.add 0 zs)).
Proof.
  revert a. induction zs as [| z rest IH]; intros a; simpl.
  - by rewrite Z.add_0_r.
  - rewrite IH. by rewrite Z.add_assoc.
Qed.

Lemma truthy_text (v : pyval) :
  falsy_or_str v = true -> truthy v = true -> exists s, v = VStr s.
Proof.
  intros Hf Ht.
  destruct v; simpl in *; try discriminate; try (rewrite Ht in Hf; discriminate).
  by eexists.
Qed.

Section Tokenizer.
Context (count : string -> Z) (anthropic : Client).
Hypothesis counts_text : forall s, count_tokens anthropic (VStr s) = Ok (VInt (count s)).

Lemma count_messages (ms : list pyval) (s : Span) :
  forallb is_text_message ms = true ->
  comprehension ms (fun m =>
      content <- lift (py_get m "content") ;;
      lift (count_tokens anthropic content)) s
  = (s, Ok (map VInt (map (fun m => match m with
                                    | VDict d => count_of count (dict_get d "content")
                                    | _ => 0
                                    end) ms))).
Proof.
  induction ms as [| m rest IH]; intros Hms; simpl; [done |].
  simpl in Hms. apply andb_prop in Hms as [Hm Hrest].
  destruct m as [| | | | | d |]; try discriminate. simpl in Hm.
  destruct (dict_get d "content") as [| | | c | | |] eqn:Hc; try discriminate.
  unfold bind at 1. unfold bind at 1. simpl. rewrite Hc, counts_text.
  unfold bind at 1. rewrite IH by done. simpl. done.
Qed.
End Tokenizer.

Lemma last_write_app name (ws1 ws2 : pydict) :
  last_write name (ws1 ++ ws2) =
  match last_write name ws2 with
  | Some v => Some v
  | None => last_write name ws1
  end.
Proof.
  induction ws1 as [| [k v] rest IH]; simpl.
  - by destruct (last_write name ws2).
  - rewrite IH. by destruct (last_write name ws2), (last_write name rest).
Qed.

(** ** The functions, one by one *)

(** C3, as stated, fails: with the variable set to the empty string and no
    context override the value does not lowercase to true, yet content
    tracing is on. *)
Lemma empty_variable_enables_tracing :
  getenv empty_variable "TRACELOOP_TRACE_CONTENT" = Some EmptyString
  /\ get_value empty_variable "override_enable_content_tracing" = VNone
  /\ content_tracing_as_specified empty_variable = false
  /\ truthy (should_send_prompts empty_variable) = true.
Proof. vm_compute. repeat split. Qed.

(** C3, amended: content tracing is enabled exactly when the environment
    variable is unset or empty, or its value lowercases to true, or the
    context override flag is set. *)
Theorem content_tracing_enabled_iff (amb : Ambient) :
  truthy (should_send_prompts amb) = true <->
  getenv amb "TRACELOOP_TRACE_CONTENT" = None
  \/ getenv amb "TRACELOOP_TRACE_CONTENT" = Some EmptyString
  \/ (exists v, getenv amb "TRACELOOP_TRACE_CONTENT" = Some v /\ lower v = "true")
  \/ truthy (get_value amb "override_enable_content_tracing") = true.
Proof.
  unfold should_send_prompts. rewrite or_default_cases.
  destruct (getenv amb "TRACELOOP_TRACE_CONTENT") as [v |] eqn:Henv.
  - destruct (String.eqb v EmptyString) eqn:Hempty.
    + apply String.eqb_eq in Hempty as ->. simpl. split; auto.
    + destruct (String.eqb (lower v) "true") eqn:Hlow.
      * apply String.eqb_eq in Hlow. simpl. split; eauto 6.
      * apply String.eqb_neq in Hempty, Hlow. split.
        -- auto.
        -- intros [H | [H | [(w & H & Hw) | H]]]; try done; congruence.
  - simpl. split; auto.
Qed.

(** C4: while the suppress-instrumentation flag is set, the wrapper is the
    original callable: the telemetry is left as it was (no span, no
    attribute, no warning) and the original's value or exception is the
    wrapper's. *)
Theorem suppressed_call_is_original (amb : Ambient) (tracer : Tracer) (to_wrap : pydict)
    (wrapped : Wrapped) (instance : Instance) (args : list pyval) (kwargs : pydict)
    (t : Telemetry) :
  truthy (get_value amb _SUPPRESS_INSTRUMENTATION_KEY) = true ->
  _wrap amb tracer to_wrap wrapped instance args kwargs t = (t, wrapped args kwargs).
Proof.
  intros Hflag. unfold _wrap, _with_tracer_wrapper. by rewrite Hflag.
Qed.

Lemma suppressed_call_is_original_witness :
  truthy (get_value suppressed _SUPPRESS_INSTRUMENTATION_KEY) = true
  /\ _wrap suppressed sample_tracer messages_target
       (fun _ _ => Raise (Exn "APIError" "overloaded" true))
       (mkInstance "Messages" (Some length_client)) [] [("model", VStr "claude-2")]
       (mkTelemetry [] [])
     = (mkTelemetry [] [], Raise (Exn "APIError" "overloaded" true)).
Proof.
  split; [reflexivity |].
  apply (suppressed_call_is_original suppressed sample_tracer messages_target
           (fun _ _ => Raise (Exn "APIError" "overloaded" true))).
  reflexivity.
Defined.

(** C8: a plain string is its own serialisation; of a structured content
    list only the text and image blocks are kept (a text block with its
    type and text, an image block with its source type, media type and
    data coerced to a string), and the kept list is serialised to one JSON
    text. *)
Theorem dump_content_keeps_text_and_image (s : string) (items : list pydict) :
  forallb block_well_formed items = true ->
  _dump_content (VStr s) = Ok (VStr s)
  /\ _dump_content (VList (map VDict items))
     = (let? text := json_dumps (VList (omap kept_block items)) in Ok (VStr text)).
Proof.
  intros Hwf. split; [reflexivity |].
  unfold _dump_content. simpl. by rewrite dump_content_loop_kept.
Qed.

Lemma dump_content_keeps_text_and_image_witness :
  forallb block_well_formed scenario_B = true
  /\ _dump_content (VStr "hi") = Ok (VStr "hi")
  /\ _dump_content (VList (map VDict scenario_B))
     = (let? text :=
          json_dumps
            (VList [ VDict [ ("type", VStr "text"); ("text", VStr "describe this") ];
                     VDict [ ("type", VStr "image");
                             ("source", VDict [ ("type", VStr "base64");
                                                ("media_type", VStr "image/png");
                                                ("data", VStr "42") ]) ] ])
        in Ok (VStr text)).
Proof.
  split; [reflexivity |].
  apply (dump_content_keeps_text_and_image "hi" scenario_B). reflexivity.
Defined.

Example scenario_B_json :
  _dump_content (VList (map VDict scenario_B))
  = Ok (VStr ("[{" +:+ quoted "type" +:+ ": " +:+ quoted "text" +:+ ", "
              +:+ quoted "text" +:+ ": " +:+ quoted "describe this" +:+ "}, {"
              +:+ quoted "type" +:+ ": " +:+ quoted "image" +:+ ", "
              +:+ quoted "source" +:+ ": {"
              +:+ quoted "type" +:+ ": " +:+ quoted "base64" +:+ ", "
              +:+ quoted "media_type" +:+ ": " +:+ quoted "image/png" +:+ ", "
              +:+ quoted "data" +:+ ": " +:+ quoted "42" +:+ "}}]")).
Proof. vm_compute. reflexivity. Qed.

(** C10: the legacy and the structured branch are chosen by truthiness.
    Whatever the branch, the finish reason is attempted first; a truthy
    [completion] is then written as the content of index 0; a falsy one
    (missing, [None], the empty string) counts as absent and each element
    of the [content] list gives its [text] under its own index. *)
Theorem completions_chosen_by_truthiness (response : pydict) (blocks texts : list pyval)
    (span : Span) :
  (truthy (dict_get response "completion") = false ->
   dict_get response "content" = VList blocks
   /\ map (fun b => getattr b "text") blocks = map Ok texts) ->
  _set_span_completions response span =
    (add_writes
       (written "llm.completions.0.finish_reason" (dict_get response "stop_reason")
        ++ (if truthy (dict_get response "completion")
            then written "llm.completions.0.content" (dict_get response "completion")
            else completion_content_writes texts))
       span, Ok tt).
Proof.
  intros Hstructured. unfold _set_span_completions.
  rewrite bind_set_span_attribute.
  destruct (truthy (dict_get response "completion")) eqn:Hlegacy.
  - rewrite set_span_attribute_written. by rewrite add_writes_app.
  - destruct (Hstructured eq_refl) as [Hcontent Hmap].
    apply texts_of_blocks in Hmap as Htexts.
    rewrite Hcontent. destruct blocks as [| b rest].
    + inversion Htexts; subst. simpl. unfold ret.
      by rewrite app_nil_r.
    + cbn [truthy py_iter]. rewrite bind_lift_Ok.
      unfold enumerate. rewrite (completions_loop 0 _ texts) by done.
      by rewrite add_writes_app.
Qed.

Lemma completions_chosen_by_truthiness_witness :
  truthy (dict_get empty_legacy_response "completion") = false
  /\ _set_span_completions empty_legacy_response fresh_span =
    (add_writes [ ("llm.completions.0.finish_reason", VStr "end_turn");
                  ("llm.completions.0.content", VStr "hello");
                  ("llm.completions.1.content", VStr "world") ] fresh_span, Ok tt).
Proof.
  split; [reflexivity |].
  apply (completions_chosen_by_truthiness empty_legacy_response
           [ VObj "ContentBlock" [("text", VStr "hello")];
             VObj "ContentBlock" [("text", VStr "world")] ]
           [ VStr "hello"; VStr "world" ] fresh_span).
  intros _. split; reflexivity.
Defined.

(** With a tokenizer that counts text, the fallback appends its three
    writes and nothing else. *)
Lemma token_usage_appends (count : string -> Z) (anthropic : Client)
    (request : pydict) (response : pyval) (d : pydict) (span : Span) :
  (forall s, count_tokens anthropic (VStr s) = Ok (VInt (count s))) ->
  as_dict response = Ok d ->
  text_request request = true ->
  text_response d = true ->
  let p := fallback_prompt_tokens count request in
  let c := fallback_completion_tokens count d in
  _set_token_usage anthropic request response span
  = (add_writes [ (LLM_USAGE_PROMPT_TOKENS, VInt p);
                  (LLM_USAGE_COMPLETION_TOKENS, VInt c);
                  (LLM_USAGE_TOTAL_TOKENS, VInt (p + c)) ] span, Ok tt).
Proof.
  intros Hcount Hdict Hreq Hresp p c.
  unfold _set_token_usage. rewrite Hdict, bind_lift_Ok.
  (* the prompt side *)
  assert (Hp : forall B (k : pyval -> M Span B) s,
             bind (if truthy (dict_get request "prompt")
                   then lift (count_tokens anthropic (dict_get request "prompt"))
                   else if truthy (dict_get request "messages")
                        then (messages <- lift (py_iter (dict_get request "messages")) ;;
                              counts <- comprehension messages (fun m =>
                                          content <- lift (py_get m "content") ;;
                                          lift (count_tokens anthropic content)) ;;
                              lift (py_sum counts))
                        else ret (VInt 0)) k s
             = k (VInt p) s).
  { intros B k s. subst p. unfold fallback_prompt_tokens, text_request in *.
    apply andb_prop in Hreq as [Hprompt Hmsgs].
    destruct (truthy (dict_get request "prompt")) eqn:Htp.
    - destruct (truthy_text _ Hprompt Htp) as [str ->].
      simpl. unfold bind, lift. by rewrite Hcount.
    - simpl in Hmsgs.
      destruct (dict_get request "messages") as [| b | z | str | ms | kvs | cls attrs];
        simpl in Hmsgs |- *; try done;
        try (apply negb_true_iff in Hmsgs; by rewrite Hmsgs).
      destruct ms as [| m rest]; [done |].
      rewrite !bind_assoc, bind_lift_Ok. cbv beta. rewrite bind_assoc.
      rewrite (bind_Ok _ _ _ _ _ (count_messages count anthropic Hcount _ s Hmsgs)).
      unfold bind, lift, py_sum. by rewrite py_sum_from_ints. }
  rewrite Hp.
  (* the completion side *)
  assert (Hc : forall B (k : pyval -> M Span B) s,
             bind (if truthy (dict_get d "completion")
                   then lift (count_tokens anthropic (dict_get d "completion"))
                   else if truthy (dict_get d "content")
                        then (first <- lift (py_index0 (dict_get d "content")) ;;
                              text <- lift (getattr first "text") ;;
                              lift (count_tokens anthropic text))
                        else ret (VInt 0)) k s
             = k (VInt c) s).
  { intros B k s. subst c. unfold fallback_completion_tokens, text_response in *.
    apply andb_prop in Hresp as [Hcompletion Hcontent].
    destruct (truthy (dict_get d "completion")) eqn:Htc.
    - destruct (truthy_text _ Hcompletion Htc) as [str ->].
      simpl. unfold bind, lift. by rewrite Hcount.
    - simpl in Hcontent.
      destruct (dict_get d "content") as [| b | z | str | bs | kvs | cls attrs];
        simpl in Hcontent |- *; try done;
        try (apply negb_true_iff in Hcontent; by rewrite Hcontent).
      destruct bs as [| b rest]; [done |].
      simpl. rewrite !bind_assoc, bind_lift_Ok. cbv beta. rewrite bind_assoc.
      destruct (getattr b "text") as [[| | | str | | |] | e]; try discriminate.
      rewrite bind_lift_Ok. unfold bind, lift. by rewrite Hcount. }
  rewrite Hc.
  change (py_add (VInt p) (VInt c)) with (Ok (VInt (p + c))). rewrite bind_lift_Ok.
  rewrite !bind_set_span_attribute, set_span_attribute_written.
  rewrite !written_VInt, !add_writes_app. reflexivity.
Qed.


(** ** Exceptions of attribute extraction

    Every exception raised while the request attributes are extracted is an
    [Exception]: the guard around the extraction catches it. *)

Lemma catchable_Ok {A} (a : A) : catchable (Ok a).
Proof. intros e H. discriminate. Qed.

Lemma catchable_rbind {A B} (r : result A) (k : A -> result B) :
  catchable r -> (forall a, catchable (k a)) -> catchable (rbind r k).
Proof.
  intros Hr Hk e. destruct r as [a | e']; simpl.
  - apply Hk.
  - intros [= ->]. by apply Hr.
Qed.

Lemma catchable_sequence {A} (rs : list (result A)) :
  Forall catchable rs -> catchable (sequence rs).
Proof.
  induction 1 as [| r rest Hr _ IH]; simpl.
  - apply catchable_Ok.
  - destruct r as [a | e'].
    + destruct (sequence rest) as [xs | e'']; [apply catchable_Ok |].
      intros e [= ->]. by apply IH.
    + intros e [= ->]. by apply Hr.
Qed.

Lemma catchable_py_get v k : catchable (py_get v k).
Proof. intros e. destruct v; simpl; intros [= <-]; reflexivity. Qed.

Lemma catchable_getattr v k : catchable (getattr v k).
Proof.
  intros e. destruct v; simpl; try (intros [= <-]; reflexivity).
  destruct (assoc k attrs); intros [= <-]; reflexivity.
Qed.

Lemma catchable_py_iter v : catchable (py_iter v).
Proof. intros e. destruct v; simpl; intros [= <-]; reflexivity. Qed.

Lemma catchable_json_dumps v : catchable (json_dumps v).
Proof.
  induction v as [| b | z | s | xs IH | kvs IH | cls attrs IH] using pyval_nested_ind;
    simpl; try apply catchable_Ok.
  - apply catchable_rbind; [| intros ?; apply catchable_Ok].
    apply catchable_sequence. by apply Forall_map.
  - apply catchable_rbind; [| intros ?; apply catchable_Ok].
    apply catchable_sequence. apply Forall_map.
    eapply Forall_impl; [exact IH |]. intros [k v] Hv; simpl in *.
    apply catchable_rbind; [exact Hv | intros ?; apply catchable_Ok].
  - intros e [= <-]. reflexivity.
Qed.

Lemma catchable_dump_content_loop items acc : catchable (_dump_content_loop items acc).
Proof.
  revert acc. induction items as [| item rest IH]; intros acc; simpl.
  - apply catchable_Ok.
  - repeat first
      [ apply IH
      | apply catchable_py_get
      | apply catchable_rbind; [| intros ?]
      | match goal with |- catchable (if ?c then _ else _) => destruct c end ].
Qed.

Lemma catchable_dump_content content : catchable (_dump_content content).
Proof.
  unfold _dump_content.
  assert (H : catchable (let? items := py_iter content in
                         let? json_serializable := _dump_content_loop items [] in
                         let? text := json_dumps (VList json_serializable) in
                         Ok (VStr text))).
  { repeat first
      [ apply catchable_py_iter
      | apply catchable_dump_content_loop
      | apply catchable_json_dumps
      | apply catchable_Ok
      | apply catchable_rbind; [| intros ?] ]. }
  destruct content; try exact H. apply catchable_Ok.
Qed.

Lemma raises_exceptions_ret {S A} (a : A) : raises_exceptions (S := S) (ret a).
Proof. intros s. apply catchable_Ok. Qed.

Lemma raises_exceptions_lift {S A} (r : result A) :
  catchable r -> raises_exceptions (S := S) (lift r).
Proof. intros Hr s. exact Hr. Qed.

Lemma raises_exceptions_bind {S A B} (m : M S A) (k : A -> M S B) :
  raises_exceptions m -> (forall a, raises_exceptions (k a)) -> raises_exceptions (bind m k).
Proof.
  intros Hm Hk s. unfold bind. specialize (Hm s).
  destruct (m s) as [s1 [a | e']]; simpl in *.
  - apply Hk.
  - intros e [= <-]. by apply Hm.
Qed.

Lemma raises_exceptions_for_each {S A} (xs : list A) (body : A -> M S unit) :
  (forall x, raises_exceptions (body x)) -> raises_exceptions (for_each xs body).
Proof.
  intros Hb. induction xs as [| x rest IH]; simpl.
  - apply raises_exceptions_ret.
  - apply raises_exceptions_bind; auto.
Qed.

Lemma raises_exceptions_set_span_attribute name value :
  raises_exceptions (_set_span_attribute name value).
Proof. intros s. rewrite set_span_attribute_written. apply catchable_Ok. Qed.

Lemma raises_exceptions_set_input_attributes amb kwargs :
  raises_exceptions (_set_input_attributes amb kwargs).
Proof.
  unfold _set_input_attributes.
  repeat first
    [ apply raises_exceptions_ret
    | apply raises_exceptions_set_span_attribute
    | apply raises_exceptions_lift;
        first [ apply catchable_py_iter | apply catchable_py_get
              | apply catchable_dump_content ]
    | apply raises_exceptions_for_each; intros ?
    | apply raises_exceptions_bind; [| intros ?]
    | match goal with
      | |- raises_exceptions (if ?c then _ else _) => destruct c
      end ].
Qed.

(** ** The wrapper, phase by phase *)

(** The guarded extraction of request attributes never raises: it appends
    request attributes to the span and may log a warning. *)
Lemma request_block (amb : Ambient) (kwargs : pydict) (f : Frame) :
  exists ws log',
    try_except
      (f <- get ;;
       if is_recording (span f) then on_span (_set_input_attributes amb kwargs)
       else ret tt)
      (fun ex =>
         logger_warning "Failed to set input attributes for anthropic span, error: "
                        (exn_msg ex)) f
    = (mkFrame (add_writes ws (span f)) log', Ok tt)
    /\ Forall (fun kv => request_write (fst kv) (snd kv)) ws.
Proof.
  unfold try_except, bind, get, on_span, logger_warning, ret.
  destruct (is_recording (span f)).
  - destruct (appends_set_input_attributes amb kwargs (span f)) as (ws & E & F).
    pose proof (raises_exceptions_set_input_attributes amb kwargs (span f)) as Hexn.
    destruct (_set_input_attributes amb kwargs (span f)) as [s1 [[] | e]];
      simpl in E, Hexn; subst s1.
    + by exists ws, (log f).
    + rewrite (Hexn e eq_refl). by eexists ws, _.
  - exists [], (log f). rewrite add_writes_nil. by destruct f.
Qed.

Lemma request_write_not_response (ws : pydict) :
  Forall (fun kv => request_write (fst kv) (snd kv)) ws ->
  Forall (fun kv => is_response_key (fst kv) = false) ws.
Proof. intros H. eapply Forall_impl; [exact H |]. by intros kv [Hk _]. Qed.

Lemma not_response_not_completion (ws : pydict) :
  Forall (fun kv => is_response_key (fst kv) = false) ws ->
  Forall (fun kv => is_completion_key (fst kv) = false) ws.
Proof.
  intros H. eapply Forall_impl; [exact H |]. intros kv Hk.
  unfold is_response_key in Hk. by apply orb_false_elim in Hk as [_ Hk].
Qed.

Lemma initial_attributes_not_response :
  Forall (fun kv => is_response_key (fst kv) = false) initial_attributes.
Proof. repeat constructor. Qed.

(** C5: when the original callable raises, the wrapper raises the same
    exception; if the call is instrumented, exactly one span is handed over,
    it is ended, and no completion attribute was written on it. *)
Theorem wrapped_exception_propagates (amb : Ambient) (tracer : Tracer) (to_wrap : pydict)
    (wrapped : Wrapped) (instance : Instance) (args : list pyval) (kwargs : pydict)
    (t : Telemetry) (e : exn) :
  wrapped args kwargs = Raise e ->
  exists closed log',
    _wrap amb tracer to_wrap wrapped instance args kwargs t
    = (mkTelemetry (spans t ++ closed) log', Raise e)
    /\ length closed = (if truthy (get_value amb _SUPPRESS_INSTRUMENTATION_KEY)
                        then 0%nat else 1%nat)
    /\ Forall (fun sp =>
                 ended sp = true
                 /\ Forall (fun kv => is_completion_key (fst kv) = false) (attributes sp))
              closed.
Proof.
  intros Hraise. unfold _wrap, _with_tracer_wrapper.
  destruct (truthy (get_value amb _SUPPRESS_INSTRUMENTATION_KEY)).
  - exists [], (warnings t). unfold lift. rewrite Hraise, app_nil_r.
    by destruct t.
  - unfold start_as_current_span. unfold bind at 1.
    match goal with |- context [try_except ?b ?h ?f] =>
      destruct (request_block amb kwargs f) as (ws & log' & E & F) end.
    rewrite E. rewrite Hraise. unfold bind, lift. simpl span. simpl log.
    eexists [_], log'. split; [reflexivity |]. split; [reflexivity |].
    constructor; [| constructor]. split.
    + reflexivity.
    + apply not_response_not_completion.
      assert (Forall (fun kv => is_response_key (fst kv) = false)
                     (initial_attributes ++ ws)) as Hall.
      { apply Forall_app. split; [apply initial_attributes_not_response |].
        by apply request_write_not_response. }
      exact Hall.
Qed.

Lemma wrapped_exception_propagates_witness :
  truthy (get_value no_ambient _SUPPRESS_INSTRUMENTATION_KEY) = false
  /\ exists closed log',
       _wrap no_ambient sample_tracer messages_target (fun _ _ => Raise api_error)
             (mkInstance "Messages" (Some length_client)) [] scenario_request (mkTelemetry [] [])
       = (mkTelemetry ([] ++ closed) log', Raise api_error)
       /\ length closed = 1%nat
       /\ Forall (fun sp =>
                    ended sp = true
                    /\ Forall (fun kv => is_completion_key (fst kv) = false) (attributes sp))
                 closed.
Proof.
  split; [reflexivity |].
  apply (wrapped_exception_propagates no_ambient sample_tracer messages_target
           (fun _ _ => Raise api_error) (mkInstance "Messages" (Some length_client)) []
           scenario_request (mkTelemetry [] []) api_error).
  reflexivity.
Defined.

(** C9: the response is tested for truth, not against [None]. When the
    original callable returns a falsy value (an empty dict or list, [0],
    the empty string, [False], as well as [None]), the span is ended with
    its status unset and without any response or usage attribute, and the
    value is returned as it is. *)
Theorem falsy_response_skips_processing (amb : Ambient) (tracer : Tracer)
    (to_wrap : pydict) (wrapped : Wrapped) (instance : Instance) (args : list pyval)
    (kwargs : pydict) (t : Telemetry) (v : pyval) :
  truthy (get_value amb _SUPPRESS_INSTRUMENTATION_KEY) = false ->
  wrapped args kwargs = Ok v ->
  truthy v = false ->
  exists sp log',
    _wrap amb tracer to_wrap wrapped instance args kwargs t
    = (mkTelemetry (spans t ++ [sp]) log', Ok v)
    /\ ended sp = true
    /\ status sp = UNSET
    /\ Forall (fun kv => is_response_key (fst kv) = false) (attributes sp).
Proof.
  intros Hflag Hret Hfalsy. unfold _wrap, _with_tracer_wrapper. rewrite Hflag.
  unfold start_as_current_span. unfold bind at 1.
  match goal with |- context [try_except ?b ?h ?f] =>
    destruct (request_block amb kwargs f) as (ws & log' & E & F) end.
  rewrite E. rewrite Hret, bind_lift_Ok. rewrite Hfalsy.
  unfold bind, ret. simpl.
  eexists _, log'. split; [reflexivity |]. repeat split.
  simpl. apply (Forall_app _ initial_attributes ws).
  split; [apply initial_attributes_not_response |].
  by apply request_write_not_response.
Qed.

Lemma falsy_response_skips_processing_witness :
  is_not_None (VDict []) = true
  /\ truthy (VDict []) = false
  /\ exists sp log',
       _wrap no_ambient sample_tracer messages_target (fun _ _ => Ok (VDict []))
             (mkInstance "Messages" (Some length_client)) [] scenario_request (mkTelemetry [] [])
       = (mkTelemetry ([] ++ [sp]) log', Ok (VDict []))
       /\ ended sp = true
       /\ status sp = UNSET
       /\ Forall (fun kv => is_response_key (fst kv) = false) (attributes sp).
Proof.
  split; [reflexivity |]. split; [reflexivity |].
  apply (falsy_response_skips_processing no_ambient sample_tracer messages_target
           (fun _ _ => Ok (VDict [])) (mkInstance "Messages" (Some length_client)) []
           scenario_request (mkTelemetry [] []) (VDict [])); reflexivity.
Defined.

(** ** Only writable values reach a span *)

Lemma keeps_clean_ret {A} (a : A) : keeps_clean (ret a).
Proof. by intros f. Qed.

Lemma keeps_clean_lift {A} (r : result A) : keeps_clean (lift r).
Proof. by intros f. Qed.

Lemma keeps_clean_logger_warning fmt arg : keeps_clean (logger_warning fmt arg).
Proof. by intros f. Qed.

Lemma keeps_clean_bind {A B} (m : M Frame A) (k : A -> M Frame B) :
  keeps_clean m -> (forall a, keeps_clean (k a)) -> keeps_clean (bind m k).
Proof.
  intros Hm Hk f Hf. unfold bind. specialize (Hm f Hf).
  destruct (m f) as [f1 [a | e]]; simpl in *; [by apply Hk | done].
Qed.

Lemma keeps_clean_get {B} (k : Frame -> M Frame B) :
  (forall f, keeps_clean (k f)) -> keeps_clean (bind get k).
Proof. intros Hk f Hf. unfold bind, get. by apply Hk. Qed.

Lemma keeps_clean_try_except (body : M Frame unit) (handler : exn -> M Frame unit) :
  keeps_clean body -> (forall e, keeps_clean (handler e)) ->
  keeps_clean (try_except body handler).
Proof.
  intros Hb Hh f Hf. unfold try_except. specialize (Hb f Hf).
  destruct (body f) as [f1 [u | e]]; simpl in *; [done |].
  destruct (is_Exception e); [by apply Hh | done].
Qed.

Lemma keeps_clean_on_span {A} (K : string -> pyval -> Prop) (m : M Span A) :
  (forall k v, K k v -> writable v) -> appends K m -> keeps_clean (on_span m).
Proof.
  intros HK Hm f Hf. unfold on_span.
  destruct (Hm (span f)) as (ws & E & F).
  destruct (m (span f)) as [s1 r]; simpl in *. subst s1.
  unfold clean, add_writes; simpl. apply Forall_app. split; [done |].
  eapply Forall_impl; [exact F |]. intros [k v]; simpl. apply HK.
Qed.

Lemma keeps_clean_set_status code : keeps_clean (on_span (modify (set_status code))).
Proof. by intros f. Qed.

Lemma wrap_body_keeps_clean (amb : Ambient) (wrapped : Wrapped) (instance : Instance)
    (args : list pyval) (kwargs : pydict) :
  keeps_clean
    (try_except
       (f <- get ;;
        if is_recording (span f) then on_span (_set_input_attributes amb kwargs)
        else ret tt)
       (fun ex =>
          logger_warning "Failed to set input attributes for anthropic span, error: "
                         (exn_msg ex)) ;;
     response <- lift (wrapped args kwargs) ;;
     (if truthy response then
        try_except
          (f <- get ;;
           if is_recording (span f) then
             on_span (_set_response_attributes amb response) ;;
             anthropic <- lift (get_client instance) ;;
             on_span (_set_token_usage anthropic kwargs response)
           else ret tt)
          (fun ex =>
             logger_warning
               "Failed to set response attributes for anthropic span, error: "
               (exn_msg ex)) ;;
        f <- get ;;
        if is_recording (span f) then on_span (modify (set_status OK))
        else ret tt
      else ret tt) ;;
     ret response).
Proof.
  apply keeps_clean_bind; [| intros _].
  { apply keeps_clean_try_except; [| intros ex; apply keeps_clean_logger_warning].
    apply keeps_clean_get; intros f. destruct (is_recording (span f)).
    - apply (keeps_clean_on_span request_write);
        [by intros k v [_ H] | apply appends_set_input_attributes].
    - apply keeps_clean_ret. }
  apply keeps_clean_bind; [apply keeps_clean_lift | intros response].
  apply keeps_clean_bind; [| intros _; apply keeps_clean_ret].
  destruct (truthy response); [| apply keeps_clean_ret].
  apply keeps_clean_bind; [| intros _].
  { apply keeps_clean_try_except; [| intros ex; apply keeps_clean_logger_warning].
    apply keeps_clean_get; intros f. destruct (is_recording (span f)).
    - apply keeps_clean_bind; [| intros _].
      + apply (keeps_clean_on_span any_write);
          [by intros k v H | apply appends_set_response_attributes].
      + apply keeps_clean_bind; [apply keeps_clean_lift | intros anthropic].
        apply (keeps_clean_on_span any_write);
          [by intros k v H | apply appends_set_token_usage].
    - apply keeps_clean_ret. }
  apply keeps_clean_get; intros f. destruct (is_recording (span f)).
  - apply keeps_clean_set_status.
  - apply keeps_clean_ret.
Qed.

(** C6: a write of [None] or of the empty string leaves the span as it
    was, any other value is written; and every attribute of every span the
    wrapper hands over holds a value that is neither. *)
Theorem attribute_written_only_when_nonempty :
  (forall name value span,
     _set_span_attribute name value span
     = (match value with
        | VNone => span
        | VStr EmptyString => span
        | _ => set_attribute name value span
        end, Ok tt))
  /\ (forall amb tracer to_wrap wrapped instance args kwargs t,
        exists closed,
          spans (fst (_wrap amb tracer to_wrap wrapped instance args kwargs t))
          = spans t ++ closed
          /\ Forall clean closed).
Proof.
  split.
  - intros name value sp. rewrite set_span_attribute_written.
    destruct value as [| b | z | str | xs | kvs | cls attrs];
      try reflexivity; try (by rewrite add_writes_nil).
    destruct str; [by rewrite add_writes_nil | reflexivity].
  - intros amb tracer to_wrap wrapped instance args kwargs t.
    unfold _wrap, _with_tracer_wrapper.
    destruct (truthy (get_value amb _SUPPRESS_INSTRUMENTATION_KEY)).
    + exists []. by rewrite app_nil_r.
    + unfold start_as_current_span.
      match goal with |- context [fst (match ?body ?f0 with _ => _ end)] =>
        pose proof (wrap_body_keeps_clean amb wrapped instance args kwargs f0) as Hclean;
        destruct (body f0) as [f r] end.
      eexists [_]. split; [reflexivity |]. constructor; [| constructor].
      apply Hclean. unfold clean; simpl. repeat constructor; discriminate.
Qed.

(** ** Native usage and the fallback *)

Lemma blocks_with_text (blocks : list pyval) :
  forallb has_text blocks = true ->
  exists texts, map (fun b => getattr b "text") blocks = map Ok texts.
Proof.
  induction blocks as [| b rest IH]; simpl; intros H.
  - by exists [].
  - apply andb_prop in H as [Hb Hrest]. destruct (IH Hrest) as [texts Htexts].
    unfold has_text in Hb. destruct (getattr b "text") as [t | e]; [| discriminate].
    exists (t :: texts). simpl. by rewrite Htexts.
Qed.

Lemma span_completions_ok (response : pydict) (s : Span) :
  completions_extractable response = true ->
  exists ws, _set_span_completions response s = (add_writes ws s, Ok tt).
Proof.
  intros H. unfold completions_extractable in H. unfold _set_span_completions.
  rewrite bind_set_span_attribute.
  destruct (truthy (dict_get response "completion")).
  - rewrite set_span_attribute_written, add_writes_app. by eexists.
  - simpl in H.
    destruct (dict_get response "content") as [| b | z | str | blocks | kvs | cls attrs];
      simpl in H |- *; try discriminate; try (by eexists);
      try (apply negb_true_iff in H; rewrite ?H; by eexists).
    destruct blocks as [| b rest]; [by eexists |].
    destruct (blocks_with_text _ H) as [texts Htexts].
    apply texts_of_blocks in Htexts.
    rewrite bind_lift_Ok. unfold enumerate.
    rewrite (completions_loop 0 _ texts _ Htexts), add_writes_app. by eexists.
Qed.

Lemma response_attributes_ok (amb : Ambient) (response : pyval) (d : pydict) (s : Span) :
  as_dict response = Ok d ->
  usage_extractable d = true ->
  completions_extractable d = true ->
  exists ws, _set_response_attributes amb response s = (add_writes ws s, Ok tt).
Proof.
  intros Hdict Husage Hcompl. unfold _set_response_attributes.
  rewrite Hdict, bind_lift_Ok, bind_set_span_attribute.
  assert (Hrest : forall s1, exists ws,
             (if truthy (should_send_prompts amb) then _set_span_completions d
              else ret tt) s1 = (add_writes ws s1, Ok tt)).
  { intros s1. destruct (truthy (should_send_prompts amb)).
    - by apply span_completions_ok.
    - exists []. by rewrite add_writes_nil. }
  unfold usage_extractable in Husage.
  destruct (truthy (dict_get d "usage")).
  - simpl in Husage.
    destruct (getattr (dict_get d "usage") "input_tokens") as [[| | n_in | | | |] | e];
      try discriminate.
    destruct (getattr (dict_get d "usage") "output_tokens") as [[| | n_out | | | |] | e];
      try discriminate.
    rewrite !bind_assoc, bind_lift_Ok. cbv beta.
    rewrite !bind_assoc, bind_lift_Ok. cbv beta.
    rewrite !bind_assoc, bind_set_span_attribute.
    rewrite !bind_assoc, bind_set_span_attribute.
    change (py_add (VInt n_in) (VInt n_out)) with (Ok (VInt (n_in + n_out))).
    rewrite !bind_assoc, bind_lift_Ok. cbv beta. rewrite bind_set_span_attribute.
    match goal with |- context [_ ?s1 = (_, Ok tt)] =>
      destruct (Hrest s1) as [ws Hws]; rewrite Hws end.
    rewrite !add_writes_app. by eexists.
  - unfold bind at 1. unfold ret at 1.
    match goal with |- context [_ ?s1 = (_, Ok tt)] =>
      destruct (Hrest s1) as [ws Hws]; rewrite Hws end.
    rewrite !add_writes_app. by eexists.
Qed.

(** An instrumented call on a recording span whose response can be read:
    whatever the response says about usage, the usage attributes of the
    span are the counts of the fallback, and the status is [OK]. *)
Lemma instrumented_call_reports_fallback_usage (amb : Ambient) (tracer : Tracer)
    (to_wrap : pydict) (wrapped : Wrapped) (instance : Instance) (args : list pyval)
    (kwargs : pydict) (t : Telemetry) (count : string -> Z) (anthropic : Client)
    (response : pyval) (d : pydict) :
  truthy (get_value amb _SUPPRESS_INSTRUMENTATION_KEY) = false ->
  records tracer = true ->
  wrapped args kwargs = Ok response ->
  truthy response = true ->
  as_dict response = Ok d ->
  usage_extractable d = true ->
  completions_extractable d = true ->
  _client instance = Some anthropic ->
  (forall s, count_tokens anthropic (VStr s) = Ok (VInt (count s))) ->
  text_request kwargs = true ->
  text_response d = true ->
  let p := fallback_prompt_tokens count kwargs in
  let c := fallback_completion_tokens count d in
  exists sp log',
    _wrap amb tracer to_wrap wrapped instance args kwargs t
    = (mkTelemetry (spans t ++ [sp]) log', Ok response)
    /\ ended sp = true
    /\ status sp = OK
    /\ attribute sp LLM_USAGE_PROMPT_TOKENS = Some (VInt p)
    /\ attribute sp LLM_USAGE_COMPLETION_TOKENS = Some (VInt c)
    /\ attribute sp LLM_USAGE_TOTAL_TOKENS = Some (VInt (p + c)).
Proof.
  intros Hflag Hrec Hret Htruthy Hdict Husage Hcompl Hclient Hcount Hreq Hresp p c.
  unfold _wrap, _with_tracer_wrapper. rewrite Hflag.
  unfold start_as_current_span. unfold bind at 1.
  match goal with |- context [try_except ?b ?h ?f] =>
    destruct (request_block amb kwargs f) as (ws1 & log1 & E & _) end.
  rewrite E. rewrite Hret, bind_lift_Ok. rewrite Htruthy. cbn [span log].
  match goal with |- context [add_writes ws1 ?s0] => set (s1 := add_writes ws1 s0) end.
  destruct (response_attributes_ok amb response d s1 Hdict Husage Hcompl) as [ws2 E2].
  set (s2 := add_writes ws2 s1) in *.
  pose proof (token_usage_appends count anthropic kwargs response d s2
                Hcount Hdict Hreq Hresp) as E3.
  cbv zeta in E3. fold p c in E3.
  match type of E3 with _ = (?s, _) => set (s3 := s) in * end.
  assert (HR1 : is_recording s1 = true).
  { unfold is_recording. cbn. by rewrite Hrec. }
  assert (HR3 : is_recording s3 = true).
  { unfold is_recording. cbn. by rewrite Hrec. }
  unfold bind, try_except, get, on_span, lift, modify, ret, get_client.
  repeat first [ progress cbn [span log] | rewrite HR1 | rewrite E2 | rewrite Hclient
               | rewrite E3 | rewrite HR3 ].
  eexists _, log1. split; [reflexivity |].
  split; [reflexivity |]. split; [reflexivity |].
  unfold attribute. subst s3. cbn [attributes end_span set_status add_writes].
  rewrite !last_write_app. by repeat split.
Qed.

(** ** The fallback: counts first, writes last *)

Lemma lift_rbind {S A B} (r : result A) (k : A -> result B) (s : S) :
  (a <- lift r ;; lift (k a)) s = (s, rbind r k).
Proof. unfold bind, lift. by destruct r. Qed.

(** A comprehension over steps that leave the state alone collects their
    results, up to the first failure. *)
Lemma comprehension_pure {S A B} (g : A -> M S B) (f : A -> result B) (xs : list A) (s : S) :
  (forall x s', g x s' = (s', f x)) ->
  comprehension xs g s = (s, sequence (map f xs)).
Proof.
  intros Hg. induction xs as [| x rest IH]; simpl; [done |].
  unfold bind at 1. rewrite Hg. destruct (f x) as [y | e]; [| done].
  unfold bind at 1. rewrite IH. by destruct (sequence (map f rest)).
Qed.

Lemma prompt_side_pure (anthropic : Client) (request : pydict) (s : Span) :
  (if truthy (dict_get request "prompt") then
     lift (count_tokens anthropic (dict_get request "prompt"))
   else if truthy (dict_get request "messages") then
     messages <- lift (py_iter (dict_get request "messages")) ;;
     counts <- comprehension messages (fun m =>
                 content <- lift (py_get m "content") ;;
                 lift (count_tokens anthropic content)) ;;
     lift (py_sum counts)
   else ret (VInt 0)) s
  = (s, prompt_count anthropic request).
Proof.
  unfold prompt_count. destruct (truthy (dict_get request "prompt")); [done |].
  destruct (truthy (dict_get request "messages")); [| done].
  unfold bind at 1. unfold lift at 1.
  destruct (py_iter (dict_get request "messages")) as [ms | e]; [| done]. cbn [rbind].
  unfold bind at 1.
  rewrite (comprehension_pure _ (fun m => let? content := py_get m "content" in
                                          count_tokens anthropic content))
    by (intros m s'; apply lift_rbind).
  by destruct (sequence _).
Qed.

Lemma completion_side_pure (anthropic : Client) (response : pydict) (s : Span) :
  (if truthy (dict_get response "completion") then
     lift (count_tokens anthropic (dict_get response "completion"))
   else if truthy (dict_get response "content") then
     first <- lift (py_index0 (dict_get response "content")) ;;
     text <- lift (getattr first "text") ;;
     lift (count_tokens anthropic text)
   else ret (VInt 0)) s
  = (s, completion_count anthropic response).
Proof.
  unfold completion_count. destruct (truthy (dict_get response "completion")); [done |].
  destruct (truthy (dict_get response "content")); [| done].
  unfold bind at 1. unfold lift at 1.
  destruct (py_index0 (dict_get response "content")) as [first | e]; [| done].
  cbn [rbind]. apply lift_rbind.
Qed.

(** The fallback is its counts, then its three writes: an exception on the
    way to the counts leaves the span as it was. *)
Lemma token_usage_factors (anthropic : Client) (request : pydict) (response : pyval)
    (s : Span) :
  _set_token_usage anthropic request response s
  = match fallback_counts anthropic request response with
    | Ok (p, c, t) =>
        (add_writes (written LLM_USAGE_PROMPT_TOKENS p
                     ++ written LLM_USAGE_COMPLETION_TOKENS c
                     ++ written LLM_USAGE_TOTAL_TOKENS t) s, Ok tt)
    | Raise e => (s, Raise e)
    end.
Proof.
  unfold _set_token_usage, fallback_counts.
  unfold bind at 1. unfold lift at 1.
  destruct (as_dict response) as [d | e]; [| done]. cbn [rbind].
  unfold bind at 1. rewrite prompt_side_pure.
  destruct (prompt_count anthropic request) as [p | e]; [| done]. cbn [rbind].
  unfold bind at 1. rewrite completion_side_pure.
  destruct (completion_count anthropic d) as [c | e]; [| done]. cbn [rbind].
  unfold bind at 1. unfold lift at 1.
  destruct (py_add p c) as [t | e]; [| done]. cbn [rbind].
  rewrite !bind_set_span_attribute, set_span_attribute_written, !add_writes_app.
  by rewrite <- ?app_assoc.
Qed.

Section AnyTokenizer.
Context (count : pyval -> Z) (anthropic : Client).

Lemma sequence_counts (ms : list pyval) :
  forallb is_dict ms = true ->
  Forall (fun v => count_tokens anthropic v = Ok (VInt (count v))) (map message_content ms) ->
  sequence (map (fun m => let? content := py_get m "content" in
                          count_tokens anthropic content) ms)
  = Ok (map VInt (map count (map message_content ms))).
Proof.
  induction ms as [| m rest IH]; intros Hms Hcount; simpl; [done |].
  simpl in Hms. apply andb_prop in Hms as [Hm Hrest].
  simpl in Hcount. apply Forall_cons in Hcount as [Hc Hcs].
  destruct m as [| | | | | d |]; try discriminate.
  simpl in Hc |- *. rewrite Hc. by rewrite IH.
Qed.

Lemma prompt_count_counted (request : pydict) :
  messages_are_dicts request = true ->
  Forall (fun v => count_tokens anthropic v = Ok (VInt (count v)))
         (counted_for_prompt request) ->
  prompt_count anthropic request = Ok (VInt (total_count count (counted_for_prompt request))).
Proof.
  unfold prompt_count, counted_for_prompt, messages_are_dicts, total_count.
  intros Hdicts Hcount.
  destruct (truthy (dict_get request "prompt")).
  - apply Forall_cons in Hcount as [Hc _]. rewrite Hc. simpl. by rewrite Z.add_0_r.
  - simpl in Hdicts.
    destruct (dict_get request "messages") as [| b | z | str | ms | kvs | cls attrs];
      simpl in Hdicts |- *; try done;
      try (apply negb_true_iff in Hdicts; by rewrite Hdicts).
    destruct ms as [| m rest]; [done |].
    rewrite (sequence_counts _ Hdicts Hcount). cbn [rbind].
    unfold py_sum. by rewrite py_sum_from_ints.
Qed.

Lemma completion_count_counted (amb : Ambient) (response : pydict) :
  blocks_have_text amb response = true ->
  Forall (fun v => count_tokens anthropic v = Ok (VInt (count v)))
         (counted_for_completion response) ->
  completion_count anthropic response
  = Ok (VInt (total_count count (counted_for_completion response))).
Proof.
  unfold completion_count, counted_for_completion, blocks_have_text, total_count.
  intros Htext Hcount.
  destruct (truthy (dict_get response "completion")).
  - apply Forall_cons in Hcount as [Hc _]. rewrite Hc. simpl. by rewrite Z.add_0_r.
  - simpl in Htext.
    destruct (dict_get response "content") as [| b | z | str | blocks | kvs | cls attrs];
      simpl in Htext |- *; try done;
      try (apply negb_true_iff in Htext; by rewrite Htext).
    destruct blocks as [| b rest]; [done |].
    assert (Hb : has_text b = true).
    { destruct (truthy (should_send_prompts amb)); simpl in Htext;
        by apply andb_prop in Htext as [Hb _]. }
    unfold has_text in Hb. cbn [truthy py_index0 rbind].
    destruct (getattr b "text") as [t | e]; [| discriminate]. cbn [rbind].
    apply Forall_cons in Hcount as [Hc _]. rewrite Hc. simpl. by rewrite Z.add_0_r.
Qed.

(** When the tokenizer returns a count for each value it is given, the
    fallback appends its three writes: the two sums and their sum. *)
Lemma token_usage_counted (amb : Ambient) (request : pydict) (response : pyval)
    (d : pydict) (s : Span) :
  as_dict response = Ok d ->
  messages_are_dicts request = true ->
  blocks_have_text amb d = true ->
  Forall (fun v => count_tokens anthropic v = Ok (VInt (count v)))
         (counted_for_prompt request ++ counted_for_completion d) ->
  let p := total_count count (counted_for_prompt request) in
  let c := total_count count (counted_for_completion d) in
  _set_token_usage anthropic request response s
  = (add_writes [ (LLM_USAGE_PROMPT_TOKENS, VInt p);
                  (LLM_USAGE_COMPLETION_TOKENS, VInt c);
                  (LLM_USAGE_TOTAL_TOKENS, VInt (p + c)) ] s, Ok tt).
Proof.
  intros Hdict Hdicts Htext Hcount p c.
  apply Forall_app in Hcount as [Hp Hc].
  rewrite token_usage_factors. unfold fallback_counts.
  rewrite Hdict. cbn [rbind].
  rewrite (prompt_count_counted _ Hdicts Hp). cbn [rbind].
  rewrite (completion_count_counted amb _ Htext Hc). cbn [rbind].
  fold p c. change (py_add (VInt p) (VInt c)) with (Ok (VInt (p + c))). cbn [rbind].
  by rewrite !written_VInt.
Qed.
End AnyTokenizer.

(** A response without native usage: its model is written, and the
    completion attributes when content tracing is on. *)
Lemma response_attributes_without_usage (amb : Ambient) (response : pyval) (d : pydict)
    (s : Span) :
  as_dict response = Ok d ->
  truthy (dict_get d "usage") = false ->
  blocks_have_text amb d = true ->
  exists ws, _set_response_attributes amb response s = (add_writes ws s, Ok tt).
Proof.
  intros Hdict Husage Htext. unfold _set_response_attributes.
  rewrite Hdict, bind_lift_Ok, bind_set_span_attribute, Husage.
  unfold bind at 1. unfold ret at 1.
  destruct (truthy (should_send_prompts amb)) eqn:Htracing.
  - match goal with |- context [_set_span_completions d ?s1] =>
      destruct (span_completions_ok d s1) as [ws E] end.
    { unfold blocks_have_text in Htext. by rewrite Htracing in Htext. }
    rewrite E, add_writes_app. by eexists.
  - unfold ret. by eexists.
Qed.

(** C7, as stated, fails. The response has no usage object and the request
    has messages, and the tokenizer would count two and five tokens; but
    the second content block is a tool call without a text, the extraction
    of the completions raises inside the guarded block, and the fallback
    that follows it there is never reached: a warning is logged and the
    span has none of the three usage attributes. *)
Lemma fallback_usage_skipped_after_failed_extraction :
  (exists d, as_dict tool_use_response = Ok d /\ assoc "usage" d = None)
  /\ assoc "messages" scenario_request = Some (VList [ VDict [("content", VStr "hi")] ])
  /\ fallback_counts length_client scenario_request tool_use_response
     = Ok (VInt 2, VInt 5, VInt 7)
  /\ exists sp,
       _wrap no_ambient sample_tracer messages_target (fun _ _ => Ok tool_use_response)
             (mkInstance "Messages" (Some length_client)) [] scenario_request
             (mkTelemetry [] [])
       = (mkTelemetry [sp]
            [ "Failed to set response attributes for anthropic span, error: "
              +:+ "'ToolUseBlock' object has no attribute 'text'" ],
          Ok tool_use_response)
       /\ recording sp = true
       /\ status sp = OK
       /\ attribute sp LLM_USAGE_PROMPT_TOKENS = None
       /\ attribute sp LLM_USAGE_COMPLETION_TOKENS = None
       /\ attribute sp LLM_USAGE_TOTAL_TOKENS = None.
Proof.
  split; [by eexists |]. split; [reflexivity |]. split; [reflexivity |].
  eexists. split; [vm_compute; reflexivity |]. by repeat split.
Qed.

(** The same with a structured message content, which the tokenizer of the
    client library does not count: it raises, and no usage attribute is
    written. *)
Example fallback_usage_skipped_for_structured_content :
  exists sp,
    _wrap no_ambient sample_tracer messages_target (fun _ _ => Ok text_only_response)
          (mkInstance "Messages" (Some length_client)) [] structured_request
          (mkTelemetry [] [])
    = (mkTelemetry [sp]
         [ "Failed to set response attributes for anthropic span, error: expected str" ],
       Ok text_only_response)
    /\ attribute sp LLM_USAGE_PROMPT_TOKENS = None
    /\ attribute sp LLM_USAGE_COMPLETION_TOKENS = None
    /\ attribute sp LLM_USAGE_TOTAL_TOKENS = None.
Proof. eexists. split; [vm_compute; reflexivity |]. by repeat split. Qed.

(** And on a span that does not record, nothing is extracted at all. *)
Example fallback_usage_skipped_when_not_recording :
  exists sp,
    _wrap no_ambient unsampled_tracer completions_target (fun _ _ => Ok truncated_completion)
          (mkInstance "Completions" (Some length_client)) [] legacy_request
          (mkTelemetry [] [])
    = (mkTelemetry [sp] [], Ok truncated_completion)
    /\ attribute sp LLM_USAGE_PROMPT_TOKENS = None
    /\ attribute sp LLM_USAGE_COMPLETION_TOKENS = None
    /\ attribute sp LLM_USAGE_TOTAL_TOKENS = None.
Proof. eexists. split; [vm_compute; reflexivity |]. by repeat split. Qed.

(** C7, amended: for a call that is not suppressed, on a recording span,
    with a truthy response without native usage, the fallback path writes
    all three usage attributes whatever the counts are, zero included,
    provided nothing raises in the guarded block before its writes: the
    response is a dict or an object, every content block the wrapper reads
    has a text, the messages are dicts, the resource object has its client,
    and the tokenizer returns a count for each value it is given. The
    prompt count is the tokenizer's count of the prompt, or the sum of its
    counts of each message's content; the completion count is that of the
    completion text, or of the first content block's text; the total is
    their sum. The three writes are the last of the span, and they are
    what it reports. *)
Theorem fallback_usage_written (amb : Ambient) (tracer : Tracer) (to_wrap : pydict)
    (wrapped : Wrapped) (instance : Instance) (args : list pyval) (kwargs : pydict)
    (t : Telemetry) (count : pyval -> Z) (anthropic : Client) (response : pyval)
    (d : pydict) :
  truthy (get_value amb _SUPPRESS_INSTRUMENTATION_KEY) = false ->
  records tracer = true ->
  wrapped args kwargs = Ok response ->
  truthy response = true ->
  as_dict response = Ok d ->
  truthy (dict_get d "usage") = false ->
  blocks_have_text amb d = true ->
  messages_are_dicts kwargs = true ->
  _client instance = Some anthropic ->
  Forall (fun v => count_tokens anthropic v = Ok (VInt (count v)))
         (counted_for_prompt kwargs ++ counted_for_completion d) ->
  let p := total_count count (counted_for_prompt kwargs) in
  let c := total_count count (counted_for_completion d) in
  exists sp earlier log',
    _wrap amb tracer to_wrap wrapped instance args kwargs t
    = (mkTelemetry (spans t ++ [sp]) log', Ok response)
    /\ status sp = OK
    /\ attributes sp = earlier ++ [ (LLM_USAGE_PROMPT_TOKENS, VInt p);
                                    (LLM_USAGE_COMPLETION_TOKENS, VInt c);
                                    (LLM_USAGE_TOTAL_TOKENS, VInt (p + c)) ]
    /\ attribute sp LLM_USAGE_PROMPT_TOKENS = Some (VInt p)
    /\ attribute sp LLM_USAGE_COMPLETION_TOKENS = Some (VInt c)
    /\ attribute sp LLM_USAGE_TOTAL_TOKENS = Some (VInt (p + c)).
Proof.
  intros Hflag Hrec Hret Htruthy Hdict Husage Htext Hdicts Hclient Hcount p c.
  unfold _wrap, _with_tracer_wrapper. rewrite Hflag.
  unfold start_as_current_span. unfold bind at 1.
  match goal with |- context [try_except ?b ?h ?f] =>
    destruct (request_block amb kwargs f) as (ws1 & log1 & E & _) end.
  rewrite E. rewrite Hret, bind_lift_Ok. rewrite Htruthy. cbn [span log].
  match goal with |- context [add_writes ws1 ?s0] => set (s1 := add_writes ws1 s0) end.
  destruct (response_attributes_without_usage amb response d s1 Hdict Husage Htext)
    as [ws2 E2].
  set (s2 := add_writes ws2 s1) in *.
  pose proof (token_usage_counted count anthropic amb kwargs response d s2
                Hdict Hdicts Htext Hcount) as E3.
  cbv zeta in E3. fold p c in E3.
  match type of E3 with _ = (?s, _) => set (s3 := s) in * end.
  assert (HR1 : is_recording s1 = true).
  { unfold is_recording. cbn. by rewrite Hrec. }
  assert (HR3 : is_recording s3 = true).
  { unfold is_recording. cbn. by rewrite Hrec. }
  unfold bind, try_except, get, on_span, lift, modify, ret, get_client.
  repeat first [ progress cbn [span log] | rewrite HR1 | rewrite E2 | rewrite Hclient
               | rewrite E3 | rewrite HR3 ].
  eexists _, _, log1. split; [reflexivity |]. split; [reflexivity |].
  split; [subst s3 s2 s1; cbn [attributes end_span set_status add_writes]; reflexivity |].
  unfold attribute. subst s3. cbn [attributes end_span set_status add_writes].
  rewrite !last_write_app. by repeat split.
Qed.

Lemma fallback_usage_written_witness :
  truthy (dict_get [ ("completion", VStr EmptyString); ("stop_reason", VStr "max_tokens");
                     ("model", VStr "claude-2") ] "usage") = false
  /\ exists sp earlier log',
       _wrap no_ambient sample_tracer completions_target
             (fun _ _ => Ok truncated_completion)
             (mkInstance "Completions" (Some length_client)) [] legacy_request
             (mkTelemetry [] [])
       = (mkTelemetry ([] ++ [sp]) log', Ok truncated_completion)
       /\ status sp = OK
       /\ attributes sp = earlier ++ [ ("llm.usage.prompt_tokens", VInt 11);
                                       ("llm.usage.completion_tokens", VInt 0);
                                       ("llm.usage.total_tokens", VInt (11 + 0)) ]
       /\ attribute sp LLM_USAGE_PROMPT_TOKENS = Some (VInt 11)
       /\ attribute sp LLM_USAGE_COMPLETION_TOKENS = Some (VInt 0)
       /\ attribute sp LLM_USAGE_TOTAL_TOKENS = Some (VInt (11 + 0)).
Proof.
  split; [reflexivity |].
  apply (fallback_usage_written no_ambient sample_tracer completions_target
           (fun _ _ => Ok truncated_completion)
           (mkInstance "Completions" (Some length_client)) [] legacy_request
           (mkTelemetry [] []) code_points length_client truncated_completion
           [ ("completion", VStr EmptyString); ("stop_reason", VStr "max_tokens");
             ("model", VStr "claude-2") ]);
    try reflexivity.
  repeat constructor.
Defined.

Lemma scenario_run (count : string -> Z) (input_tokens output_tokens : Z) :
  _wrap no_ambient sample_tracer messages_target
        (fun _ _ => Ok (scenario_response input_tokens output_tokens))
        (mkInstance "Messages" (Some (text_client count))) [] scenario_request (mkTelemetry [] [])
  = (mkTelemetry [scenario_span count input_tokens output_tokens] [],
     Ok (scenario_response input_tokens output_tokens)).
Proof. vm_compute. reflexivity. Qed.

(** C1, evaluated on scenario A: the response carries a native usage
    object, its counts are written, and then the fallback of section 4.6
    runs all the same and writes the tokenizer's counts over them. The
    usage attributes of the span are the fallback's, whatever the native
    counts were. *)
Theorem native_usage_overwritten_by_fallback (count : string -> Z)
    (input_tokens output_tokens : Z) :
  exists sp,
    _wrap no_ambient sample_tracer messages_target
          (fun _ _ => Ok (scenario_response input_tokens output_tokens))
          (mkInstance "Messages" (Some (text_client count))) [] scenario_request (mkTelemetry [] [])
    = (mkTelemetry [sp] [], Ok (scenario_response input_tokens output_tokens))
    /\ attributes sp =
         [ ("llm.vendor", VStr "Anthropic");
           ("llm.request.type", VStr "completion");
           ("llm.request.model", VStr "claude-2");
           ("llm.prompts.0.user", VStr "hi");
           ("llm.response.model", VStr "claude-2");
           ("llm.usage.prompt_tokens", VInt input_tokens);
           ("llm.usage.completion_tokens", VInt output_tokens);
           ("llm.usage.total_tokens", VInt (input_tokens + output_tokens));
           ("llm.completions.0.finish_reason", VStr "end_turn");
           ("llm.completions.0.content", VStr "hello");
           ("llm.usage.prompt_tokens", VInt (count "hi"));
           ("llm.usage.completion_tokens", VInt (count "hello"));
           ("llm.usage.total_tokens", VInt (count "hi" + count "hello")) ]
    /\ attribute sp LLM_USAGE_PROMPT_TOKENS = Some (VInt (count "hi"))
    /\ attribute sp LLM_USAGE_COMPLETION_TOKENS = Some (VInt (count "hello"))
    /\ attribute sp LLM_USAGE_TOTAL_TOKENS = Some (VInt (count "hi" + count "hello")).
Proof.
  exists (scenario_span count input_tokens output_tokens).
  split; [apply scenario_run |]. repeat split.
Qed.

(** With three and five native tokens and a tokenizer that counts code
    points, the span reports two, five and seven. *)
Example scenario_reports_fallback_counts :
  exists sp,
    fst (_wrap no_ambient sample_tracer messages_target
               (fun _ _ => Ok (scenario_response 3 5))
               (mkInstance "Messages" (Some length_client)) [] scenario_request (mkTelemetry [] []))
    = mkTelemetry [sp] []
    /\ attribute sp LLM_USAGE_PROMPT_TOKENS = Some (VInt 2)
    /\ attribute sp LLM_USAGE_COMPLETION_TOKENS = Some (VInt 5)
    /\ attribute sp LLM_USAGE_TOTAL_TOKENS = Some (VInt 7).
Proof.
  exists (scenario_span (fun s => Z.of_nat (String.length s)) 3 5).
  split; [| repeat split]. vm_compute. reflexivity.
Qed.

(** ** Install and remove: what they reach *)

Lemma lookup_set_method_same (modules : Modules) m c a f g :
  lookup_method modules m c a = Some g ->
  lookup_method (set_method m c a f modules) m c a = Some f.
Proof.
  unfold lookup_method, set_method. intros H.
  destruct (modules !! m) as [module |] eqn:Hm; [| done].
  destruct (module !! c) as [cls |] eqn:Hc; [| done].
  by rewrite !lookup_insert_eq.
Qed.

Lemma lookup_set_method_other (modules : Modules) m c a f m' c' a' :
  m <> m' ->
  lookup_method (set_method m c a f modules) m' c' a' = lookup_method modules m' c' a'.
Proof.
  unfold lookup_method, set_method. intros Hne.
  destruct (modules !! m) as [module |] eqn:Hm; [| done].
  destruct (module !! c) as [cls |] eqn:Hc; [| done].
  by rewrite lookup_insert_ne.
Qed.

Lemma wrap_function_wrapper_resolved (modules : Modules) m name c a original tracer to_wrap :
  split_dot name = [c; a] ->
  lookup_method modules m c a = Some original ->
  wrap_function_wrapper (VStr m) name tracer to_wrap modules
  = (set_method m c a (FunctionWrapper original tracer to_wrap) modules, Ok tt).
Proof.
  unfold lookup_method, wrap_function_wrapper, bind, get. intros Hname H.
  destruct (modules !! m) as [module |] eqn:Hm; [| done].
  rewrite Hname.
  destruct (module !! c) as [cls |] eqn:Hc; [| done].
  by rewrite H.
Qed.

(** [unwrap] with a path into one module leaves the other modules alone. *)
Lemma unwrap_other_module release obj attr (modules : Modules) m c m' c' a' :
  rsplit_dot obj = Some (m, c) ->
  m <> m' ->
  lookup_method (fst (unwrap release obj attr modules)) m' c' a'
  = lookup_method modules m' c' a'.
Proof.
  intros Hobj Hne. unfold unwrap.
  destruct attr as [| | | attr | | |]; try done.
  destruct release; [done |]. rewrite Hobj. unfold bind, get.
  destruct (modules !! m) as [module |] eqn:Hm; [| done].
  destruct (module !! c) as [cls |] eqn:Hc; [| done].
  destruct (cls !! attr) as [[q | w tr tw] |]; try done.
  unfold modify. simpl. by apply lookup_set_method_other.
Qed.

Import AnthropicInstrumentor.

Lemma instrument_wraps_both __version__ global_provider tracer_provider
    (modules : Modules) original_completions original_messages :
  lookup_method modules completions_module "Completions" "create"
  = Some original_completions ->
  lookup_method modules messages_module "Messages" "create" = Some original_messages ->
  let tracer := get_tracer global_provider __name__ __version__ tracer_provider in
  _instrument __version__ global_provider tracer_provider modules
  = (set_method messages_module "Messages" "create"
       (FunctionWrapper original_messages tracer messages_target)
       (set_method completions_module "Completions" "create"
          (FunctionWrapper original_completions tracer (nth 0 WRAPPED_METHODS []))
          modules),
     Ok tt).
Proof.
  intros Hc Hm tracer. unfold _instrument, WRAPPED_METHODS. cbn [for_each].
  erewrite bind_Ok; cycle 1.
  { apply (wrap_function_wrapper_resolved modules completions_module _
             "Completions" "create" original_completions); [reflexivity | exact Hc]. }
  erewrite bind_Ok; cycle 1.
  { apply (wrap_function_wrapper_resolved _ messages_module _
             "Messages" "create" original_messages); [reflexivity |].
    rewrite lookup_set_method_other; [exact Hm | discriminate]. }
  reflexivity.
Qed.

Lemma uninstrument_other_module release (modules : Modules) m' c' a' :
  completions_module <> m' ->
  lookup_method (fst (_uninstrument release modules)) m' c' a'
  = lookup_method modules m' c' a'.
Proof.
  intros Hne. unfold _uninstrument, WRAPPED_METHODS. cbn [for_each].
  unfold bind at 1.
  match goal with |- context [unwrap release ?obj ?attr modules] =>
    pose proof (unwrap_other_module release obj attr modules completions_module
                  "Completions" m' c' a' eq_refl Hne) as H1;
    destruct (unwrap release obj attr modules) as [modules1 [[] | e]] end;
    simpl in H1; [| exact H1].
  unfold bind at 1.
  match goal with |- context [unwrap release ?obj ?attr modules1] =>
    pose proof (unwrap_other_module release obj attr modules1 completions_module
                  "Messages" m' c' a' eq_refl Hne) as H2;
    destruct (unwrap release obj attr modules1) as [modules2 [[] | e]] end;
    simpl in H2 |- *; congruence.
Qed.

Lemma wrapper_is_not_its_original (original : method) tracer to_wrap :
  FunctionWrapper original tracer to_wrap <> original.
Proof.
  revert tracer to_wrap. induction original as [q | w IH tr tw]; intros tracer to_wrap.
  - discriminate.
  - intros [= H _ _]. by apply IH in H.
Qed.

(** C2, evaluated: after Install and then Remove, [Messages.create] of
    [anthropic.resources.messages] is still the wrapper Install put there,
    not the original method. Remove spells the module of every target as
    [anthropic.resources.completions], whatever release of [unwrap] runs. *)
Theorem remove_leaves_messages_wrapped (release : unwrap_release) (__version__ : string)
    (global_provider : TracerProvider) (tracer_provider : option TracerProvider)
    (modules : Modules) (original_completions original_messages : method) :
  lookup_method modules completions_module "Completions" "create"
  = Some original_completions ->
  lookup_method modules messages_module "Messages" "create" = Some original_messages ->
  let tracer := get_tracer global_provider __name__ __version__ tracer_provider in
  let installed := fst (_instrument __version__ global_provider tracer_provider modules) in
  let removed := fst (_uninstrument release installed) in
  lookup_method removed messages_module "Messages" "create"
  = Some (FunctionWrapper original_messages tracer messages_target)
  /\ lookup_method removed messages_module "Messages" "create" <> Some original_messages.
Proof.
  intros Hc Hm tracer installed removed.
  assert (lookup_method removed messages_module "Messages" "create"
          = Some (FunctionWrapper original_messages tracer messages_target)) as H.
  { subst removed installed. rewrite uninstrument_other_module by discriminate.
    rewrite (instrument_wraps_both _ _ _ _ _ _ Hc Hm). simpl fst.
    eapply lookup_set_method_same.
    rewrite lookup_set_method_other; [exact Hm | discriminate]. }
  split; [exact H |]. rewrite H. intros [= Heq].
  by apply wrapper_is_not_its_original in Heq.
Qed.

Lemma remove_leaves_messages_wrapped_witness :
  lookup_method anthropic_sdk messages_module "Messages" "create"
  = Some (Original "Messages.create")
  /\ lookup_method
       (fst (_uninstrument DottedPaths
               (fst (_instrument "0.1.0" (mkTracerProvider true) None anthropic_sdk))))
       messages_module "Messages" "create"
     = Some (FunctionWrapper (Original "Messages.create") sample_tracer messages_target).
Proof.
  split; [reflexivity |].
  apply (remove_leaves_messages_wrapped DottedPaths "0.1.0" (mkTracerProvider true) None
           anthropic_sdk (Original "Completions.create") (Original "Messages.create"));
    reflexivity.
Defined.

(** * Further properties *)

(** ** Request attributes *)

Lemma input_parameters_first amb kwargs s :
  _set_input_attributes amb kwargs s
  = (if truthy (should_send_prompts amb) then
       if is_not_None (dict_get kwargs "prompt") then
         _set_span_attribute (LLM_PROMPTS +:+ ".0.user") (dict_get kwargs "prompt")
       else if is_not_None (dict_get kwargs "messages") then
         messages <- lift (py_iter (dict_get kwargs "messages")) ;;
         for_each (enumerate messages) (fun im =>
           content <- lift (py_get (snd im) "content") ;;
           dumped <- lift (_dump_content content) ;;
           _set_span_attribute (LLM_PROMPTS +:+ "." +:+ pretty (fst im) +:+ ".user") dumped)
       else ret tt
     else ret tt) (add_writes (parameter_writes kwargs) s).
Proof.
  unfold _set_input_attributes, parameter_writes.
  rewrite !bind_set_span_attribute, !add_writes_app.
  by rewrite <- ?app_assoc.
Qed.

(** One turn of the loop over the messages. *)
Lemma message_step (i : nat) (message : pyval) (s : Span) :
  (content <- lift (py_get message "content") ;;
   dumped <- lift (_dump_content content) ;;
   _set_span_attribute (LLM_PROMPTS +:+ "." +:+ pretty i +:+ ".user") dumped) s
  = match dumped_content message with
    | Ok d => (add_writes (written (prompt_key i) d) s, Ok tt)
    | Raise e => (s, Raise e)
    end.
Proof.
  unfold dumped_content, bind, lift. destruct (py_get message "content") as [c | e]; [| done].
  simpl. destruct (_dump_content c) as [d | e]; [| done].
  by rewrite set_span_attribute_written.
Qed.

Lemma messages_loop (n : nat) (messages dumped : list pyval) (s : Span) :
  map dumped_content messages = map Ok dumped ->
  for_each (enumerate_from n messages) (fun im =>
    content <- lift (py_get (snd im) "content") ;;
    dumped <- lift (_dump_content content) ;;
    _set_span_attribute (LLM_PROMPTS +:+ "." +:+ pretty (fst im) +:+ ".user") dumped) s
  = (add_writes (indexed_writes prompt_key n dumped) s, Ok tt).
Proof.
  revert n dumped s. induction messages as [| m rest IH]; intros n [| d ds] s H;
    try discriminate.
  - simpl. by rewrite add_writes_nil.
  - simpl in H. injection H as Hm Hrest.
    cbn [enumerate_from for_each]. unfold bind at 1.
    cbn [fst snd]. rewrite message_step, Hm. rewrite (IH _ ds) by done.
    unfold indexed_writes. cbn [enumerate_from flat_map fst snd].
    by rewrite add_writes_app.
Qed.

Lemma messages_loop_fails (n : nat) (before after : list pyval) (bad : pyval)
    (dumped : list pyval) (e : exn) (s : Span) :
  map dumped_content before = map Ok dumped ->
  dumped_content bad = Raise e ->
  for_each (enumerate_from n (before ++ bad :: after)) (fun im =>
    content <- lift (py_get (snd im) "content") ;;
    dumped <- lift (_dump_content content) ;;
    _set_span_attribute (LLM_PROMPTS +:+ "." +:+ pretty (fst im) +:+ ".user") dumped) s
  = (add_writes (indexed_writes prompt_key n dumped) s, Raise e).
Proof.
  revert n dumped s. induction before as [| m rest IH]; intros n [| d ds] s H Hbad;
    try discriminate.
  - cbn [app enumerate_from for_each]. unfold bind at 1. cbn [fst snd].
    rewrite message_step, Hbad. by rewrite add_writes_nil.
  - simpl in H. injection H as Hm Hrest.
    cbn [app enumerate_from for_each]. unfold bind at 1.
    cbn [fst snd]. rewrite message_step, Hm. rewrite (IH _ ds) by done.
    unfold indexed_writes. cbn [enumerate_from flat_map fst snd].
    by rewrite add_writes_app.
Qed.

(** X1: with content tracing off, the request extraction writes the request
    parameters that are there and nothing else, and it cannot fail: the
    prompt and the messages are not looked at. *)
Theorem input_attributes_without_content (amb : Ambient) (kwargs : pydict) (s : Span) :
  truthy (should_send_prompts amb) = false ->
  _set_input_attributes amb kwargs s = (add_writes (parameter_writes kwargs) s, Ok tt).
Proof. intros Hoff. rewrite input_parameters_first. by rewrite Hoff. Qed.

Lemma input_attributes_without_content_witness :
  truthy (should_send_prompts tracing_off) = false
  /\ _set_input_attributes tracing_off empty_prompt_request fresh_span
     = (add_writes [ ("llm.request.model", VStr "claude-2") ] fresh_span, Ok tt).
Proof.
  split; [reflexivity |].
  apply (input_attributes_without_content tracing_off empty_prompt_request fresh_span).
  reflexivity.
Defined.

(** X2: a prompt that is not [None] wins over the messages. The prompt is
    the only content attempted, under index 0; an empty prompt leaves no
    prompt attribute at all, and the messages are never read, so malformed
    messages cannot make the extraction fail. *)
Theorem prompt_wins_over_messages (amb : Ambient) (kwargs : pydict) (s : Span) :
  truthy (should_send_prompts amb) = true ->
  is_not_None (dict_get kwargs "prompt") = true ->
  _set_input_attributes amb kwargs s
  = (add_writes (parameter_writes kwargs ++ written (prompt_key 0) (dict_get kwargs "prompt")) s,
     Ok tt).
Proof.
  intros Hon Hprompt. rewrite input_parameters_first, Hon, Hprompt.
  rewrite set_span_attribute_written. by rewrite add_writes_app.
Qed.

Lemma prompt_wins_over_messages_witness :
  truthy (should_send_prompts no_ambient) = true
  /\ dict_get empty_prompt_request "messages" = VInt 5
  /\ _set_input_attributes no_ambient empty_prompt_request fresh_span
     = (add_writes [ ("llm.request.model", VStr "claude-2") ] fresh_span, Ok tt).
Proof.
  split; [reflexivity |]. split; [reflexivity |].
  apply (prompt_wins_over_messages no_ambient empty_prompt_request fresh_span);
    reflexivity.
Defined.

(** X3: without a prompt, every message gives one attribute under its own
    index: its content, a string as it is and a structured list
    serialised. A message whose serialised content is empty gives none. *)
Theorem messages_written_by_index (amb : Ambient) (kwargs : pydict)
    (messages dumped : list pyval) (s : Span) :
  truthy (should_send_prompts amb) = true ->
  dict_get kwargs "prompt" = VNone ->
  dict_get kwargs "messages" = VList messages ->
  map dumped_content messages = map Ok dumped ->
  _set_input_attributes amb kwargs s
  = (add_writes (parameter_writes kwargs ++ indexed_writes prompt_key 0 dumped) s, Ok tt).
Proof.
  intros Hon Hprompt Hmessages Hdumped.
  rewrite input_parameters_first, Hon, Hprompt, Hmessages. cbn [is_not_None py_iter].
  rewrite bind_lift_Ok. unfold enumerate.
  rewrite (messages_loop 0 messages dumped) by done. by rewrite add_writes_app.
Qed.

Lemma messages_written_by_index_witness :
  _set_input_attributes no_ambient [ ("messages", VList two_messages) ] fresh_span
  = (add_writes
       [ ("llm.prompts.0.user", VStr "hi");
         ("llm.prompts.1.user",
          VStr ("[{" +:+ quoted "type" +:+ ": " +:+ quoted "text" +:+ ", "
                +:+ quoted "text" +:+ ": " +:+ quoted "more" +:+ "}]")) ]
       fresh_span, Ok tt).
Proof.
  apply (messages_written_by_index no_ambient [ ("messages", VList two_messages) ]
           two_messages
           [ VStr "hi";
             VStr ("[{" +:+ quoted "type" +:+ ": " +:+ quoted "text" +:+ ", "
                   +:+ quoted "text" +:+ ": " +:+ quoted "more" +:+ "}]") ]
           fresh_span); reflexivity.
Defined.

(** X4: the loop over the messages stops at the first message that cannot
    be recorded (no dict, or a content that cannot be serialised): the
    attributes of the messages before it stay on the span, those after it
    are never attempted, and the exception is raised. *)
Theorem malformed_message_stops_extraction (amb : Ambient) (kwargs : pydict)
    (before after : list pyval) (bad : pyval) (dumped : list pyval) (e : exn) (s : Span) :
  truthy (should_send_prompts amb) = true ->
  dict_get kwargs "prompt" = VNone ->
  dict_get kwargs "messages" = VList (before ++ bad :: after) ->
  map dumped_content before = map Ok dumped ->
  dumped_content bad = Raise e ->
  _set_input_attributes amb kwargs s
  = (add_writes (parameter_writes kwargs ++ indexed_writes prompt_key 0 dumped) s, Raise e).
Proof.
  intros Hon Hprompt Hmessages Hdumped Hbad.
  rewrite input_parameters_first, Hon, Hprompt, Hmessages. cbn [is_not_None py_iter].
  rewrite bind_lift_Ok. unfold enumerate.
  rewrite (messages_loop_fails 0 before after bad dumped e) by done.
  by rewrite add_writes_app.
Qed.

Lemma malformed_message_stops_extraction_witness :
  _set_input_attributes no_ambient
    [ ("messages", VList ([ VDict [("content", VStr "hi")] ]
                          ++ VStr "oops" :: [ VDict [("content", VStr "later")] ])) ]
    fresh_span
  = (add_writes [ ("llm.prompts.0.user", VStr "hi") ] fresh_span,
     Raise (AttributeError (VStr "oops") "get")).
Proof.
  apply (malformed_message_stops_extraction no_ambient
           [ ("messages", VList ([ VDict [("content", VStr "hi")] ]
                                 ++ VStr "oops" :: [ VDict [("content", VStr "later")] ])) ]
           [ VDict [("content", VStr "hi")] ] [ VDict [("content", VStr "later")] ]
           (VStr "oops") [ VStr "hi" ] (AttributeError (VStr "oops") "get") fresh_span);
    reflexivity.
Defined.

(** ** Content serialisation: a block that cannot be read *)

Lemma image_is_not_text (v : pyval) : eq_str v "image" = true -> eq_str v "text" = false.
Proof.
  destruct v; simpl; try discriminate. intros H. apply String.eqb_eq in H. by subst.
Qed.

Lemma not_dict_has_no_get (v : pyval) (k : string) :
  is_dict v = false -> py_get v k = Raise (AttributeError v "get").
Proof. by destruct v. Qed.

Lemma dump_content_loop_fails (before : list pydict) (image : pydict) (after acc : list pyval) :
  forallb block_well_formed before = true ->
  eq_str (dict_get image "type") "image" = true ->
  is_dict (dict_get image "source") = false ->
  _dump_content_loop (map VDict before ++ VDict image :: after) acc
  = Raise (AttributeError (dict_get image "source") "get").
Proof.
  revert acc. induction before as [| item rest IH]; intros acc Hwf Himage Hsource.
  - cbn [map app _dump_content_loop py_get rbind].
    rewrite (image_is_not_text _ Himage), Himage.
    by rewrite (not_dict_has_no_get _ _ Hsource).
  - cbn [forallb] in Hwf. apply andb_prop in Hwf as [Hitem Hrest].
    unfold block_well_formed in Hitem.
    cbn [map app _dump_content_loop py_get rbind].
    destruct (eq_str (dict_get item "type") "text"); [by apply IH |].
    destruct (eq_str (dict_get item "type") "image"); [| by apply IH].
    destruct (dict_get item "source"); try discriminate.
    cbn [py_get rbind]. by apply IH.
Qed.

(** X5: an image block whose source is missing or is no dict makes the
    serialisation of the whole content list fail with an [AttributeError],
    wherever the block stands after well-formed ones: nothing of the list
    is returned. *)
Theorem image_without_source_fails (before : list pydict) (image : pydict)
    (after : list pyval) :
  forallb block_well_formed before = true ->
  eq_str (dict_get image "type") "image" = true ->
  is_dict (dict_get image "source") = false ->
  _dump_content (VList (map VDict before ++ VDict image :: after))
  = Raise (AttributeError (dict_get image "source") "get").
Proof.
  intros Hwf Himage Hsource. unfold _dump_content. cbn [py_iter rbind].
  by rewrite dump_content_loop_fails.
Qed.

Lemma image_without_source_fails_witness :
  dict_get image_without_source "source" = VNone
  /\ _dump_content
       (VList (map VDict [ [ ("type", VStr "text"); ("text", VStr "look") ] ]
               ++ VDict image_without_source :: []))
     = Raise (AttributeError VNone "get").
Proof.
  split; [reflexivity |].
  apply (image_without_source_fails [ [ ("type", VStr "text"); ("text", VStr "look") ] ]
           image_without_source []); reflexivity.
Defined.

(** ** Completions: a block without text, and reading back by index *)

Lemma completions_loop_fails (n : nat) (before after : list pyval) (bad : pyval)
    (texts : list pyval) (e : exn) (s : Span) :
  map (fun b => getattr b "text") before = map Ok texts ->
  getattr bad "text" = Raise e ->
  for_each (enumerate_from n (before ++ bad :: after))
    (fun ic =>
       text <- lift (getattr (snd ic) "text") ;;
       _set_span_attribute (LLM_COMPLETIONS +:+ "." +:+ pretty (fst ic) +:+ ".content") text) s
  = (add_writes (indexed_writes completion_key n texts) s, Raise e).
Proof.
  revert n texts s. induction before as [| b rest IH]; intros n [| t ts] s H Hbad;
    try discriminate.
  - cbn [app enumerate_from for_each]. unfold bind at 1. unfold bind at 1.
    cbn [fst snd]. unfold lift at 1. rewrite Hbad. by rewrite add_writes_nil.
  - simpl in H. injection H as Hb Hrest.
    cbn [app enumerate_from for_each]. unfold bind at 1. unfold bind at 1.
    cbn [fst snd]. unfold lift at 1. rewrite Hb.
    rewrite set_span_attribute_written. rewrite (IH _ ts) by done.
    unfold indexed_writes. cbn [enumerate_from flat_map fst snd].
    by rewrite add_writes_app.
Qed.

(** X7: in a structured response, a content block without a [text]
    attribute (a dict, for one) stops the extraction: the finish reason and
    the texts of the blocks before it stay on the span, the blocks after it
    are never attempted, and the exception is raised. *)
Theorem block_without_text_stops_extraction (response : pydict)
    (before after : list pyval) (bad : pyval) (texts : list pyval) (e : exn) (s : Span) :
  truthy (dict_get response "completion") = false ->
  dict_get response "content" = VList (before ++ bad :: after) ->
  map (fun b => getattr b "text") before = map Ok texts ->
  getattr bad "text" = Raise e ->
  _set_span_completions response s
  = (add_writes
       (written "llm.completions.0.finish_reason" (dict_get response "stop_reason")
        ++ indexed_writes completion_key 0 texts) s,
     Raise e).
Proof.
  intros Hlegacy Hcontent Htexts Hbad. unfold _set_span_completions.
  rewrite bind_set_span_attribute, Hlegacy, Hcontent.
  assert (Htruthy : truthy (VList (before ++ bad :: after)) = true) by by destruct before.
  rewrite Htruthy. cbn [py_iter]. rewrite bind_lift_Ok. unfold enumerate.
  rewrite (completions_loop_fails 0 before after bad texts e) by done.
  by rewrite add_writes_app.
Qed.

Lemma block_without_text_stops_extraction_witness :
  _set_span_completions
    [ ("stop_reason", VStr "end_turn");
      ("content", VList ([ VObj "ContentBlock" [("text", VStr "hello")] ]
                         ++ VDict [("text", VStr "a dict")] :: [])) ]
    fresh_span
  = (add_writes [ ("llm.completions.0.finish_reason", VStr "end_turn");
                  ("llm.completions.0.content", VStr "hello") ] fresh_span,
     Raise (AttributeError (VDict [("text", VStr "a dict")]) "text")).
Proof.
  apply (block_without_text_stops_extraction
           [ ("stop_reason", VStr "end_turn");
             ("content", VList ([ VObj "ContentBlock" [("text", VStr "hello")] ]
                                ++ VDict [("text", VStr "a dict")] :: [])) ]
           [ VObj "ContentBlock" [("text", VStr "hello")] ] []
           (VDict [("text", VStr "a dict")]) [ VStr "hello" ]
           (AttributeError (VDict [("text", VStr "a dict")]) "text") fresh_span);
    reflexivity.
Defined.

(** ** Reading an indexed attribute back *)

Lemma length_append (a b : string) :
  String.length (a +:+ b) = (String.length a + String.length b)%nat.
Proof. induction a as [| c a IH]; simpl; [done | by rewrite IH]. Qed.

Lemma append_cancel_r (a b s : string) : a +:+ s = b +:+ s -> a = b.
Proof.
  intros H.
  assert (Hlen : String.length a = String.length b).
  { apply (f_equal String.length) in H. rewrite !length_append in H. lia. }
  revert b H Hlen. induction a as [| c a IH]; intros [| d b] H Hlen; try discriminate.
  - done.
  - simpl in H, Hlen. injection H as -> H. f_equal. apply IH; [done | lia].
Qed.

Lemma prompt_key_inj (i j : nat) : prompt_key i = prompt_key j -> i = j.
Proof.
  unfold prompt_key, LLM_PROMPTS. intros H.
  apply (inj (String.append "llm.prompts")) in H.
  apply (inj (String.append ".")) in H.
  apply append_cancel_r in H. by apply (inj pretty) in H.
Qed.

Lemma completion_key_inj (i j : nat) : completion_key i = completion_key j -> i = j.
Proof.
  unfold completion_key, LLM_COMPLETIONS. intros H.
  apply (inj (String.append "llm.completions")) in H.
  apply (inj (String.append ".")) in H.
  apply append_cancel_r in H. by apply (inj pretty) in H.
Qed.

Lemma last_write_written_same (k : string) (v : pyval) :
  writable v -> last_write k (written k v) = Some v.
Proof.
  intros Hv. rewrite (written_writable _ _ Hv). simpl. by rewrite String.eqb_refl.
Qed.

Lemma last_write_written_other (k k' : string) (v : pyval) :
  k <> k' -> last_write k (written k' v) = None.
Proof.
  intros Hne. apply String.eqb_neq in Hne.
  destruct v as [| b | z | str | xs | kvs | cls attrs]; simpl; rewrite ?Hne; try done.
  destruct str; simpl; by rewrite ?Hne.
Qed.

Section IndexedKeys.
Context (key : nat -> string).
Hypothesis key_inj : forall i j, key i = key j -> i = j.

Lemma indexed_writes_cons (n : nat) (v : pyval) (values : list pyval) :
  indexed_writes key n (v :: values) = written (key n) v ++ indexed_writes key (S n) values.
Proof. reflexivity. Qed.

Lemma last_write_before_range (m n : nat) (values : list pyval) :
  (m < n)%nat -> last_write (key m) (indexed_writes key n values) = None.
Proof.
  revert n. induction values as [| v rest IH]; intros n Hlt; [done |].
  rewrite indexed_writes_cons, last_write_app, IH by lia.
  apply last_write_written_other. intros H. apply key_inj in H. lia.
Qed.

Lemma last_write_indexed (n i : nat) (values : list pyval) (v : pyval) :
  values !! i = Some v ->
  writable v ->
  last_write (key (n + i)) (indexed_writes key n values) = Some v.
Proof.
  revert n i. induction values as [| v0 rest IH]; intros n i Hi Hv; [done |].
  rewrite indexed_writes_cons, last_write_app. destruct i as [| i].
  - simpl in Hi. injection Hi as ->. rewrite Nat.add_0_r.
    rewrite last_write_before_range by lia. by apply last_write_written_same.
  - simpl in Hi. replace (n + S i)%nat with (S n + i)%nat by lia.
    by rewrite (IH (S n) i Hi Hv).
Qed.
End IndexedKeys.

Lemma structured_completions_written (response : pydict) (blocks texts : list pyval)
    (s : Span) :
  truthy (dict_get response "completion") = false ->
  dict_get response "content" = VList blocks ->
  map (fun b => getattr b "text") blocks = map Ok texts ->
  _set_span_completions response s
  = (add_writes
       (written "llm.completions.0.finish_reason" (dict_get response "stop_reason")
        ++ indexed_writes completion_key 0 texts) s, Ok tt).
Proof.
  intros Hlegacy Hcontent Hmap. apply texts_of_blocks in Hmap as Htexts.
  unfold _set_span_completions. rewrite bind_set_span_attribute, Hlegacy, Hcontent.
  destruct blocks as [| b rest].
  - inversion Htexts; subst. cbn [truthy]. unfold ret. simpl.
    by rewrite app_nil_r.
  - cbn [truthy py_iter]. rewrite bind_lift_Ok. unfold enumerate.
    rewrite (completions_loop 0 _ texts _ Htexts). by rewrite add_writes_app.
Qed.

(** X8: after the completions of a structured response are extracted, the
    text of the block of index [i], when it is neither [None] nor empty, is
    what the span holds under [llm.completions.i.content]: no other block
    and no earlier write of the span stands in its place. *)
Theorem completion_text_read_back (response : pydict) (blocks texts : list pyval)
    (s : Span) (i : nat) (t : pyval) :
  truthy (dict_get response "completion") = false ->
  dict_get response "content" = VList blocks ->
  map (fun b => getattr b "text") blocks = map Ok texts ->
  texts !! i = Some t ->
  is_not_None t && ne_empty t = true ->
  attribute (fst (_set_span_completions response s)) (completion_key i) = Some t.
Proof.
  intros Hlegacy Hcontent Hmap Hi Ht.
  assert (Hw : writable t).
  { apply andb_prop in Ht as [Hn He]. split; intros ->; discriminate. }
  rewrite (structured_completions_written response blocks texts) by done.
  unfold attribute. cbn [fst add_writes attributes].
  rewrite !last_write_app.
  pose proof (last_write_indexed completion_key completion_key_inj 0 i texts t Hi Hw) as H.
  cbn [Nat.add] in H. by rewrite H.
Qed.

Lemma completion_text_read_back_witness :
  attribute (fst (_set_span_completions empty_legacy_response fresh_span)) (completion_key 1)
  = Some (VStr "world").
Proof.
  apply (completion_text_read_back empty_legacy_response
           [ VObj "ContentBlock" [("text", VStr "hello")];
             VObj "ContentBlock" [("text", VStr "world")] ]
           [ VStr "hello"; VStr "world" ] fresh_span 1 (VStr "world")); reflexivity.
Defined.

(** X6: after the request attributes are extracted from a message list,
    the recorded content of the message of index [i], when it is not
    empty, is what the span holds under [llm.prompts.i.user]. *)
Theorem prompt_content_read_back (amb : Ambient) (kwargs : pydict)
    (messages dumped : list pyval) (s : Span) (i : nat) (d : pyval) :
  truthy (should_send_prompts amb) = true ->
  dict_get kwargs "prompt" = VNone ->
  dict_get kwargs "messages" = VList messages ->
  map dumped_content messages = map Ok dumped ->
  dumped !! i = Some d ->
  is_not_None d && ne_empty d = true ->
  attribute (fst (_set_input_attributes amb kwargs s)) (prompt_key i) = Some d.
Proof.
  intros Hon Hprompt Hmessages Hdumped Hi Hd.
  assert (Hw : writable d).
  { apply andb_prop in Hd as [Hn He]. split; intros ->; discriminate. }
  rewrite input_parameters_first, Hon, Hprompt, Hmessages. cbn [is_not_None py_iter].
  rewrite bind_lift_Ok. unfold enumerate.
  rewrite (messages_loop 0 messages dumped) by done.
  unfold attribute. cbn [fst add_writes attributes].
  rewrite !last_write_app.
  pose proof (last_write_indexed prompt_key prompt_key_inj 0 i dumped d Hi Hw) as H.
  cbn [Nat.add] in H. by rewrite H.
Qed.

Lemma prompt_content_read_back_witness :
  attribute (fst (_set_input_attributes no_ambient [ ("messages", VList two_messages) ]
                    fresh_span)) (prompt_key 0)
  = Some (VStr "hi").
Proof.
  apply (prompt_content_read_back no_ambient [ ("messages", VList two_messages) ]
           two_messages
           [ VStr "hi";
             VStr ("[{" +:+ quoted "type" +:+ ": " +:+ quoted "text" +:+ ", "
                   +:+ quoted "text" +:+ ": " +:+ quoted "more" +:+ "}]") ]
           fresh_span 0 (VStr "hi")); reflexivity.
Defined.

(** ** Response attributes: the native usage *)

Lemma add_writes_inj (ws ws' : pydict) (s : Span) :
  add_writes ws s = add_writes ws' s -> ws = ws'.
Proof.
  unfold add_writes. intros H. injection H as H. by apply app_inv_head in H.
Qed.

Lemma appends_completion_keys (response : pydict) :
  appends (fun k v => is_completion_key k = true) (_set_span_completions response).
Proof. unfold _set_span_completions. repeat appends_step; intros _; reflexivity. Qed.

Lemma completions_tail (amb : Ambient) (d : pydict) (s : Span) :
  completions_extractable d = true ->
  exists ws,
    (if truthy (should_send_prompts amb) then _set_span_completions d else ret tt) s
    = (add_writes ws s, Ok tt)
    /\ Forall (fun kv => is_completion_key (fst kv) = true) ws.
Proof.
  intros Hcompl. destruct (truthy (should_send_prompts amb)).
  - destruct (span_completions_ok d s Hcompl) as [ws E].
    destruct (appends_completion_keys d s) as (ws' & E' & F).
    rewrite E in E'. simpl in E'. apply add_writes_inj in E' as ->. by exists ws'.
  - exists []. by rewrite add_writes_nil.
Qed.

Lemma getattr_Ok_truthy (v : pyval) (attr : string) (x : pyval) :
  getattr v attr = Ok x -> truthy v = true.
Proof. by destruct v. Qed.

Lemma completion_key_not_usage (ws : pydict) (k : string) :
  is_usage_key k = true ->
  Forall (fun kv => is_completion_key (fst kv) = true) ws ->
  last_write k ws = None.
Proof.
  intros Hk. induction 1 as [| [k' v] rest Hk' _ IH]; [done |].
  simpl. rewrite IH. simpl in Hk'.
  destruct (String.eqb k k') eqn:E; [| done].
  apply String.eqb_eq in E as <-. exfalso.
  unfold is_usage_key in Hk.
  repeat (apply orb_prop in Hk as [Hk | Hk]);
    apply String.eqb_eq in Hk; subst k; discriminate.
Qed.

Lemma response_attributes_with_usage (amb : Ambient) (response : pyval) (d : pydict)
    (input_tokens output_tokens : Z) (s : Span) :
  as_dict response = Ok d ->
  getattr (dict_get d "usage") "input_tokens" = Ok (VInt input_tokens) ->
  getattr (dict_get d "usage") "output_tokens" = Ok (VInt output_tokens) ->
  completions_extractable d = true ->
  exists ws,
    _set_response_attributes amb response s
    = (add_writes
         (written LLM_RESPONSE_MODEL (dict_get d "model")
          ++ [ (LLM_USAGE_PROMPT_TOKENS, VInt input_tokens);
               (LLM_USAGE_COMPLETION_TOKENS, VInt output_tokens);
               (LLM_USAGE_TOTAL_TOKENS, VInt (input_tokens + output_tokens)) ]
          ++ ws) s, Ok tt)
    /\ Forall (fun kv => is_completion_key (fst kv) = true) ws.
Proof.
  intros Hdict Hin Hout Hcompl.
  unfold _set_response_attributes.
  rewrite Hdict, bind_lift_Ok, bind_set_span_attribute.
  rewrite (getattr_Ok_truthy _ _ _ Hin), Hin, Hout.
  rewrite !bind_assoc, bind_lift_Ok. cbv beta.
  rewrite !bind_assoc, bind_lift_Ok. cbv beta.
  rewrite !bind_assoc, bind_set_span_attribute.
  rewrite !bind_assoc, bind_set_span_attribute.
  change (py_add (VInt input_tokens) (VInt output_tokens))
    with (Ok (VInt (input_tokens + output_tokens))).
  rewrite !bind_assoc, bind_lift_Ok. cbv beta. rewrite bind_set_span_attribute.
  match goal with |- context [_ ?s1 = (_, Ok tt)] =>
    destruct (completions_tail amb d s1 Hcompl) as (ws & Hws & F) end.
  exists ws. rewrite Hws, !written_VInt, !add_writes_app.
  split; [| done]. by rewrite <- ?app_assoc.
Qed.

(** X9: when the usage of a response is an object with integer counts, the
    response extraction writes the model, then the prompt tokens, the
    completion tokens and their sum as the total, then completion
    attributes only; right after it the usage attributes of the span are
    the native counts. *)
Theorem native_usage_written (amb : Ambient) (response : pyval) (d : pydict)
    (input_tokens output_tokens : Z) (s : Span) :
  as_dict response = Ok d ->
  getattr (dict_get d "usage") "input_tokens" = Ok (VInt input_tokens) ->
  getattr (dict_get d "usage") "output_tokens" = Ok (VInt output_tokens) ->
  completions_extractable d = true ->
  exists ws,
    _set_response_attributes amb response s
    = (add_writes
         (written LLM_RESPONSE_MODEL (dict_get d "model")
          ++ [ (LLM_USAGE_PROMPT_TOKENS, VInt input_tokens);
               (LLM_USAGE_COMPLETION_TOKENS, VInt output_tokens);
               (LLM_USAGE_TOTAL_TOKENS, VInt (input_tokens + output_tokens)) ]
          ++ ws) s, Ok tt)
    /\ Forall (fun kv => is_completion_key (fst kv) = true) ws
    /\ attribute (fst (_set_response_attributes amb response s)) LLM_USAGE_PROMPT_TOKENS
       = Some (VInt input_tokens)
    /\ attribute (fst (_set_response_attributes amb response s)) LLM_USAGE_COMPLETION_TOKENS
       = Some (VInt output_tokens)
    /\ attribute (fst (_set_response_attributes amb response s)) LLM_USAGE_TOTAL_TOKENS
       = Some (VInt (input_tokens + output_tokens)).
Proof.
  intros Hdict Hin Hout Hcompl.
  destruct (response_attributes_with_usage amb response d input_tokens output_tokens s
              Hdict Hin Hout Hcompl) as (ws & E & F).
  exists ws. split; [exact E |]. split; [exact F |].
  rewrite E. unfold attribute. cbn [fst add_writes attributes].
  rewrite !last_write_app.
  rewrite !(completion_key_not_usage ws) by done. by repeat split.
Qed.

Lemma native_usage_written_witness :
  exists ws,
    _set_response_attributes no_ambient (scenario_response 3 5) fresh_span
    = (add_writes
         (written LLM_RESPONSE_MODEL (VStr "claude-2")
          ++ [ (LLM_USAGE_PROMPT_TOKENS, VInt 3);
               (LLM_USAGE_COMPLETION_TOKENS, VInt 5);
               (LLM_USAGE_TOTAL_TOKENS, VInt (3 + 5)) ]
          ++ ws) fresh_span, Ok tt)
    /\ Forall (fun kv => is_completion_key (fst kv) = true) ws
    /\ attribute (fst (_set_response_attributes no_ambient (scenario_response 3 5) fresh_span))
                 LLM_USAGE_PROMPT_TOKENS = Some (VInt 3)
    /\ attribute (fst (_set_response_attributes no_ambient (scenario_response 3 5) fresh_span))
                 LLM_USAGE_COMPLETION_TOKENS = Some (VInt 5)
    /\ attribute (fst (_set_response_attributes no_ambient (scenario_response 3 5) fresh_span))
                 LLM_USAGE_TOTAL_TOKENS = Some (VInt (3 + 5)).
Proof.
  apply (native_usage_written no_ambient (scenario_response 3 5)
           [ ("model", VStr "claude-2");
             ("content", VList [ VObj "ContentBlock" [("text", VStr "hello")] ]);
             ("stop_reason", VStr "end_turn");
             ("usage", VObj "Usage" [ ("input_tokens", VInt 3);
                                      ("output_tokens", VInt 5) ]) ]
           3 5 fresh_span); reflexivity.
Defined.

(** X10: a usage that is there but has no [input_tokens] attribute (a dict
    instead of an object, for one) makes the response extraction fail right
    after the model is written: no usage and no completion attribute
    follows. *)
Theorem unreadable_usage_stops_extraction (amb : Ambient) (response : pyval) (d : pydict)
    (e : exn) (s : Span) :
  as_dict response = Ok d ->
  truthy (dict_get d "usage") = true ->
  getattr (dict_get d "usage") "input_tokens" = Raise e ->
  _set_response_attributes amb response s
  = (add_writes (written LLM_RESPONSE_MODEL (dict_get d "model")) s, Raise e).
Proof.
  intros Hdict Htruthy Hin. unfold _set_response_attributes.
  rewrite Hdict, bind_lift_Ok, bind_set_span_attribute, Htruthy, Hin.
  reflexivity.
Qed.

Lemma unreadable_usage_stops_extraction_witness :
  _set_response_attributes no_ambient usage_as_dict fresh_span
  = (add_writes [ ("llm.response.model", VStr "claude-2") ] fresh_span,
     Raise (AttributeError (VDict [ ("input_tokens", VInt 3); ("output_tokens", VInt 5) ])
                           "input_tokens")).
Proof.
  apply (unreadable_usage_stops_extraction no_ambient usage_as_dict
           [ ("model", VStr "claude-2");
             ("usage", VDict [ ("input_tokens", VInt 3); ("output_tokens", VInt 5) ]) ]
           (AttributeError (VDict [ ("input_tokens", VInt 3); ("output_tokens", VInt 5) ])
                           "input_tokens") fresh_span); reflexivity.
Defined.

(** ** The fallback writes all of its counts or none *)

(** X11: the fallback leaves no partial usage behind. When it raises, the
    span is as it was, and the exception is the first one on the way to the
    counts: of reading the response, of the tokenizer on the prompt or on a
    message's content, of the tokenizer on the completion or on the first
    block's text, or of adding the two counts. When it returns, the counts
    were all obtained, and what it has attempted is exactly the prompt
    count, the completion count and their sum, in this order. *)
Theorem token_usage_all_or_nothing (anthropic : Client) (request : pydict)
    (response : pyval) (s : Span) :
  match _set_token_usage anthropic request response s with
  | (s', Raise e) =>
      s' = s /\ fallback_counts anthropic request response = Raise e
  | (s', Ok _) =>
      exists prompt_tokens completion_tokens total_tokens,
        fallback_counts anthropic request response
        = Ok (prompt_tokens, completion_tokens, total_tokens)
        /\ py_add prompt_tokens completion_tokens = Ok total_tokens
        /\ s' = add_writes (written LLM_USAGE_PROMPT_TOKENS prompt_tokens
                            ++ written LLM_USAGE_COMPLETION_TOKENS completion_tokens
                            ++ written LLM_USAGE_TOTAL_TOKENS total_tokens) s
  end.
Proof.
  rewrite token_usage_factors.
  destruct (fallback_counts anthropic request response) as [[[p c] t] | e] eqn:Hcounts;
    [| done].
  exists p, c, t. repeat split.
  unfold fallback_counts in Hcounts.
  destruct (as_dict response) as [d |]; [| done]. cbn [rbind] in Hcounts.
  destruct (prompt_count anthropic request) as [p' |]; [| done]. cbn [rbind] in Hcounts.
  destruct (completion_count anthropic d) as [c' |]; [| done]. cbn [rbind] in Hcounts.
  destruct (py_add p' c') as [t' |] eqn:Hadd; [| done]. cbn [rbind] in Hcounts.
  by injection Hcounts as -> -> ->.
Qed.

(** ** The wrapper: exceptions of the response extraction *)

Lemma catchable_Raise {A} (e : exn) : is_Exception e = true -> catchable (A := A) (Raise e).
Proof. by intros H e' [= <-]. Qed.

Lemma catchable_as_dict (response : pyval) : catchable (as_dict response).
Proof. destruct response; first [apply catchable_Ok | by apply catchable_Raise]. Qed.

Lemma catchable_py_add (a b : pyval) : catchable (py_add a b).
Proof.
  unfold py_add. destruct (as_int a), (as_int b); try apply catchable_Ok;
    destruct a, b; first [apply catchable_Ok | by apply catchable_Raise].
Qed.

Lemma catchable_py_sum_from (acc : pyval) (vs : list pyval) : catchable (py_sum_from acc vs).
Proof.
  revert acc. induction vs as [| v rest IH]; intros acc; simpl; [apply catchable_Ok |].
  pose proof (catchable_py_add acc v) as Hadd.
  destruct (py_add acc v) as [acc' | e]; [apply IH |].
  apply catchable_Raise. by apply Hadd.
Qed.

Lemma catchable_py_index0 (v : pyval) : catchable (py_index0 v).
Proof.
  destruct v as [| b | z | str | xs | kvs | cls attrs]; simpl;
    try (by apply catchable_Raise).
  - destruct str; [by apply catchable_Raise | apply catchable_Ok].
  - destruct xs; [by apply catchable_Raise | apply catchable_Ok].
Qed.

Lemma catchable_get_client (instance : Instance) : catchable (get_client instance).
Proof.
  unfold get_client. destruct (_client instance); [apply catchable_Ok |].
  by apply catchable_Raise.
Qed.

Lemma raises_exceptions_comprehension {S A B} (xs : list A) (f : A -> M S B) :
  (forall x, raises_exceptions (f x)) -> raises_exceptions (comprehension xs f).
Proof.
  intros Hf. induction xs as [| x rest IH]; simpl; [apply raises_exceptions_ret |].
  apply raises_exceptions_bind; [apply Hf | intros y].
  apply raises_exceptions_bind; [apply IH | intros ys; apply raises_exceptions_ret].
Qed.

Lemma raises_exceptions_set_span_completions (response : pydict) :
  raises_exceptions (_set_span_completions response).
Proof.
  unfold _set_span_completions.
  apply raises_exceptions_bind; [apply raises_exceptions_set_span_attribute | intros _].
  destruct (truthy (dict_get response "completion"));
    [apply raises_exceptions_set_span_attribute |].
  destruct (truthy (dict_get response "content")); [| apply raises_exceptions_ret].
  apply raises_exceptions_bind;
    [apply raises_exceptions_lift, catchable_py_iter | intros blocks].
  apply raises_exceptions_for_each. intros ic.
  apply raises_exceptions_bind;
    [apply raises_exceptions_lift, catchable_getattr | intros text].
  apply raises_exceptions_set_span_attribute.
Qed.

Lemma raises_exceptions_set_response_attributes (amb : Ambient) (response : pyval) :
  raises_exceptions (_set_response_attributes amb response).
Proof.
  unfold _set_response_attributes.
  apply raises_exceptions_bind;
    [apply raises_exceptions_lift, catchable_as_dict | intros d].
  apply raises_exceptions_bind; [apply raises_exceptions_set_span_attribute | intros _].
  apply raises_exceptions_bind; [| intros _].
  - destruct (truthy (dict_get d "usage")); [| apply raises_exceptions_ret].
    apply raises_exceptions_bind;
      [apply raises_exceptions_lift, catchable_getattr | intros p].
    apply raises_exceptions_bind;
      [apply raises_exceptions_lift, catchable_getattr | intros c].
    apply raises_exceptions_bind; [apply raises_exceptions_set_span_attribute | intros _].
    apply raises_exceptions_bind; [apply raises_exceptions_set_span_attribute | intros _].
    apply raises_exceptions_bind;
      [apply raises_exceptions_lift, catchable_py_add | intros total].
    apply raises_exceptions_set_span_attribute.
  - destruct (truthy (should_send_prompts amb)); [| apply raises_exceptions_ret].
    apply raises_exceptions_set_span_completions.
Qed.

Lemma raises_exceptions_set_token_usage (anthropic : Client) (request : pydict)
    (response : pyval) :
  client_catchable anthropic ->
  raises_exceptions (_set_token_usage anthropic request response).
Proof.
  intros Hclient. unfold _set_token_usage.
  apply raises_exceptions_bind;
    [apply raises_exceptions_lift, catchable_as_dict | intros d].
  apply raises_exceptions_bind; [| intros p].
  { destruct (truthy (dict_get request "prompt"));
      [apply raises_exceptions_lift, Hclient |].
    destruct (truthy (dict_get request "messages")); [| apply raises_exceptions_ret].
    apply raises_exceptions_bind;
      [apply raises_exceptions_lift, catchable_py_iter | intros messages].
    apply raises_exceptions_bind;
      [| intros counts; apply raises_exceptions_lift, catchable_py_sum_from].
    apply raises_exceptions_comprehension. intros m.
    apply raises_exceptions_bind;
      [apply raises_exceptions_lift, catchable_py_get | intros content].
    apply raises_exceptions_lift, Hclient. }
  apply raises_exceptions_bind; [| intros c].
  { destruct (truthy (dict_get d "completion"));
      [apply raises_exceptions_lift, Hclient |].
    destruct (truthy (dict_get d "content")); [| apply raises_exceptions_ret].
    apply raises_exceptions_bind;
      [apply raises_exceptions_lift, catchable_py_index0 | intros first].
    apply raises_exceptions_bind;
      [apply raises_exceptions_lift, catchable_getattr | intros text].
    apply raises_exceptions_lift, Hclient. }
  apply raises_exceptions_bind;
    [apply raises_exceptions_lift, catchable_py_add | intros total].
  apply raises_exceptions_bind; [apply raises_exceptions_set_span_attribute | intros _].
  apply raises_exceptions_bind; [apply raises_exceptions_set_span_attribute | intros _].
  apply raises_exceptions_set_span_attribute.
Qed.

(** The guarded extraction of response attributes and usage never raises
    when the tokenizer raises nothing but [Exception]s: it appends writes
    to the span and may log a warning. *)
Lemma response_block (amb : Ambient) (instance : Instance) (kwargs : pydict)
    (response : pyval) (f : Frame) :
  instance_catchable instance ->
  exists ws log',
    try_except
      (f <- get ;;
       if is_recording (span f) then
         on_span (_set_response_attributes amb response) ;;
         anthropic <- lift (get_client instance) ;;
         on_span (_set_token_usage anthropic kwargs response)
       else ret tt)
      (fun ex =>
         logger_warning "Failed to set response attributes for anthropic span, error: "
                        (exn_msg ex)) f
    = (mkFrame (add_writes ws (span f)) log', Ok tt).
Proof.
  intros Hinst. unfold try_except, bind, get, on_span, logger_warning, ret, lift.
  destruct (is_recording (span f)); cycle 1.
  { exists [], (log f). rewrite add_writes_nil. by destruct f. }
  destruct (appends_set_response_attributes amb response (span f)) as (ws1 & E1 & _).
  pose proof (raises_exceptions_set_response_attributes amb response (span f)) as X1.
  destruct (_set_response_attributes amb response (span f)) as [s1 [[] | e1]];
    simpl in E1, X1; subst s1; cbn [span log].
  - unfold instance_catchable, get_client in *.
    destruct (_client instance) as [anthropic |]; cbn [is_Exception].
    + destruct (appends_set_token_usage anthropic kwargs response
                  (add_writes ws1 (span f))) as (ws2 & E2 & _).
      pose proof (raises_exceptions_set_token_usage anthropic kwargs response Hinst
                    (add_writes ws1 (span f))) as X2.
      destruct (_set_token_usage anthropic kwargs response (add_writes ws1 (span f)))
        as [s2 [[] | e2]]; simpl in E2, X2; subst s2; cbn [span log];
        rewrite add_writes_app.
      * by eexists _, _.
      * rewrite (X2 e2 eq_refl). by eexists _, _.
    + by eexists _, _.
  - rewrite (X1 e1 eq_refl). by eexists _, _.
Qed.

(** ** The wrapper: what a call leaves behind *)

(** X12: on a span that does not record, an instrumented call reads
    nothing of the request or the response and calls no tokenizer: the
    span is closed with the two attributes it started with and its status
    unset, no warning is logged, and the original's value or exception is
    the wrapper's. *)
Theorem non_recording_span_untouched (amb : Ambient) (tracer : Tracer) (to_wrap : pydict)
    (wrapped : Wrapped) (instance : Instance) (args : list pyval) (kwargs : pydict)
    (t : Telemetry) :
  truthy (get_value amb _SUPPRESS_INSTRUMENTATION_KEY) = false ->
  records tracer = false ->
  _wrap amb tracer to_wrap wrapped instance args kwargs t
  = (mkTelemetry
       (spans t ++ [ mkSpan (dict_get to_wrap "span_name") CLIENT initial_attributes
                            UNSET false true ])
       (warnings t),
     wrapped args kwargs).
Proof.
  intros Hflag Hrec. unfold _wrap, _with_tracer_wrapper. rewrite Hflag.
  unfold start_as_current_span, bind, try_except, get, lift, ret, is_recording.
  cbn [span log recording ended]. rewrite Hrec. cbn [andb].
  destruct (wrapped args kwargs) as [response | e]; [| reflexivity].
  destruct (truthy response); reflexivity.
Qed.

Lemma non_recording_span_untouched_witness :
  _wrap no_ambient unsampled_tracer messages_target
        (fun _ _ => Ok (scenario_response 3 5))
        (mkInstance "Messages" (Some interrupted_client)) [] scenario_request (mkTelemetry [] [])
  = (mkTelemetry
       ([] ++ [ mkSpan (VStr "anthropic.completion") CLIENT initial_attributes
                       UNSET false true ])
       [],
     Ok (scenario_response 3 5)).
Proof.
  apply (non_recording_span_untouched no_ambient unsampled_tracer messages_target
           (fun _ _ => Ok (scenario_response 3 5))
           (mkInstance "Messages" (Some interrupted_client))
           [] scenario_request (mkTelemetry [] [])); reflexivity.
Defined.

(** X13: extraction can fail, the call cannot. Whatever the request and
    the response look like, when the original callable returns a value and
    the tokenizer raises nothing but [Exception]s, the wrapper returns that
    value; the span is ended, with the status [OK] exactly when the value
    is truthy and the span records. *)
Theorem call_returns_original_value (amb : Ambient) (tracer : Tracer) (to_wrap : pydict)
    (wrapped : Wrapped) (instance : Instance) (args : list pyval) (kwargs : pydict)
    (t : Telemetry) (v : pyval) :
  truthy (get_value amb _SUPPRESS_INSTRUMENTATION_KEY) = false ->
  wrapped args kwargs = Ok v ->
  instance_catchable instance ->
  exists sp log',
    _wrap amb tracer to_wrap wrapped instance args kwargs t
    = (mkTelemetry (spans t ++ [sp]) log', Ok v)
    /\ ended sp = true
    /\ status sp = (if truthy v && records tracer then OK else UNSET).
Proof.
  intros Hflag Hret Hinst. unfold _wrap, _with_tracer_wrapper. rewrite Hflag.
  unfold start_as_current_span. unfold bind at 1.
  match goal with |- context [try_except ?b ?h ?f] =>
    destruct (request_block amb kwargs f) as (ws1 & log1 & E & _) end.
  rewrite E. rewrite Hret, bind_lift_Ok. cbn [span log].
  destruct (truthy v); cycle 1.
  { unfold bind, ret. cbn [span log]. by eexists _, _. }
  unfold bind at 1. unfold bind at 1.
  match goal with |- context [try_except ?b ?h ?f] =>
    destruct (response_block amb instance kwargs v f Hinst) as (ws2 & log2 & E2) end.
  rewrite E2. unfold bind, get, on_span, modify, ret, is_recording.
  cbn [span log add_writes recording ended andb negb].
  destruct (records tracer); cbn [span log andb]; by eexists _, _.
Qed.

Lemma call_returns_original_value_witness :
  exists sp log',
    _wrap no_ambient sample_tracer messages_target (fun _ _ => Ok usage_as_dict)
          (mkInstance "Messages" None) [] [ ("messages", VInt 5) ] (mkTelemetry [] [])
    = (mkTelemetry ([] ++ [sp]) log', Ok usage_as_dict)
    /\ ended sp = true
    /\ status sp = OK.
Proof.
  apply (call_returns_original_value no_ambient sample_tracer messages_target
           (fun _ _ => Ok usage_as_dict) (mkInstance "Messages" None) [] [ ("messages", VInt 5) ]
           (mkTelemetry [] []) usage_as_dict).
  - reflexivity.
  - reflexivity.
  - exact I.
Defined.

(** ** The wrapper: one span for each call *)

Lemma extends_refl (f : Frame) : extends f f.
Proof.
  exists [], (status (span f)), []. rewrite app_nil_r. split; [| done].
  destruct f as [[n k a st r e] l]. unfold set_status, add_writes; simpl.
  by rewrite app_nil_r.
Qed.

Lemma extends_trans (f1 f2 f3 : Frame) : extends f1 f2 -> extends f2 f3 -> extends f1 f3.
Proof.
  intros (ws1 & st1 & new1 & S1 & L1) (ws2 & st2 & new2 & S2 & L2).
  exists (ws1 ++ ws2), st2, (new1 ++ new2). split.
  - rewrite S2, S1. unfold set_status, add_writes; simpl. by rewrite app_assoc.
  - rewrite L2, L1. by rewrite app_assoc.
Qed.

Lemma extending_ret {A} (a : A) : extending (ret a).
Proof. intros f. apply extends_refl. Qed.

Lemma extending_lift {A} (r : result A) : extending (lift r).
Proof. intros f. apply extends_refl. Qed.

Lemma extending_logger_warning fmt arg : extending (logger_warning fmt arg).
Proof.
  intros f. exists [], (status (span f)), [fmt +:+ arg]. split; [| done].
  destruct f as [[n k a st r e] l]. unfold set_status, add_writes; simpl.
  by rewrite app_nil_r.
Qed.

Lemma extending_bind {A B} (m : M Frame A) (k : A -> M Frame B) :
  extending m -> (forall a, extending (k a)) -> extending (bind m k).
Proof.
  intros Hm Hk f. unfold bind. specialize (Hm f).
  destruct (m f) as [f1 [a | e]]; simpl in *; [| done].
  eapply extends_trans; [exact Hm | apply Hk].
Qed.

Lemma extending_get {B} (k : Frame -> M Frame B) :
  (forall f, extending (k f)) -> extending (bind get k).
Proof. intros Hk f. unfold bind, get. apply Hk. Qed.

Lemma extending_try_except (body : M Frame unit) (handler : exn -> M Frame unit) :
  extending body -> (forall e, extending (handler e)) -> extending (try_except body handler).
Proof.
  intros Hb Hh f. unfold try_except. specialize (Hb f).
  destruct (body f) as [f1 [u | e]]; simpl in *; [done |].
  destruct (is_Exception e); [| done].
  eapply extends_trans; [exact Hb | apply Hh].
Qed.

Lemma extending_on_span {A} (K : string -> pyval -> Prop) (m : M Span A) :
  appends K m -> extending (on_span m).
Proof.
  intros Hm f. unfold on_span. destruct (Hm (span f)) as (ws & E & _).
  destruct (m (span f)) as [s1 r]; simpl in *. subst s1.
  exists ws, (status (span f)), []. rewrite app_nil_r. split; [| done]. simpl.
  by destruct (span f).
Qed.

Lemma extending_set_status code : extending (on_span (modify (set_status code))).
Proof.
  intros f. exists [], code, []. rewrite app_nil_r. split; [| done]. simpl.
  unfold set_status, add_writes; simpl. by rewrite app_nil_r.
Qed.

Lemma wrap_body_extending (amb : Ambient) (wrapped : Wrapped) (instance : Instance)
    (args : list pyval) (kwargs : pydict) :
  extending
    (try_except
       (f <- get ;;
        if is_recording (span f) then on_span (_set_input_attributes amb kwargs)
        else ret tt)
       (fun ex =>
          logger_warning "Failed to set input attributes for anthropic span, error: "
                         (exn_msg ex)) ;;
     response <- lift (wrapped args kwargs) ;;
     (if truthy response then
        try_except
          (f <- get ;;
           if is_recording (span f) then
             on_span (_set_response_attributes amb response) ;;
             anthropic <- lift (get_client instance) ;;
             on_span (_set_token_usage anthropic kwargs response)
           else ret tt)
          (fun ex =>
             logger_warning
               "Failed to set response attributes for anthropic span, error: "
               (exn_msg ex)) ;;
        f <- get ;;
        if is_recording (span f) then on_span (modify (set_status OK))
        else ret tt
      else ret tt) ;;
     ret response).
Proof.
  apply extending_bind; [| intros _].
  { apply extending_try_except; [| intros ex; apply extending_logger_warning].
    apply extending_get; intros f. destruct (is_recording (span f)).
    - apply (extending_on_span request_write), appends_set_input_attributes.
    - apply extending_ret. }
  apply extending_bind; [apply extending_lift | intros response].
  apply extending_bind; [| intros _; apply extending_ret].
  destruct (truthy response); [| apply extending_ret].
  apply extending_bind; [| intros _].
  { apply extending_try_except; [| intros ex; apply extending_logger_warning].
    apply extending_get; intros f. destruct (is_recording (span f)).
    - apply extending_bind; [| intros _].
      + apply (extending_on_span any_write), appends_set_response_attributes.
      + apply extending_bind; [apply extending_lift | intros anthropic].
        apply (extending_on_span any_write), appends_set_token_usage.
    - apply extending_ret. }
  apply extending_get; intros f. destruct (is_recording (span f)).
  - apply extending_set_status.
  - apply extending_ret.
Qed.

(** X14: every instrumented call, however it ends (a value, an exception
    of the original, an exception out of the tokenizer), hands over exactly
    one span: named as its target says, of kind [CLIENT], ended, and
    starting with the vendor and the request type. Spans and warnings that
    were there before stay, in their order. *)
Theorem one_span_per_call (amb : Ambient) (tracer : Tracer) (to_wrap : pydict)
    (wrapped : Wrapped) (instance : Instance) (args : list pyval) (kwargs : pydict)
    (t : Telemetry) :
  truthy (get_value amb _SUPPRESS_INSTRUMENTATION_KEY) = false ->
  exists sp new ws,
    fst (_wrap amb tracer to_wrap wrapped instance args kwargs t)
    = mkTelemetry (spans t ++ [sp]) (warnings t ++ new)
    /\ span_name sp = dict_get to_wrap "span_name"
    /\ span_kind sp = CLIENT
    /\ ended sp = true
    /\ attributes sp = [ ("llm.vendor", VStr "Anthropic");
                         ("llm.request.type", VStr "completion") ] ++ ws.
Proof.
  intros Hflag. unfold _wrap, _with_tracer_wrapper. rewrite Hflag.
  unfold start_as_current_span.
  match goal with |- context [fst (match ?body ?f0 with _ => _ end)] =>
    destruct (wrap_body_extending amb wrapped instance args kwargs f0)
      as (ws & st & new & S & L);
    destruct (body f0) as [f r] end.
  cbn [fst span log] in *. exists (end_span (span f)), new, ws.
  rewrite L, S. by repeat split.
Qed.

Lemma one_span_per_call_witness :
  exists sp new ws,
    fst (_wrap no_ambient sample_tracer messages_target (fun _ _ => Raise api_error)
               (mkInstance "Messages" None) [] scenario_request (mkTelemetry [fresh_span] ["earlier"]))
    = mkTelemetry ([fresh_span] ++ [sp]) (["earlier"] ++ new)
    /\ span_name sp = VStr "anthropic.completion"
    /\ span_kind sp = CLIENT
    /\ ended sp = true
    /\ attributes sp = [ ("llm.vendor", VStr "Anthropic");
                         ("llm.request.type", VStr "completion") ] ++ ws.
Proof.
  apply (one_span_per_call no_ambient sample_tracer messages_target
           (fun _ _ => Raise api_error) (mkInstance "Messages" None) [] scenario_request
           (mkTelemetry [fresh_span] ["earlier"])).
  reflexivity.
Defined.

(** ** The wrapper: when the response extraction fails *)

(** X15: a truthy response that is neither a dict nor an object (a
    number, a string, a list) cannot be read. The failure is logged as one
    warning with the text of the exception, no response attribute is
    written, and the call still ends with the status [OK] and the value
    returned. *)
Theorem unreadable_response_is_logged (amb : Ambient) (tracer : Tracer) (to_wrap : pydict)
    (wrapped : Wrapped) (instance : Instance) (args : list pyval) (kwargs : pydict)
    (t : Telemetry) (response : pyval) (e : exn) :
  truthy (get_value amb _SUPPRESS_INSTRUMENTATION_KEY) = false ->
  records tracer = true ->
  wrapped args kwargs = Ok response ->
  truthy response = true ->
  as_dict response = Raise e ->
  exists sp log1,
    _wrap amb tracer to_wrap wrapped instance args kwargs t
    = (mkTelemetry (spans t ++ [sp])
         (log1 ++ [ "Failed to set response attributes for anthropic span, error: "
                    +:+ exn_msg e ]),
       Ok response)
    /\ status sp = OK
    /\ ended sp = true
    /\ Forall (fun kv => is_response_key (fst kv) = false) (attributes sp).
Proof.
  intros Hflag Hrec Hret Htruthy Hdict.
  pose proof (catchable_as_dict response e Hdict) as Hexn.
  unfold _wrap, _with_tracer_wrapper. rewrite Hflag.
  unfold start_as_current_span. unfold bind at 1.
  match goal with |- context [try_except ?b ?h ?f] =>
    destruct (request_block amb kwargs f) as (ws1 & log1 & E & F) end.
  rewrite E. rewrite Hret, bind_lift_Ok. rewrite Htruthy. cbn [span log].
  match goal with |- context [add_writes ws1 ?s0] => set (s1 := add_writes ws1 s0) end.
  assert (HR1 : is_recording s1 = true).
  { unfold is_recording. cbn. by rewrite Hrec. }
  assert (E2 : _set_response_attributes amb response s1 = (s1, Raise e)).
  { unfold _set_response_attributes, bind, lift. by rewrite Hdict. }
  unfold bind, try_except, get, on_span, lift, modify, ret, logger_warning.
  repeat first [ progress cbn [span log] | rewrite HR1 | rewrite E2 | rewrite Hexn ].
  eexists _, log1. split; [reflexivity |]. split; [reflexivity |]. split; [reflexivity |].
  subst s1. cbn [attributes end_span set_status add_writes].
  apply (Forall_app _ initial_attributes ws1).
  split; [apply initial_attributes_not_response | by apply request_write_not_response].
Qed.

Lemma unreadable_response_is_logged_witness :
  exists sp log1,
    _wrap no_ambient sample_tracer messages_target (fun _ _ => Ok (VStr "pong"))
          (mkInstance "Messages" (Some length_client)) [] scenario_request (mkTelemetry [] [])
    = (mkTelemetry ([] ++ [sp])
         (log1 ++ [ "Failed to set response attributes for anthropic span, error: "
                    +:+ exn_msg (AttributeError (VStr "pong") "__dict__") ]),
       Ok (VStr "pong"))
    /\ status sp = OK
    /\ ended sp = true
    /\ Forall (fun kv => is_response_key (fst kv) = false) (attributes sp).
Proof.
  apply (unreadable_response_is_logged no_ambient sample_tracer messages_target
           (fun _ _ => Ok (VStr "pong")) (mkInstance "Messages" (Some length_client)) []
           scenario_request (mkTelemetry [] []) (VStr "pong")
           (AttributeError (VStr "pong") "__dict__")); reflexivity.
Defined.



(** X17: the guard around the response extraction catches [Exception]s
    only. An exception of the tokenizer that is none (an interrupt from the
    keyboard) leaves the wrapper although the original callable had
    returned: the response is lost to the caller, and the span is ended
    without the status [OK]. *)
Theorem tokenizer_interrupt_escapes (amb : Ambient) (tracer : Tracer) (to_wrap : pydict)
    (wrapped : Wrapped) (instance : Instance) (args : list pyval) (kwargs : pydict)
    (t : Telemetry) (response : pyval) (d : pydict) (anthropic : Client) (e : exn) :
  truthy (get_value amb _SUPPRESS_INSTRUMENTATION_KEY) = false ->
  records tracer = true ->
  wrapped args kwargs = Ok response ->
  truthy response = true ->
  as_dict response = Ok d ->
  usage_extractable d = true ->
  completions_extractable d = true ->
  _client instance = Some anthropic ->
  truthy (dict_get kwargs "prompt") = true ->
  count_tokens anthropic (dict_get kwargs "prompt") = Raise e ->
  is_Exception e = false ->
  exists sp log1,
    _wrap amb tracer to_wrap wrapped instance args kwargs t
    = (mkTelemetry (spans t ++ [sp]) log1, Raise e)
    /\ ended sp = true
    /\ status sp = UNSET.
Proof.
  intros Hflag Hrec Hret Htruthy Hdict Husage Hcompl Hclient Hprompt Hcount Hexn.
  unfold _wrap, _with_tracer_wrapper. rewrite Hflag.
  unfold start_as_current_span. unfold bind at 1.
  match goal with |- context [try_except ?b ?h ?f] =>
    destruct (request_block amb kwargs f) as (ws1 & log1 & E & _) end.
  rewrite E. rewrite Hret, bind_lift_Ok. rewrite Htruthy. cbn [span log].
  match goal with |- context [add_writes ws1 ?s0] => set (s1 := add_writes ws1 s0) end.
  destruct (response_attributes_ok amb response d s1 Hdict Husage Hcompl) as [ws2 E2].
  set (s2 := add_writes ws2 s1) in *.
  assert (E3 : _set_token_usage anthropic kwargs response s2 = (s2, Raise e)).
  { unfold _set_token_usage. rewrite Hdict, bind_lift_Ok, Hprompt.
    unfold bind, lift. by rewrite Hcount. }
  assert (HR1 : is_recording s1 = true).
  { unfold is_recording. cbn. by rewrite Hrec. }
  unfold bind, try_except, get, on_span, lift, modify, ret, get_client.
  repeat first [ progress cbn [span log] | rewrite HR1 | rewrite E2 | rewrite Hclient
               | rewrite E3 | rewrite Hexn ].
  by eexists _, log1.
Qed.

Lemma tokenizer_interrupt_escapes_witness :
  exists sp log1,
    _wrap no_ambient sample_tracer completions_target (fun _ _ => Ok truncated_completion)
          (mkInstance "Completions" (Some interrupted_client)) [] legacy_request
          (mkTelemetry [] [])
    = (mkTelemetry ([] ++ [sp]) log1, Raise keyboard_interrupt)
    /\ ended sp = true
    /\ status sp = UNSET.
Proof.
  apply (tokenizer_interrupt_escapes no_ambient sample_tracer completions_target
           (fun _ _ => Ok truncated_completion)
           (mkInstance "Completions" (Some interrupted_client)) []
           legacy_request (mkTelemetry [] []) truncated_completion
           [ ("completion", VStr EmptyString); ("stop_reason", VStr "max_tokens");
             ("model", VStr "claude-2") ]
           interrupted_client keyboard_interrupt); reflexivity.
Defined.

(** ** Install and remove: the targets one by one *)

Lemma set_method_other_module (modules : Modules) m c a f m' :
  m <> m' -> set_method m c a f modules !! m' = modules !! m'.
Proof.
  unfold set_method. intros Hne.
  destruct (modules !! m) as [module |] eqn:Hm; [| done].
  destruct (module !! c) as [cls |] eqn:Hc; [| done].
  by rewrite lookup_insert_ne.
Qed.

Lemma lookup_set_method_other_target (modules : Modules) m c a f m' c' a' :
  (m, c, a) <> (m', c', a') ->
  lookup_method (set_method m c a f modules) m' c' a' = lookup_method modules m' c' a'.
Proof.
  intros Hne. destruct (decide (m = m')) as [<- |]; [| by apply lookup_set_method_other].
  unfold lookup_method, set_method.
  destruct (modules !! m) as [module |] eqn:Hm; rewrite ?Hm; [| done].
  destruct (module !! c) as [cls |] eqn:Hc; rewrite ?Hm; [| done].
  rewrite lookup_insert_eq.
  destruct (decide (c = c')) as [<- |]; [| by rewrite lookup_insert_ne].
  rewrite lookup_insert_eq, Hc.
  destruct (decide (a = a')) as [<- |]; [congruence | by rewrite lookup_insert_ne].
Qed.

Lemma unwrap_other_target release obj attr (modules : Modules) m c m' c' a' :
  rsplit_dot obj = Some (m, c) ->
  (m, c) <> (m', c') ->
  lookup_method (fst (unwrap release obj attr modules)) m' c' a'
  = lookup_method modules m' c' a'.
Proof.
  intros Hobj Hne. unfold unwrap.
  destruct attr as [| | | attr | | |]; try done.
  destruct release; [done |]. rewrite Hobj. unfold bind, get.
  destruct (modules !! m) as [module |] eqn:Hm; [| done].
  destruct (module !! c) as [cls |] eqn:Hc; [| done].
  destruct (cls !! attr) as [[q | w tr tw] |]; try done.
  unfold modify. simpl. apply lookup_set_method_other_target. congruence.
Qed.

(** X18: when both targets resolve, Install succeeds and rebinds exactly
    the two [create] methods: each is a wrapper around the method it
    found, carrying the tracer and the registry entry of its own target;
    every other method of every module is what it was. *)
Theorem install_wraps_exactly_the_targets (__version__ : string)
    (global_provider : TracerProvider) (tracer_provider : option TracerProvider)
    (modules : Modules) (original_completions original_messages : method) :
  lookup_method modules completions_module "Completions" "create"
  = Some original_completions ->
  lookup_method modules messages_module "Messages" "create" = Some original_messages ->
  let tracer := get_tracer global_provider __name__ __version__ tracer_provider in
  let installed := fst (_instrument __version__ global_provider tracer_provider modules) in
  snd (_instrument __version__ global_provider tracer_provider modules) = Ok tt
  /\ lookup_method installed completions_module "Completions" "create"
     = Some (FunctionWrapper original_completions tracer completions_target)
  /\ lookup_method installed messages_module "Messages" "create"
     = Some (FunctionWrapper original_messages tracer messages_target)
  /\ forall m c a,
       (m, c, a) <> (completions_module, "Completions", "create") ->
       (m, c, a) <> (messages_module, "Messages", "create") ->
       lookup_method installed m c a = lookup_method modules m c a.
Proof.
  intros Hc Hm tracer installed. subst installed.
  rewrite (instrument_wraps_both _ _ _ _ _ _ Hc Hm). cbn [fst snd].
  split; [done |]. split; [| split].
  - rewrite lookup_set_method_other by discriminate.
    by eapply lookup_set_method_same.
  - eapply lookup_set_method_same.
    rewrite lookup_set_method_other; [exact Hm | discriminate].
  - intros m c a H1 H2.
    rewrite lookup_set_method_other_target by congruence.
    by rewrite lookup_set_method_other_target by congruence.
Qed.

Lemma install_wraps_exactly_the_targets_witness :
  snd (_instrument "0.1.0" (mkTracerProvider true) None anthropic_sdk) = Ok tt
  /\ lookup_method (fst (_instrument "0.1.0" (mkTracerProvider true) None anthropic_sdk))
       completions_module "Completions" "create"
     = Some (FunctionWrapper (Original "Completions.create") sample_tracer completions_target).
Proof.
  pose proof (install_wraps_exactly_the_targets "0.1.0" (mkTracerProvider true) None
                anthropic_sdk (Original "Completions.create") (Original "Messages.create")
                eq_refl eq_refl) as H.
  cbv zeta in H. destruct H as (H1 & H2 & _). split; [exact H1 | exact H2].
Defined.

(** X19: Install can stop half way. When the completions target resolves
    and the messages module cannot be imported (a client library from
    before the messages API), Install raises, and [Completions.create] has
    been rebound to its wrapper all the same. *)
Theorem install_stops_at_missing_module (__version__ : string)
    (global_provider : TracerProvider) (tracer_provider : option TracerProvider)
    (modules : Modules) (original_completions : method) :
  lookup_method modules completions_module "Completions" "create"
  = Some original_completions ->
  modules !! messages_module = None ->
  let tracer := get_tracer global_provider __name__ __version__ tracer_provider in
  exists e,
    _instrument __version__ global_provider tracer_provider modules
    = (set_method completions_module "Completions" "create"
         (FunctionWrapper original_completions tracer completions_target) modules,
       Raise e)
    /\ exn_type e = "ModuleNotFoundError".
Proof.
  intros Hc Hm tracer. unfold _instrument, WRAPPED_METHODS. cbn [for_each].
  erewrite bind_Ok; cycle 1.
  { apply (wrap_function_wrapper_resolved modules completions_module _
             "Completions" "create" original_completions); [reflexivity | exact Hc]. }
  unfold bind at 1. cbn [dict_get assoc String.eqb Ascii.eqb Bool.eqb].
  unfold wrap_function_wrapper at 1. unfold bind at 1. unfold get at 1.
  rewrite set_method_other_module by discriminate.
  unfold messages_module in Hm. rewrite Hm.
  eexists. split; reflexivity.
Qed.

Lemma install_stops_at_missing_module_witness :
  exists e,
    _instrument "0.1.0" (mkTracerProvider true) None legacy_sdk
    = (set_method completions_module "Completions" "create"
         (FunctionWrapper (Original "Completions.create") sample_tracer completions_target)
         legacy_sdk,
       Raise e)
    /\ exn_type e = "ModuleNotFoundError".
Proof.
  apply (install_stops_at_missing_module "0.1.0" (mkTracerProvider true) None legacy_sdk
           (Original "Completions.create")); reflexivity.
Defined.

(** X20: with an [unwrap] that resolves dotted paths, Remove after Install
    gives [Completions.create] its original method back. *)
Theorem remove_restores_completions (__version__ : string)
    (global_provider : TracerProvider) (tracer_provider : option TracerProvider)
    (modules : Modules) (original_completions original_messages : method) :
  lookup_method modules completions_module "Completions" "create"
  = Some original_completions ->
  lookup_method modules messages_module "Messages" "create" = Some original_messages ->
  let installed := fst (_instrument __version__ global_provider tracer_provider modules) in
  let removed := fst (_uninstrument DottedPaths installed) in
  lookup_method removed completions_module "Completions" "create"
  = Some original_completions.
Proof.
  intros Hc Hm installed removed. subst removed installed.
  rewrite (instrument_wraps_both _ _ _ _ _ _ Hc Hm). cbn [fst].
  match goal with |- context [_uninstrument DottedPaths ?mods] => set (modules1 := mods) end.
  assert (H1 : lookup_method modules1 completions_module "Completions" "create"
               = Some (FunctionWrapper original_completions
                         (get_tracer global_provider __name__ __version__ tracer_provider)
                         (nth 0 WRAPPED_METHODS []))).
  { subst modules1. rewrite lookup_set_method_other by discriminate.
    by eapply lookup_set_method_same. }
  unfold _uninstrument, WRAPPED_METHODS. cbn [for_each].
  assert (E1 : unwrap DottedPaths
                 ("anthropic.resources.completions." +:+ py_str (VStr "Completions"))
                 (VStr "create") modules1
               = (set_method completions_module "Completions" "create"
                    original_completions modules1, Ok tt)).
  { unfold unwrap. cbn [py_str]. 
    change (rsplit_dot ("anthropic.resources.completions." +:+ "Completions"))
      with (Some (completions_module, "Completions")).
    unfold bind, get. unfold lookup_method in H1.
    destruct (modules1 !! completions_module) as [module |]; [| done].
    destruct (module !! "Completions") as [cls |]; [| done].
    by rewrite H1. }
  unfold bind at 1.
  change (dict_get (nth 0 WRAPPED_METHODS []) "object") with (VStr "Completions").
  cbn [dict_get assoc String.eqb Ascii.eqb Bool.eqb].
  rewrite E1. unfold bind at 1.
  match goal with |- context [unwrap DottedPaths ?obj ?attr ?mods] =>
    pose proof (unwrap_other_target DottedPaths obj attr mods completions_module
                  "Messages" completions_module "Completions" "create" eq_refl) as H2;
    destruct (unwrap DottedPaths obj attr mods) as [modules3 [[] | e]] end;
    unfold ret; cbn [fst] in H2 |- *; rewrite H2 by discriminate;
    by eapply lookup_set_method_same.
Qed.

Lemma remove_restores_completions_witness :
  lookup_method
    (fst (_uninstrument DottedPaths
            (fst (_instrument "0.1.0" (mkTracerProvider true) None anthropic_sdk))))
    completions_module "Completions" "create"
  = Some (Original "Completions.create").
Proof.
  apply (remove_restores_completions "0.1.0" (mkTracerProvider true) None anthropic_sdk
           (Original "Completions.create") (Original "Messages.create")); reflexivity.
Defined.

(** X21: with an [unwrap] that resolves dotted paths, Remove after a
    successful Install does not return: it raises an [ImportError], because
    it looks the messages target up in the completions module, which holds
    no class [Messages]. *)
Theorem remove_raises_for_messages (__version__ : string)
    (global_provider : TracerProvider) (tracer_provider : option TracerProvider)
    (modules : Modules) (module : gmap string (gmap string method))
    (original_completions original_messages : method) :
  modules !! completions_module = Some module ->
  module !! "Messages" = None ->
  lookup_method modules completions_module "Completions" "create"
  = Some original_completions ->
  lookup_method modules messages_module "Messages" "create" = Some original_messages ->
  let installed := _instrument __version__ global_provider tracer_provider modules in
  snd installed = Ok tt
  /\ exists e,
       snd (_uninstrument DottedPaths (fst installed)) = Raise e
       /\ exn_type e = "ImportError".
Proof.
  intros Hmodule Hmessages Hc Hm installed. subst installed.
  rewrite (instrument_wraps_both _ _ _ _ _ _ Hc Hm). cbn [fst snd]. split; [done |].
  match goal with |- context [_uninstrument DottedPaths ?mods] => set (modules1 := mods) end.
  assert (Hcls : exists cls, module !! "Completions" = Some cls).
  { unfold lookup_method in Hc. rewrite Hmodule in Hc.
    destruct (module !! "Completions") as [cls |]; [by eexists | done]. }
  destruct Hcls as [cls Hcls].
  assert (H1 : exists module1 cls1,
             modules1 !! completions_module = Some module1
             /\ module1 !! "Completions" = Some cls1
             /\ module1 !! "Messages" = None).
  { subst modules1. unfold set_method at 2. rewrite Hmodule, Hcls.
    unfold set_method, lookup_method in *.
    rewrite lookup_insert_ne by discriminate.
    destruct (modules !! messages_module) as [mm |]; [| done].
    destruct (mm !! "Messages") as [mc |]; [| done].
    rewrite lookup_insert_ne by discriminate. rewrite lookup_insert_eq.
    eexists _, _. split; [reflexivity |]. rewrite lookup_insert_eq.
    split; [reflexivity |]. by rewrite lookup_insert_ne. }
  destruct H1 as (module1 & cls1 & Hmodule1 & Hcls1 & Hmessages1).
  unfold _uninstrument, WRAPPED_METHODS. cbn [for_each].
  unfold bind at 1. cbn [dict_get assoc String.eqb Ascii.eqb Bool.eqb py_str].
  unfold unwrap at 1.
  change (rsplit_dot ("anthropic.resources.completions." +:+ "Completions"))
    with (Some (completions_module, "Completions")).
  unfold bind at 1. unfold get at 1. rewrite Hmodule1, Hcls1.
  assert (Hsecond : forall modules2 : Modules,
             (exists module2, modules2 !! completions_module = Some module2
                              /\ module2 !! "Messages" = None) ->
             exists e,
               snd ((unwrap DottedPaths ("anthropic.resources.completions." +:+ "Messages")
                       (VStr "create") ;; ret tt) modules2) = Raise e
               /\ exn_type e = "ImportError").
  { intros modules2 (module2 & H1 & H2). unfold unwrap.
    change (rsplit_dot ("anthropic.resources.completions." +:+ "Messages"))
      with (Some (completions_module, "Messages")).
    unfold bind, get. rewrite H1, H2. cbn [snd raise]. by eexists. }
  destruct (cls1 !! "create") as [[q | w tr tw] |].
  - unfold ret at 1. apply Hsecond. by exists module1.
  - unfold modify. apply Hsecond. unfold set_method. rewrite Hmodule1, Hcls1.
    eexists. rewrite lookup_insert_eq. split; [done |]. by rewrite lookup_insert_ne.
  - unfold ret at 1. apply Hsecond. by exists module1.
Qed.

Lemma remove_raises_for_messages_witness :
  snd (_instrument "0.1.0" (mkTracerProvider true) None anthropic_sdk) = Ok tt
  /\ exists e,
       snd (_uninstrument DottedPaths
              (fst (_instrument "0.1.0" (mkTracerProvider true) None anthropic_sdk)))
       = Raise e
       /\ exn_type e = "ImportError".
Proof.
  apply (remove_raises_for_messages "0.1.0" (mkTracerProvider true) None anthropic_sdk
           {[ "Completions" := {[ "create" := Original "Completions.create" ]} ]}
           (Original "Completions.create") (Original "Messages.create")); reflexivity.
Defined.
